(** * dbmfview: the holdings worker of [src/index.js]

    A shallow embedding of the Cloudflare worker that downloads the DBMF
    holdings spreadsheet, looks up a daily change for every ticker, computes
    every holding's contribution and renders the sorted table, and of its
    earlier revision, which renders the holdings without quotes.

    Conventions of the embedding:
    - a JavaScript string is the list of its UTF-16 code units;
    - a JavaScript number is an IEEE 754 binary64 value, [spec_float] with
      precision 53 and maximal exponent 1024, computed with the operations
      of [SpecFloat];
    - a value that the worker reads from a cell of the spreadsheet or from
      a JSON body is a primitive value ([jsval]);
    - the network ([Network]), the spreadsheet parser and the clock are
      inputs; code that can throw runs in a small exception monad ([M])
      that also records the calls that leave the worker;
    - the built-in functions that the worker calls ([String], [parseFloat],
      [trim], [Array.prototype.sort], [Intl.NumberFormat],
      [encodeURIComponent], ...) are written out after ECMAScript. *)

From Stdlib Require Import ZArith NArith List Bool Lia String Ascii.
From Stdlib Require Import Permutation Sorted.
From Stdlib Require Import Floats.SpecFloat.
From stdpp Require Import base gmap list.

(** ** Strings *)

Module JsString.

Definition jsstring : Type := list N.

(** A string literal of the source, all of whose characters are ASCII. *)
Definition js (s : string) : jsstring :=
  List.map N_of_ascii (list_ascii_of_string s).

(** The double quote, U+0022. *)
Definition dq : N := 34%N.

Definition streq (s t : jsstring) : bool := bool_decide (s = t).

(** [A-Z] and [\d] of the regular expressions of the source. *)
Definition isUpper (c : N) : bool := (65 <=? c)%N && (c <=? 90)%N.
Definition isDigit (c : N) : bool := (48 <=? c)%N && (c <=? 57)%N.

(** WhiteSpace and LineTerminator of ECMAScript, which [trim] strips. *)
Definition isWhiteSpace (c : N) : bool :=
  ((9 <=? c)%N && (c <=? 13)%N)
  || (c =? 32)%N || (c =? 160)%N || (c =? 5760)%N
  || ((8192 <=? c)%N && (c <=? 8202)%N)
  || (c =? 8232)%N || (c =? 8233)%N || (c =? 8239)%N || (c =? 8287)%N
  || (c =? 12288)%N || (c =? 65279)%N.

Fixpoint trimStart (s : jsstring) : jsstring :=
  match s with
  | c :: s' => if isWhiteSpace c then trimStart s' else s
  | [] => []
  end.

Definition trimEnd (s : jsstring) : jsstring := rev (trimStart (rev s)).

(** [s.trim()] *)
Definition trim (s : jsstring) : jsstring := trimEnd (trimStart s).

(** [s.slice(i, j)] for [0 <= i <= j]. *)
Definition slice (i j : nat) (s : jsstring) : jsstring :=
  take (j - i) (drop i s).

Fixpoint startsWith (p s : jsstring) : bool :=
  match p, s with
  | [], _ => true
  | a :: p', b :: s' => (a =? b)%N && startsWith p' s'
  | _ :: _, [] => false
  end.

(** [s.replace(p, r)] with a string pattern: the first occurrence only. *)
Fixpoint replace (p r s : jsstring) : jsstring :=
  if startsWith p s then r ++ drop (length p) s
  else match s with
       | c :: s' => c :: replace p r s'
       | [] => []
       end.

(** [s.includes(p)] *)
Fixpoint includes (p s : jsstring) : bool :=
  startsWith p s ||
  match s with
  | _ :: s' => includes p s'
  | [] => false
  end.

(** Decimal numeral of a natural number, as [String] gives it for an
    integer below 10^21. *)
Fixpoint digitsOfN (fuel : nat) (n : N) (acc : jsstring) : jsstring :=
  match fuel with
  | O => acc
  | S fuel' =>
      let acc' := (48 + n mod 10)%N :: acc in
      if (n <? 10)%N then acc' else digitsOfN fuel' (n / 10)%N acc'
  end.

Definition decimal (n : N) : jsstring :=
  digitsOfN (S (N.to_nat (N.log2 n))) n [].

End JsString.
Import JsString.

(** ** Numbers *)

Module JsNumber.

Definition number : Type := spec_float.

Definition prec : Z := 53.
Definition emax : Z := 1024.

Definition NaN : number := S754_nan.
Definition zero : number := S754_zero false.

Definition add : number -> number -> number := SFadd prec emax.
Definition sub : number -> number -> number := SFsub prec emax.
Definition mul : number -> number -> number := SFmul prec emax.
Definition div : number -> number -> number := SFdiv prec emax.

(** [x < y], [x > y], [x <= y] and [x == y] on numbers; all are false
    when an operand is NaN. *)
Definition ltb (x y : number) : bool := SFltb x y.
Definition gtb (x y : number) : bool := SFltb y x.
Definition leb (x y : number) : bool := SFleb x y.
Definition eqb (x y : number) : bool := SFeqb x y.

Definition isNaN (x : number) : bool :=
  match x with S754_nan => true | _ => false end.

(** The representation invariant of a binary64 value: a finite value has
    its canonical mantissa and exponent. *)
Definition wellFormed (x : number) : Prop := valid_binary prec emax x = true.

(** The number nearest to the integer [z] (ties to even). *)
Definition ofZ (z : Z) : number := binary_normalize prec emax z 0 false.

(** The number nearest to [(-1)^neg * num / den] (ties to even). *)
Definition ofRatio (neg : bool) (num den : positive) : number :=
  let '(q, e, l) :=
    SFdiv_core_binary prec emax (Z.pos num) 0 (Z.pos den) 0 in
  binary_round_aux prec emax neg q e l.

(** The number nearest to [(-1)^neg * m * 10^e]: the value of a decimal
    literal with digits [m] and decimal exponent [e]. *)
Definition ofDecimal (neg : bool) (m : N) (e : Z) : number :=
  match m with
  | N0 => S754_zero neg
  | Npos p =>
      match e with
      | Zneg k => ofRatio neg p (10 ^ k)%positive
      | _ => ofRatio neg (p * Z.to_pos (10 ^ e))%positive 1
      end
  end.

(** The exact value [num / den] of the magnitude of a finite number. *)
Definition magnitude (m : positive) (e : Z) : positive * positive :=
  match e with
  | Zneg k => (m, (2 ^ k)%positive)
  | _ => ((m * Z.to_pos (2 ^ e))%positive, 1%positive)
  end.

End JsNumber.
Import JsNumber.

(** ** Conversions between strings and numbers *)

Module JsConv.

(** *** Reading a decimal literal *)

(** The digits at the head of [s]: their value on top of [acc], how many
    there are, and the rest of [s]. *)
Fixpoint scanDigits (acc : N) (cnt : nat) (s : jsstring)
  : N * nat * jsstring :=
  match s with
  | c :: s' =>
      if isDigit c then scanDigits (acc * 10 + (c - 48))%N (S cnt) s'
      else (acc, cnt, s)
  | [] => (acc, cnt, [])
  end.

(** ExponentPart: [e] or [E], an optional sign, at least one digit.
    Returns the exponent and the rest; a malformed exponent is not part
    of the literal. *)
Definition scanExponent (s : jsstring) : Z * jsstring :=
  match s with
  | c :: s1 =>
      if (c =? 101)%N || (c =? 69)%N then
        let '(neg, s2) :=
          match s1 with
          | d :: s2 =>
              if (d =? 45)%N then (true, s2)
              else if (d =? 43)%N then (false, s2)
              else (false, s1)
          | [] => (false, s1)
          end in
        let '(v, cnt, s3) := scanDigits 0 0 s2 in
        match cnt with
        | O => (0%Z, s)
        | S _ => ((if neg then - Z.of_N v else Z.of_N v)%Z, s3)
        end
      else (0%Z, s)
  | [] => (0%Z, s)
  end.

(** The longest prefix of [s] that is a StrUnsignedDecimalLiteral:
    its value with sign [neg], and the rest of [s]. *)
Definition scanUnsignedDecimal (neg : bool) (s : jsstring)
  : option (number * jsstring) :=
  if startsWith (js "Infinity") s then
    Some (S754_infinity neg, drop 8 s)
  else
    let '(ip, ni, s1) := scanDigits 0 0 s in
    let '(m, nf, s2) :=
      match s1 with
      | c :: s1' =>
          if (c =? 46)%N then scanDigits ip 0 s1' else (ip, O, s1)
      | [] => (ip, O, s1)
      end in
    match ni, nf with
    | O, O => None
    | _, _ =>
        let '(e, s3) := scanExponent s2 in
        Some (ofDecimal neg m (e - Z.of_nat nf), s3)
    end.

(** StrDecimalLiteral: an optional sign before the unsigned literal. *)
Definition scanDecimal (s : jsstring) : option (number * jsstring) :=
  match s with
  | c :: s' =>
      if (c =? 45)%N then scanUnsignedDecimal true s'
      else if (c =? 43)%N then scanUnsignedDecimal false s'
      else scanUnsignedDecimal false s
  | [] => None
  end.

(** [parseFloat(s)]: leading white space is skipped, the longest prefix
    that is a decimal literal is read, anything after it is ignored;
    NaN when there is no such prefix. *)
Definition parseFloat (s : jsstring) : number :=
  match scanDecimal (trimStart s) with
  | Some (v, _) => v
  | None => NaN
  end.

(** Digits in radix 2, 8 or 16 after the prefixes [0b], [0o], [0x]. *)
Definition digitValue (c : N) : option N :=
  if isDigit c then Some (c - 48)%N
  else if (97 <=? c)%N && (c <=? 102)%N then Some (c - 87)%N
  else if (65 <=? c)%N && (c <=? 70)%N then Some (c - 55)%N
  else None.

Fixpoint scanRadix (radix acc : N) (s : jsstring) : option N :=
  match s with
  | [] => Some acc
  | c :: s' =>
      match digitValue c with
      | Some d =>
          if (d <? radix)%N then scanRadix radix (acc * radix + d)%N s'
          else None
      | None => None
      end
  end.

Definition radixOfPrefix (c : N) : option N :=
  if (c =? 120)%N || (c =? 88)%N then Some 16%N
  else if (c =? 111)%N || (c =? 79)%N then Some 8%N
  else if (c =? 98)%N || (c =? 66)%N then Some 2%N
  else None.

(** StringToNumber: the whole trimmed string must be a numeric literal;
    the empty string is 0. *)
Definition stringToNumber (s : jsstring) : number :=
  let t := trim s in
  let decimalValue :=
    match scanDecimal t with
    | Some (v, []) => v
    | _ => NaN
    end in
  match t with
  | [] => zero
  | 48%N :: c :: ((_ :: _) as ds) =>
      match radixOfPrefix c with
      | Some r =>
          match scanRadix r 0 ds with
          | Some v => ofZ (Z.of_N v)
          | None => NaN
          end
      | None => decimalValue
      end
  | _ => decimalValue
  end.

(** *** Writing a number: [String(x)] *)

Definition sameNumber (x y : number) : bool :=
  match x, y with
  | S754_zero a, S754_zero b => Bool.eqb a b
  | S754_infinity a, S754_infinity b => Bool.eqb a b
  | S754_nan, S754_nan => true
  | S754_finite a m e, S754_finite b m' e' =>
      Bool.eqb a b && (m =? m')%positive && (e =? e')%Z
  | _, _ => false
  end.

(** [num / den < 10 ^ n] *)
Definition belowPow10 (num den : positive) (n : Z) : bool :=
  match n with
  | Zneg k => (Z.pos num * 10 ^ Z.pos k <? Z.pos den)%Z
  | _ => (Z.pos num <? Z.pos den * 10 ^ n)%Z
  end.

(** The least [n], from [n] upward, with [num / den < 10 ^ n]. *)
Fixpoint decimalExponent (fuel : nat) (num den : positive) (n : Z) : Z :=
  match fuel with
  | O => n
  | S fuel' =>
      if belowPow10 num den n then n
      else decimalExponent fuel' num den (n + 1)
  end.

(** [num / den * 10 ^ p] as a fraction. *)
Definition scale10 (num den : positive) (p : Z) : Z * Z :=
  match p with
  | Zneg k => (Z.pos num, Z.pos den * 10 ^ Z.pos k)%Z
  | _ => (Z.pos num * 10 ^ p, Z.pos den)%Z
  end.

(** The shortest digit string [s] and exponent [e] with [s * 10 ^ e]
    reading back as [x]; among the candidates of that length the one
    nearest to [x], the even one on a tie.  [n] is the decimal exponent
    of [x = num / den], [k] the number of digits tried. *)
Fixpoint shortestDigits (fuel : nat) (x : number) (num den : positive)
    (n k : Z) : N * Z :=
  match fuel with
  | O => (0%N, 0%Z)
  | S fuel' =>
      let '(a, b) := scale10 num den (k - n) in
      let q := (a / b)%Z in
      let r := (a mod b)%Z in
      let lo := sameNumber (ofDecimal false (Z.to_N q) (n - k)) x in
      let hi := sameNumber (ofDecimal false (Z.to_N (q + 1)) (n - k)) x in
      match lo, hi with
      | true, true =>
          match (2 * r ?= b)%Z with
          | Lt => (Z.to_N q, n - k)
          | Gt => (Z.to_N (q + 1), n - k)
          | Eq => if Z.even q then (Z.to_N q, n - k)
                  else (Z.to_N (q + 1), n - k)
          end
      | true, false => (Z.to_N q, n - k)
      | false, true => (Z.to_N (q + 1), n - k)
      | false, false => shortestDigits fuel' x num den n (k + 1)
      end%Z
  end.

Fixpoint stripZeros (fuel : nat) (s : N) (e : Z) : N * Z :=
  match fuel with
  | O => (s, e)
  | S fuel' =>
      if ((s mod 10 =? 0) && negb (s =? 0))%N
      then stripZeros fuel' (s / 10)%N (e + 1)%Z
      else (s, e)
  end.

Definition zeros (n : Z) : jsstring := repeat 48%N (Z.to_nat n).

(** The shortest decimal [s * 10 ^ e10] of the positive finite number with
    mantissa [m] and binary exponent [e]; [s] does not end in 0. *)
Definition shortestDecimal (m : positive) (e : Z) : N * Z :=
  let '(num, den) := magnitude m e in
  let n0 := decimalExponent 700 num den (-330) in
  let '(s0, e0) :=
    shortestDigits 17 (S754_finite false m e) num den n0 1 in
  stripZeros 20 s0 e0.

(** Number::toString of that number: [k] digits, the decimal point after
    the [n]-th, in positional notation for [-6 < n <= 21] and in exponent
    notation otherwise. *)
Definition positiveToString (m : positive) (e : Z) : jsstring :=
  let '(s, e1) := shortestDecimal m e in
  let ds := decimal s in
  let k := Z.of_nat (length ds) in
  let n := (e1 + k)%Z in
  if (k <=? n)%Z && (n <=? 21)%Z then ds ++ zeros (n - k)
  else if (0 <? n)%Z && (n <=? 21)%Z then
    take (Z.to_nat n) ds ++ js "." ++ drop (Z.to_nat n) ds
  else if (-6 <? n)%Z && (n <=? 0)%Z then
    js "0." ++ zeros (- n) ++ ds
  else
    let ex := (if (n - 1 <? 0)%Z then js "-" else js "+")
                ++ decimal (Z.to_N (Z.abs (n - 1))) in
    match ds with
    | [d] => [d] ++ js "e" ++ ex
    | d :: rest => [d] ++ js "." ++ rest ++ js "e" ++ ex
    | [] => []
    end.

Definition numberToString (x : number) : jsstring :=
  match x with
  | S754_nan => js "NaN"
  | S754_zero _ => js "0"
  | S754_infinity false => js "Infinity"
  | S754_infinity true => js "-Infinity"
  | S754_finite false m e => positiveToString m e
  | S754_finite true m e => js "-" ++ positiveToString m e
  end.

(** *** [Intl.NumberFormat('en-US', ...)] *)

(** Groups of three digits separated by commas. *)
Fixpoint groupDigits (fuel : nat) (ds : jsstring) : jsstring :=
  match fuel with
  | O => ds
  | S fuel' =>
      if (length ds <=? 3)%nat then ds
      else groupDigits fuel' (take (length ds - 3) ds)
             ++ js "," ++ drop (length ds - 3) ds
  end.

(** The numeral of [n] in [width] digits, with zeros in front. *)
Definition padded (width : nat) (n : N) : jsstring :=
  match width with
  | O => []
  | _ => let ds := decimal n in repeat 48%N (width - length ds) ++ ds
  end.

(** Fraction digits without the trailing zeros beyond the first
    [minimum] digits. *)
Fixpoint trimFraction (minimum : nat) (ds : jsstring) : jsstring :=
  match minimum, ds with
  | _, [] => []
  | S minimum', d :: ds' => d :: trimFraction minimum' ds'
  | O, d :: ds' =>
      if forallb (N.eqb 48) ds then [] else d :: trimFraction O ds'
  end.

(** The options of [new Intl.NumberFormat('en-US', { ... })] that the
    worker sets. *)
Inductive NumberStyle : Type := Decimal | Percent | Currency.

Record NumberFormat : Type := {
  style : NumberStyle;
  minimumFractionDigits : nat;
  maximumFractionDigits : nat;
  signDisplayAlways : bool
}.

(** The magnitude [num / den] rounded to the greatest number of fraction
    digits, half away from zero, with groups of three digits:
    [1,234.57]. *)
Definition formatMagnitude (fmt : NumberFormat) (num den : Z) : jsstring :=
  let unit := (10 ^ N.of_nat (maximumFractionDigits fmt))%N in
  let h := Z.to_N ((2 * Z.of_N unit * num + den) / (2 * den))%Z in
  let ip := decimal (h / unit)%N in
  let fraction :=
    trimFraction (minimumFractionDigits fmt)
                 (padded (maximumFractionDigits fmt) (h mod unit)%N) in
  groupDigits (length ip) ip
    ++ match fraction with
       | [] => []
       | _ => js "." ++ fraction
       end.

(** [fmt.format(x)].  The sign is that of [x] before rounding; a percent
    is the hundredfold of [x]; the currency is the US dollar.  As the ICU
    library of the V8 runtime does, the digits are rounded from the
    shortest decimal that reads back as [x] (so 1.005 gives 1.01 with two
    fraction digits). *)
Definition format (fmt : NumberFormat) (x : number) : jsstring :=
  let plus := if signDisplayAlways fmt then js "+" else [] in
  let sign :=
    match x with
    | S754_nan => plus
    | S754_zero s | S754_infinity s | S754_finite s _ _ =>
        if s then js "-" else plus
    end in
  let magnitude :=
    match x with
    | S754_nan => js "NaN"
    | S754_infinity _ => [8734%N]
    | S754_zero _ => formatMagnitude fmt 0 1
    | S754_finite _ m e =>
        let '(d, e10) := shortestDecimal m e in
        let '(num, den) :=
          scale10 (N.succ_pos (N.pred d)) 1
                  (match style fmt with
                   | Percent => e10 + 2
                   | _ => e10
                   end)%Z in
        formatMagnitude fmt num den
    end in
  sign
    ++ match style fmt with Currency => js "$" | _ => [] end
    ++ magnitude
    ++ match style fmt with Percent => js "%" | _ => [] end.

End JsConv.
Import JsConv.

(** ** Primitive values and their coercions *)

Module JsValue.

Inductive jsval : Type :=
| VUndefined
| VNull
| VBool (b : bool)
| VNum (x : number)
| VStr (s : jsstring).

(** ToBoolean: what [if (v)], [!v], [v && ...] and [v || ...] test. *)
Definition toBoolean (v : jsval) : bool :=
  match v with
  | VUndefined | VNull => false
  | VBool b => b
  | VNum (S754_zero _) | VNum S754_nan => false
  | VNum _ => true
  | VStr [] => false
  | VStr (_ :: _) => true
  end.

(** ToNumber: what the arithmetic and relational operators apply. *)
Definition toNumber (v : jsval) : number :=
  match v with
  | VUndefined => NaN
  | VNull => zero
  | VBool true => ofZ 1
  | VBool false => zero
  | VNum x => x
  | VStr s => stringToNumber s
  end.

(** [String(v)], also the conversion of a template literal. *)
Definition toString (v : jsval) : jsstring :=
  match v with
  | VUndefined => js "undefined"
  | VNull => js "null"
  | VBool true => js "true"
  | VBool false => js "false"
  | VNum x => numberToString x
  | VStr s => s
  end.

(** [a || b] *)
Definition or (a b : jsval) : jsval := if toBoolean a then a else b.

(** [v !== 'text'] and [v === 'text'] against a string. *)
Definition isString (v : jsval) (t : jsstring) : bool :=
  match v with
  | VStr s => streq s t
  | _ => false
  end.

End JsValue.
Import JsValue.

(** ** Symbol resolution *)

(** [/^([A-Z]+?)([A-Z]\d+)$/]: the second group, a capital letter and
    one or more digits up to the end of the input. *)
Definition monthYear (s : jsstring) : bool :=
  match s with
  | c :: d :: ds => isUpper c && forallb isDigit (d :: ds)
  | _ => false
  end.

(** The first group is lazy: it takes one capital letter, then one more
    at a time for as long as the rest is not a month letter and a year.
    [acc] is the group so far, in reverse. *)
Fixpoint contractPrefix (acc s : jsstring) : option jsstring :=
  match s with
  | c :: s' =>
      if isUpper c then
        if monthYear s' then Some (rev (c :: acc))
        else contractPrefix (c :: acc) s'
      else None
  | [] => None
  end.

(** [ticker.match(/^([A-Z]+?)([A-Z]\d+)$/)], reduced to its group 1. *)
Definition matchContract (ticker : jsstring) : option jsstring :=
  contractPrefix [] ticker.

(** The longest run of capital letters at the head of [s]. *)
Fixpoint upperRun (s : jsstring) : jsstring :=
  match s with
  | c :: s' => if isUpper c then c :: upperRun s' else []
  | [] => []
  end.

(** [ticker.match(/^([A-Z]+)/)], reduced to its group 1. *)
Definition matchLetters (ticker : jsstring) : option jsstring :=
  match upperRun ticker with
  | [] => None
  | run => Some run
  end.

Definition convertToYahooSymbol (ticker : jsstring) : jsstring :=
  match matchContract ticker with
  | Some commodityPrefix => commodityPrefix ++ js "=F"
  | None =>
      match matchLetters ticker with
      | Some commodityPrefix => commodityPrefix ++ js "=F"
      | None => ticker
      end
  end.

(** [commodityPrefix] of [fetchSinglePrice]:
    [match ? match[1] : ticker.match(/^([A-Z]+)/)?.[1] || ticker] *)
Definition commodityPrefix (ticker : jsstring) : jsstring :=
  match matchContract ticker with
  | Some p => p
  | None =>
      match matchLetters ticker with
      | Some p => p
      | None => ticker
      end
  end.

(** Where [fetchSinglePrice] looks a ticker up. *)
Inductive QuoteSource : Type :=
| Barchart (root : jsstring)
| Yahoo (symbol : jsstring).

Definition resolveSymbol (ticker : jsstring) : QuoteSource :=
  let prefix := commodityPrefix ticker in
  if streq prefix (js "MFS") then Barchart (js "DI")
  else if streq prefix (js "MES") then Barchart (js "M0")
  else Yahoo (convertToYahooSymbol ticker).

(** ** Formatting helpers *)

Definition formatDate (dateNum : jsval) : jsstring :=
  if negb (toBoolean dateNum) then []
  else
    let dateStr := toString dateNum in
    if (length dateStr =? 8)%nat then
      slice 0 4 dateStr ++ js "-" ++ slice 4 6 dateStr ++ js "-"
        ++ slice 6 8 dateStr
    else dateStr.

(** [num === null || num === undefined || num === ''] *)
Definition isBlank (num : jsval) : bool :=
  match num with
  | VNull | VUndefined | VStr [] => true
  | _ => false
  end.

(** [format(num)] converts [num] to a number first.  The four formatters
    stand for the code on a number, a truth value and a blank value.  On
    a text that spells a decimal the code formats the decimal as it is
    spelled, not the binary64 number nearest to it; the two differ for a
    text of more digits than a number holds, so nothing below is stated
    of such a text. *)
Definition formatNumber (num : jsval) : jsstring :=
  if isBlank num then []
  else format {| style := Decimal; minimumFractionDigits := 0;
                 maximumFractionDigits := 3; signDisplayAlways := false |}
              (toNumber num).

Definition formatCurrency (num : jsval) : jsstring :=
  if isBlank num then []
  else format {| style := Currency; minimumFractionDigits := 0;
                 maximumFractionDigits := 0; signDisplayAlways := false |}
              (toNumber num).

Definition formatPercent (num : jsval) : jsstring :=
  if isBlank num then []
  else format {| style := Percent; minimumFractionDigits := 2;
                 maximumFractionDigits := 2; signDisplayAlways := false |}
              (toNumber num).

Definition formatChangePercent (num : jsval) : jsstring :=
  if isBlank num then []
  else
    let formatted :=
      format {| style := Decimal; minimumFractionDigits := 2;
                maximumFractionDigits := 2; signDisplayAlways := true |}
             (toNumber num) in
    formatted ++ js "%".

(** ** The outside world and the effects of the worker *)

Module Eff.

(** How a call ends: with a value, or with a thrown error, of which the
    worker reads the message only. *)
Inductive outcome (A : Type) : Type :=
| Return (a : A)
| Throw (message : jsstring).
Arguments Return {A} a.
Arguments Throw {A} message.

(** A row object of [XLSX.utils.sheet_to_json]; a cell that the sheet
    leaves empty is [VUndefined]. *)
Record Row : Type := {
  DATE : jsval;
  CUSIP : jsval;
  TICKER : jsval;
  DESCRIPTION : jsval;
  SHARES : jsval;
  BASE_MV : jsval;
  PCT_HOLDINGS : jsval
}.

(** [data?.chart?.result?.[0]?.meta], when it is an object; a field that
    it does not have is [VUndefined]. *)
Record Meta : Type := {
  regularMarketPrice : jsval;
  chartPreviousClose : jsval;
  previousClose : jsval
}.

(** What the worker reads of a decoded JSON body. *)
Record ChartData : Type := {
  meta : option Meta;
  chartError : bool   (* [data?.chart?.error] is truthy *)
}.

(** A response of the global [fetch].  Each way of reading the body
    either gives its value or throws: [text] is [response.text()],
    [json] is [response.json()], and [sheet] is what
    [response.arrayBuffer()], [XLSX.read] and
    [XLSX.utils.sheet_to_json(worksheet, { range: 5 })] make of it. *)
Record Response : Type := {
  status : N;
  statusText : jsstring;
  text : outcome jsstring;
  json : outcome ChartData;
  sheet : outcome (list Row)
}.

(** [response.ok] *)
Definition ok (r : Response) : bool :=
  (200 <=? status r)%N && (status r <=? 299)%N.

(** The network: what the [n]-th call of [fetch], made for [url],
    resolves to or is rejected with. *)
Definition Network : Type := nat -> jsstring -> outcome Response.

(** The calls that leave the worker, in order. *)
Inductive Event : Type :=
| EvFetch (url : jsstring)
| EvReadText
| EvReadJson
| EvParseSheet
| EvLog (message : jsstring).

Definition isFetch (e : Event) : bool :=
  match e with EvFetch _ => true | _ => false end.

(** A computation of the worker: it extends the trace of events and
    returns or throws. *)
Definition M (A : Type) : Type := list Event -> outcome A * list Event.

Definition ret {A} (a : A) : M A := fun tr => (Return a, tr).

Definition throw {A} (message : jsstring) : M A :=
  fun tr => (Throw message, tr).

Definition bind {A B} (c : M A) (k : A -> M B) : M B :=
  fun tr =>
    match c tr with
    | (Return a, tr') => k a tr'
    | (Throw e, tr') => (Throw e, tr')
    end.

(** [try { c } catch (error) { handler }] *)
Definition tryCatch {A} (c : M A) (handler : jsstring -> M A) : M A :=
  fun tr =>
    match c tr with
    | (Return a, tr') => (Return a, tr')
    | (Throw e, tr') => handler e tr'
    end.

Definition emit (e : Event) : M unit := fun tr => (Return tt, tr ++ [e]).

(** [console.error(message, ...)] *)
Definition log (message : jsstring) : M unit := emit (EvLog message).

(** [await fetch(url, ...)]; the request headers do not matter here. *)
Definition fetch (net : Network) (url : jsstring) : M Response :=
  fun tr =>
    (net (length (List.filter isFetch tr)) url, tr ++ [EvFetch url]).

(** Reading a body: the event, then the value or the error. *)
Definition read {A} (e : Event) (o : outcome A) : M A :=
  fun tr => (o, tr ++ [e]).

(** [await Promise.all(cs)] for calls that run one after the other. *)
Fixpoint all {A} (cs : list (M A)) : M (list A) :=
  match cs with
  | [] => ret []
  | c :: cs' =>
      bind c (fun a => bind (all cs') (fun rest => ret (a :: rest)))
  end.

Definition run {A} (c : M A) : outcome A * list Event := c [].

End Eff.
Import Eff.

Notation "x <- c ;; k" := (Eff.bind c (fun x => k))
  (at level 100, c at next level, right associativity).
Notation "c ;;; k" := (Eff.bind c (fun _ => k))
  (at level 100, right associativity).

(** ** Quotes *)

(** [encodeURIComponent]: letters, digits and [-_.!~*'()] stay, every
    other character is written as the bytes of its UTF-8 form, each as
    [%XX]; a surrogate without its partner throws a URIError. *)
Definition isUnreserved (c : N) : bool :=
  isUpper c || ((97 <=? c)%N && (c <=? 122)%N) || isDigit c
  || existsb (N.eqb c) (js "-_.!~*'()").

Definition hexDigit (n : N) : N :=
  if (n <? 10)%N then (48 + n)%N else (55 + n)%N.

Definition percentByte (b : N) : jsstring :=
  [37%N; hexDigit (b / 16)%N; hexDigit (b mod 16)%N].

Definition utf8 (cp : N) : list N :=
  if (cp <? 128)%N then [cp]
  else if (cp <? 2048)%N then [192 + cp / 64; 128 + cp mod 64]%N
  else if (cp <? 65536)%N then
    [224 + cp / 4096; 128 + (cp / 64) mod 64; 128 + cp mod 64]%N
  else
    [240 + cp / 262144; 128 + (cp / 4096) mod 64; 128 + (cp / 64) mod 64;
     128 + cp mod 64]%N.

Definition isHighSurrogate (c : N) : bool := (55296 <=? c)%N && (c <=? 56319)%N.
Definition isLowSurrogate (c : N) : bool := (56320 <=? c)%N && (c <=? 57343)%N.

Fixpoint encodeURIComponent (s : jsstring) : outcome jsstring :=
  let escaped (cp : N) (rest : outcome jsstring) : outcome jsstring :=
    match rest with
    | Return r => Return (concat (List.map percentByte (utf8 cp)) ++ r)
    | Throw e => Throw e
    end in
  match s with
  | [] => Return []
  | c :: s' =>
      if isUnreserved c then
        match encodeURIComponent s' with
        | Return r => Return (c :: r)
        | Throw e => Throw e
        end
      else if isLowSurrogate c then Throw (js "URI malformed")
      else if isHighSurrogate c then
        match s' with
        | d :: s'' =>
            if isLowSurrogate d then
              escaped ((c - 55296) * 1024 + (d - 56320) + 65536)%N
                      (encodeURIComponent s'')
            else Throw (js "URI malformed")
        | [] => Throw (js "URI malformed")
        end
      else escaped c (encodeURIComponent s')
  end.

Definition NA : jsstring := js "N/A".

(** The expression that [fetchBarchartPrice] searches for: the key
    [percentChange] in double quotes, a colon, and in double quotes one or
    more characters other than a double quote (group 1).  Here at the head
    of [s]. *)
Definition percentChangeKey : jsstring :=
  dq :: js "percentChange" ++ [dq; 58%N; dq].

Fixpoint untilQuote (s : jsstring) : option jsstring :=
  match s with
  | [] => None
  | c :: s' =>
      if (c =? dq)%N then Some []
      else match untilQuote s' with
           | Some v => Some (c :: v)
           | None => None
           end
  end.

Definition percentChangeAt (s : jsstring) : option jsstring :=
  if startsWith percentChangeKey s then
    match untilQuote (drop (length percentChangeKey) s) with
    | Some (c :: v) => Some (c :: v)
    | _ => None
    end
  else None.

(** [html.match(...)] with that expression, reduced to its group 1: the
    leftmost place where the expression matches. *)
Fixpoint matchPercentChange (html : jsstring) : option jsstring :=
  match percentChangeAt html with
  | Some v => Some v
  | None =>
      match html with
      | _ :: html' => matchPercentChange html'
      | [] => None
      end
  end.

(** The address of the Barchart page of a root, and of the Yahoo chart of
    an encoded symbol. *)
Definition barchartUrl (root : jsstring) : jsstring :=
  js "https://www.barchart.com/futures/quotes/" ++ root
    ++ js "*0/futures-prices".

Definition yahooUrl (encoded : jsstring) : jsstring :=
  js "https://query1.finance.yahoo.com/v8/finance/chart/" ++ encoded.

(** [((currentPrice - previousClose) / previousClose) * 100] *)
Definition changePercent (currentPrice previousClose : jsval) : number :=
  mul (div (sub (toNumber currentPrice) (toNumber previousClose))
           (toNumber previousClose))
      (ofZ 100).

Section Quotes.

Variable net : Network.

Definition fetchBarchartPrice (root : jsstring) : M jsstring :=
  tryCatch
    (let url := barchartUrl root in
     response <- Eff.fetch net url ;;
     if negb (ok response) then
       log (js "Barchart HTTP " ++ decimal (status response)
              ++ js " for root " ++ root) ;;;
       ret NA
     else
       html <- read EvReadText (text response) ;;
       match matchPercentChange html with
       | Some percentStr =>
           let percentValue := parseFloat (replace (js "%") [] percentStr) in
           if negb (isNaN percentValue) then
             ret (formatChangePercent (VNum percentValue))
           else ret NA
       | None => ret NA
       end)
    (fun error =>
       log (js "Error fetching Barchart price for root " ++ root ++ js ":") ;;;
       ret NA).

(** The Yahoo part of [fetchSinglePrice], from the lookup symbol on. *)
Definition fetchYahooPrice (yahooTicker : jsstring) : M jsstring :=
  match encodeURIComponent yahooTicker with
  | Throw e => throw e
  | Return encoded =>
      let url := yahooUrl encoded in
      response <- Eff.fetch net url ;;
      if negb (ok response) then
        log (js "HTTP " ++ decimal (status response) ++ js " for "
               ++ yahooTicker) ;;;
        ret NA
      else
        data <- read EvReadJson (json response) ;;
        let priced :=
          match meta data with
          | Some meta =>
              let currentPrice := regularMarketPrice meta in
              let previousClose :=
                JsValue.or (chartPreviousClose meta) (Eff.previousClose meta) in
              if toBoolean currentPrice && toBoolean previousClose then
                Some (formatChangePercent
                        (VNum (changePercent currentPrice previousClose)))
              else None
          | None => None
          end in
        match priced with
        | Some result => ret result
        | None =>
            (if chartError data then
               log (js "Yahoo Finance error for " ++ yahooTicker ++ js ":")
             else ret tt) ;;;
            ret NA
        end
  end.

(** A ticker that is not a string has no [match] method: the call
    throws a TypeError inside the [try]. *)
Definition fetchSinglePrice (ticker : jsval) : M jsstring :=
  tryCatch
    (match ticker with
     | VStr t =>
         let commodityPrefix := commodityPrefix t in
         if streq commodityPrefix (js "MFS") then fetchBarchartPrice (js "DI")
         else if streq commodityPrefix (js "MES") then
           fetchBarchartPrice (js "M0")
         else
           let yahooTicker := convertToYahooSymbol t in
           fetchYahooPrice yahooTicker
     | _ => throw (js "ticker.match is not a function")
     end)
    (fun error =>
       log (js "Error fetching price for " ++ toString ticker ++ js ":") ;;;
       ret NA).

(** The loop of [fetchTickerPrices]: [batchSize] tickers at a time.  The
    calls of one batch run concurrently in the source, their fetches
    issued in the order of the tickers; here they are recorded ticker by
    ticker.  The object [prices] is a finite map keyed by the ticker as a
    property key, its string form; the properties that an object inherits
    are left out.  The map stands for the object on every key but
    [__proto__]: an assignment of a string to that key is dropped by the
    object, and reading it gives the prototype, not a string. *)
Definition batchSize : nat := 10.

Definition setPrices (prices : gmap jsstring jsstring)
    (batch : list jsval) (batchResults : list jsstring)
  : gmap jsstring jsstring :=
  fold_left (fun acc '(ticker, result) => <[toString ticker := result]> acc)
            (combine batch batchResults) prices.

Fixpoint fetchBatches (fuel : nat) (tickers : list jsval)
    (prices : gmap jsstring jsstring) : M (gmap jsstring jsstring) :=
  match fuel, tickers with
  | _, [] => ret prices
  | O, _ => ret prices
  | S fuel', _ =>
      let batch := take batchSize tickers in
      batchResults <- Eff.all (List.map fetchSinglePrice batch) ;;
      fetchBatches fuel' (drop batchSize tickers)
                   (setPrices prices batch batchResults)
  end.

Definition fetchTickerPrices (tickers : list jsval)
  : M (gmap jsstring jsstring) :=
  fetchBatches (length tickers) tickers ∅.

End Quotes.

(** ** Rows, contributions and ranking *)

(** The callback of [jsonData.filter]:
    [ticker && String(ticker).trim() !== ''] *)
Definition hasTicker (row : Row) : bool :=
  let ticker := TICKER row in
  toBoolean ticker && negb (streq (trim (toString ticker)) []).

Definition filteredData (jsonData : list Row) : list Row :=
  List.filter hasTicker jsonData.

(** An element of [dataWithContributions]; [dailyChangeStr] is [None]
    when [prices] has no entry for the ticker ([undefined]). *)
Record Enriched : Type := {
  original : Row;
  dailyChangeStr : option jsstring;
  dailyChangePct : number;
  contribution : number
}.

(** [dailyChangeStr && dailyChangeStr !== 'N/A'] *)
Definition hasQuote (dailyChangeStr : option jsstring) : bool :=
  match dailyChangeStr with
  | Some (c :: s) => negb (streq (c :: s) NA)
  | _ => false
  end.

(** The callback of [filteredData.map] that computes the contributions.
    It stands for the code on every row but one whose ticker has the
    string form [__proto__], where the code finds the prototype of the
    object under the key and throws at [replace]. *)
Definition enrich (prices : gmap jsstring jsstring) (row : Row) : Enriched :=
  let holdingsPct := PCT_HOLDINGS row in
  let dailyChangeStr := prices !! toString (TICKER row) in
  match dailyChangeStr with
  | Some str =>
      if hasQuote dailyChangeStr then
        let dailyChangePct :=
          div (parseFloat (replace (js "%") [] str)) (ofZ 100) in
        let contribution := mul (toNumber holdingsPct) dailyChangePct in
        {| original := row; dailyChangeStr := dailyChangeStr;
           dailyChangePct := dailyChangePct; contribution := contribution |}
      else
        {| original := row; dailyChangeStr := dailyChangeStr;
           dailyChangePct := zero; contribution := zero |}
  | None =>
      {| original := row; dailyChangeStr := dailyChangeStr;
         dailyChangePct := zero; contribution := zero |}
  end.

Definition dataWithContributions (prices : gmap jsstring jsstring)
    (rows : list Row) : list Enriched :=
  List.map (enrich prices) rows.

(** [Array.prototype.sort(comparefn)].  ECMAScript asks for a stable
    sort and leaves the algorithm to the engine; the model inserts the
    elements one by one, from the last to the first, each before the
    elements it does not have to follow.  [x] has to follow [y] when
    [comparefn(x, y) > 0]; a result that is NaN counts as 0.  When the
    comparison is a consistent order, as it is on contributions other
    than NaN, every stable sort gives the same list.  With a NaN among
    the contributions the comparison is not a consistent order and the
    list that comes out depends on the algorithm of the engine; of such
    a list only what holds of every arrangement is stated below. *)
Section ArraySort.

Context {A : Type}.
Variable comparefn : A -> A -> number.

Fixpoint sortInsert (x : A) (sorted : list A) : list A :=
  match sorted with
  | [] => [x]
  | y :: rest =>
      if gtb (comparefn x y) zero then y :: sortInsert x rest
      else x :: sorted
  end.

Definition arraySort (items : list A) : list A :=
  fold_right sortInsert [] items.

End ArraySort.

(** [(a, b) => b.contribution - a.contribution] *)
Definition byContribution (a b : Enriched) : number :=
  sub (contribution b) (contribution a).

Definition sortByContribution (items : list Enriched) : list Enriched :=
  arraySort byContribution items.

(** [dataWithContributions.reduce((sum, item) => sum + item.contribution, 0)] *)
Definition totalContribution (items : list Enriched) : number :=
  fold_left (fun sum item => add sum (contribution item)) items zero.

(** ** The table *)

(** An object of [formattedData]: its keys in the order they are written,
    with their values. *)
Definition Formatted : Type := list (jsstring * jsval).

Definition optString (o : option jsstring) : jsval :=
  match o with
  | Some s => VStr s
  | None => VUndefined
  end.

Definition formatItem (item : Enriched) : Formatted :=
  let row := original item in
  [ (js "Date", VStr (formatDate (DATE row)));
    (js "CUSIP", JsValue.or (CUSIP row) (VStr []));
    (js "Ticker", JsValue.or (TICKER row) (VStr []));
    (js "Description", JsValue.or (DESCRIPTION row) (VStr []));
    (js "Holdings %", VStr (formatPercent (PCT_HOLDINGS row)));
    (js "Daily Change", JsValue.or (optString (dailyChangeStr item)) (VStr NA));
    (js "Contribution",
      if negb (isString (optString (dailyChangeStr item)) NA) then
        VStr (formatChangePercent
                (VNum (mul (contribution item) (ofZ 100))))
      else VStr NA) ].

Definition formattedData (items : list Enriched) : list Formatted :=
  List.map formatItem items.

(** [row[header]] *)
Fixpoint getField (row : Formatted) (header : jsstring) : jsval :=
  match row with
  | [] => VUndefined
  | (k, v) :: row' => if streq k header then v else getField row' header
  end.

Definition nl : jsstring := [10%N].

(** [text] in double quotes. *)
Definition quoted (text : jsstring) : jsstring := dq :: text ++ [dq].

Definition signClass (x : number) (positive negative : jsstring) : jsstring :=
  if gtb x zero then positive else if ltb x zero then negative else [].

(** One [<td>] of a data row.  The cells of the two coloured columns are
    strings, on which [replace] is defined. *)
Definition dataCell (row : Formatted) (header : jsstring) : jsstring :=
  let cellValue := getField row header in
  let tdClass :=
    if (streq header (js "Daily Change") || streq header (js "Contribution"))
       && toBoolean cellValue && negb (isString cellValue NA) then
      let numericValue :=
        parseFloat (replace (js "%") [] (toString cellValue)) in
      if gtb numericValue zero then
        js " class=" ++ quoted (js "positive-change")
      else if ltb numericValue zero then
        js " class=" ++ quoted (js "negative-change")
      else []
    else [] in
  js "<td" ++ tdClass ++ js ">" ++ toString cellValue ++ js "</td>" ++ nl.

Definition dataRow (headers : list jsstring) (row : Formatted)
    (item : Enriched) : jsstring :=
  let originalPercent := toNumber (PCT_HOLDINGS (original item)) in
  let rowClass :=
    signClass originalPercent (js "positive-holding") (js "negative-holding") in
  js "<tr"
    ++ (match rowClass with
        | [] => []
        | _ => js " class=" ++ quoted rowClass
        end)
    ++ js ">" ++ nl
    ++ concat (List.map (dataCell row) headers)
    ++ js "</tr>" ++ nl.

(** One [<td>] of the total row; [index] is the column number. *)
Definition totalCell (totalContribution : number) (index : nat)
    (header : jsstring) : jsstring :=
  if streq header (js "Contribution") then
    let totalClass :=
      signClass totalContribution (js "positive-change") (js "negative-change") in
    js "<td class=" ++ quoted totalClass ++ js ">"
      ++ formatChangePercent (VNum (mul totalContribution (ofZ 100)))
      ++ js "</td>" ++ nl
  else if (index =? 0)%nat then js "<td><strong>TOTAL</strong></td>" ++ nl
  else js "<td></td>" ++ nl.

Definition buildColorCodedTable (formattedRows : list Formatted)
    (dataRows : list Enriched) (totalContribution : number) : jsstring :=
  match formattedRows with
  | [] => js "<p>No holdings with tickers found.</p>"
  | first :: _ =>
      let headers := List.map fst first in
      js "<table id=" ++ quoted (js "holdings-table") ++ js ">" ++ nl
        ++ js "<thead><tr>" ++ nl
        ++ concat (List.map (fun header => js "<th>" ++ header ++ js "</th>" ++ nl)
                            headers)
        ++ js "</tr></thead>" ++ nl ++ js "<tbody>" ++ nl
        ++ concat (List.map (fun '(row, item) => dataRow headers row item)
                            (combine formattedRows dataRows))
        ++ js "<tr class=" ++ quoted (js "total-row") ++ js ">" ++ nl
        ++ concat (imap (totalCell totalContribution) headers)
        ++ js "</tr>" ++ nl
        ++ js "</tbody>" ++ nl ++ js "</table>"
  end.

(** ** The page *)

(** The template literal of the page, up to [${htmlTable}]. *)
Definition pageHead : jsstring :=
  js "
<!DOCTYPE html>
<html lang="
    ++ quoted (js "en")
    ++ js ">
<head>
    <meta charset="
    ++ quoted (js "UTF-8")
    ++ js ">
    <meta name="
    ++ quoted (js "viewport")
    ++ js " content="
    ++ quoted (js "width=device-width, initial-scale=1.0")
    ++ js ">
    <title>DBMF Holdings</title>
    <style>
        * {
            margin: 0;
            padding: 0;
            box-sizing: border-box;
        }
        
        body {
            font-family: -apple-system, BlinkMacSystemFont, 'Segoe UI', Roboto, Oxygen, Ubuntu, Cantarell, sans-serif;
            background: linear-gradient(135deg, #667eea 0%, #764ba2 100%);
            min-height: 100vh;
            padding: 20px;
        }
        
        .container {
            max-width: 1400px;
            margin: 0 auto;
            background: white;
            border-radius: 12px;
            box-shadow: 0 20px 60px rgba(0, 0, 0, 0.3);
            overflow: hidden;
        }
        
        .header {
            background: linear-gradient(135deg, #667eea 0%, #764ba2 100%);
            color: white;
            padding: 30px;
            text-align: center;
        }
        
        .header h1 {
            font-size: 2.5em;
            margin-bottom: 10px;
            font-weight: 700;
        }
        
        .header p {
            font-size: 1.1em;
            opacity: 0.9;
        }
        
        .table-container {
            overflow-x: auto;
            padding: 30px;
        }
        
        #holdings-table {
            width: 100%;
            border-collapse: collapse;
            font-size: 14px;
        }
        
        #holdings-table th {
            background: #667eea;
            color: white;
            padding: 15px;
            text-align: left;
            font-weight: 600;
            position: sticky;
            top: 0;
            z-index: 10;
            text-transform: uppercase;
            font-size: 12px;
            letter-spacing: 0.5px;
        }
        
        #holdings-table td {
            padding: 12px 15px;
            border-bottom: 1px solid #e0e0e0;
        }
        
        /* Right-align numeric columns */
        #holdings-table td:nth-child(5),  /* Holdings % */
        #holdings-table td:nth-child(6),  /* Daily Change */
        #holdings-table td:nth-child(7) { /* Contribution */
            text-align: right;
            font-family: 'SF Mono', Monaco, 'Cascadia Code', 'Roboto Mono', Consolas, 'Courier New', monospace;
        }
        
        /* Right-align headers for numeric columns */
        #holdings-table th:nth-child(5),
        #holdings-table th:nth-child(6),
        #holdings-table th:nth-child(7) {
            text-align: right;
        }
        
        /* Color coding for Holdings % column */
        .positive-holding td:nth-child(5) {
            background: linear-gradient(135deg, #e8f5e9 0%, #c8e6c9 100%);
            color: #2e7d32;
            font-weight: 600;
            box-shadow: inset 0 0 0 1px rgba(76, 175, 80, 0.2);
        }
        
        .negative-holding td:nth-child(5) {
            background: linear-gradient(135deg, #ffebee 0%, #ffcdd2 100%);
            color: #c62828;
            font-weight: 600;
            box-shadow: inset 0 0 0 1px rgba(244, 67, 54, 0.2);
        }
        
        /* Color coding for Daily Change column */
        .positive-change {
            background: linear-gradient(135deg, #e8f5e9 0%, #c8e6c9 100%);
            color: #2e7d32;
            font-weight: 600;
            box-shadow: inset 0 0 0 1px rgba(76, 175, 80, 0.2);
        }
        
        .negative-change {
            background: linear-gradient(135deg, #ffebee 0%, #ffcdd2 100%);
            color: #c62828;
            font-weight: 600;
            box-shadow: inset 0 0 0 1px rgba(244, 67, 54, 0.2);
        }
        
        #holdings-table tr:hover {
            background-color: #f5f5f5;
            transition: background-color 0.2s ease;
        }
        
        .positive-holding:hover td:nth-child(5) {
            background: linear-gradient(135deg, #c8e6c9 0%, #a5d6a7 100%);
            box-shadow: inset 0 0 0 1px rgba(76, 175, 80, 0.3);
        }
        
        .negative-holding:hover td:nth-child(5) {
            background: linear-gradient(135deg, #ffcdd2 0%, #ef9a9a 100%);
            box-shadow: inset 0 0 0 1px rgba(244, 67, 54, 0.3);
        }
        
        #holdings-table tr:hover .positive-change {
            background: linear-gradient(135deg, #c8e6c9 0%, #a5d6a7 100%);
            box-shadow: inset 0 0 0 1px rgba(76, 175, 80, 0.3);
        }
        
        #holdings-table tr:hover .negative-change {
            background: linear-gradient(135deg, #ffcdd2 0%, #ef9a9a 100%);
            box-shadow: inset 0 0 0 1px rgba(244, 67, 54, 0.3);
        }
        
        #holdings-table tr:nth-child(even) {
            background-color: #fafafa;
        }
        
        /* Total row styling */
        .total-row {
            background: linear-gradient(135deg, #e3f2fd 0%, #bbdefb 100%);
            font-weight: 700;
            border-top: 3px solid #667eea;
        }
        
        .total-row td {
            padding: 15px;
            font-size: 1.1em;
        }
        
        .total-row:hover {
            background: linear-gradient(135deg, #bbdefb 0%, #90caf9 100%);
        }
        
        #holdings-table tr:nth-child(even):hover {
            background-color: #f5f5f5;
        }
        
        .footer {
            background: #f8f9fa;
            padding: 20px 30px;
            text-align: center;
            color: #666;
            font-size: 14px;
            border-top: 1px solid #e0e0e0;
        }
        
        .footer a {
            color: #667eea;
            text-decoration: none;
            font-weight: 600;
        }
        
        .footer a:hover {
            text-decoration: underline;
        }
        
        .timestamp {
            margin-top: 10px;
            font-size: 12px;
            opacity: 0.8;
        }
        
        @media (max-width: 768px) {
            body {
                padding: 5px;
            }
            
            .container {
                border-radius: 8px;
            }
            
            .header {
                padding: 10px;
            }
            
            .header h1 {
                font-size: 1.1em;
            }
            
            .header p {
                font-size: 0.7em;
            }
            
            .table-container {
                padding: 3px;
                overflow-x: auto;
            }
            
            #holdings-table {
                font-size: 7px;
            }
            
            #holdings-table th,
            #holdings-table td {
                padding: 2px 2px;
                white-space: nowrap;
            }
            
            /* Consistent header sizing - all at 6px */
            #holdings-table th {
                font-size: 6px;
                padding: 3px 2px;
            }
            
            /* Make Date and CUSIP columns smaller */
            #holdings-table td:nth-child(1),
            #holdings-table td:nth-child(2) {
                font-size: 6px;
            }
            
            /* Make ticker column slightly larger for readability */
            #holdings-table td:nth-child(3) {
                font-size: 7px;
                font-weight: 600;
            }
            
            /* Make description column wrappable and limit width */
            #holdings-table td:nth-child(4) {
                max-width: 60px;
                white-space: normal;
                font-size: 6px;
                line-height: 1.1;
            }
            
            .footer {
                padding: 8px;
                font-size: 9px;
            }
            
            .footer .timestamp {
                font-size: 7px;
            }
            
            .total-row td {
                padding: 3px 2px;
                font-size: 0.95em;
            }
        }
    </style>
</head>
<body>
    <div class="
    ++ quoted (js "container")
    ++ js ">
        <div class="
    ++ quoted (js "header")
    ++ js ">
            <h1>"
    ++ [55357; 56522]%N
    ++ js " DBMF Holdings</h1>
        </div>
        <div class="
    ++ quoted (js "table-container")
    ++ js ">
            ".

(** From [${htmlTable}] to [${EXCEL_URL}]. *)
Definition pageMiddle : jsstring :=
  js "
        </div>
        <div class="
    ++ quoted (js "footer")
    ++ js ">
            <p>Data source: <a href="
    ++ [dq].

(** From [${EXCEL_URL}] to the time stamp. *)
Definition pageFooter : jsstring :=
  [dq]
    ++ js " target="
    ++ quoted (js "_blank")
    ++ js ">DBMF-Holdings.xlsx</a></p>
            <p class="
    ++ quoted (js "timestamp")
    ++ js ">Last updated: ".

(** After the time stamp. *)
Definition pageTail : jsstring :=
  js "</p>
        </div>
    </div>
</body>
</html>
      ".

Definition EXCEL_URL : jsstring :=
  js "https://imgpfunds.com/wp-content/uploads/pdfs/holdings/DBMF-Holdings.xlsx".

(** The template literal with its three holes filled, then [.trim()].
    [now] is [new Date().toUTCString()]. *)
Definition renderPage (htmlTable now : jsstring) : jsstring :=
  trim (pageHead ++ htmlTable ++ pageMiddle ++ EXCEL_URL ++ pageFooter
          ++ now ++ pageTail).

(** ** The request handler *)

Module Worker.

(** What the worker answers: [new Response(body, { status, headers })]. *)
Record Reply : Type := {
  replyStatus : N;
  contentType : jsstring;
  cacheControl : option jsstring;
  replyBody : jsstring
}.

Section Handler.

Variable net : Network.
(** The clock, read as [new Date().toUTCString()]. *)
Variable now : jsstring.

(** The body of the [try] of [fetch(request, env, ctx)].  It stands for
    the code on every sheet but one with a kept ticker of string form
    [__proto__], on which the code throws after the quotes are fetched
    and the handler answers 500. *)
Definition respond : M Reply :=
  response <- Eff.fetch net EXCEL_URL ;;
  if negb (ok response) then
    ret {| replyStatus := 500;
           contentType := js "text/plain";
           cacheControl := None;
           replyBody := js "Failed to fetch Excel file: "
                          ++ decimal (status response) ++ js " "
                          ++ statusText response |}
  else
    jsonData <- read EvParseSheet (sheet response) ;;
    let filteredData := filteredData jsonData in
    let tickers := List.map TICKER filteredData in
    prices <- fetchTickerPrices net tickers ;;
    let dataWithContributions :=
      sortByContribution (dataWithContributions prices filteredData) in
    let formattedData := formattedData dataWithContributions in
    let totalContribution := totalContribution dataWithContributions in
    let htmlTable :=
      buildColorCodedTable formattedData dataWithContributions
                           totalContribution in
    let html := renderPage htmlTable now in
    ret {| replyStatus := 200;
           contentType := js "text/html;charset=UTF-8";
           cacheControl := Some (js "public, max-age=300");
           replyBody := html |}.

Definition fetch : M Reply :=
  tryCatch respond
    (fun message =>
       log (js "Error:") ;;;
       ret {| replyStatus := 500;
              contentType := js "text/plain";
              cacheControl := None;
              replyBody := js "Error processing Excel file: " ++ message |}).

End Handler.

End Worker.

(** ** The earlier revision of the worker

    The second source file is an earlier revision of [index.js]: the same
    filter on the ticker, no quotes, the columns Shares and Market Value
    in place of Daily Change and Contribution, no total row. *)

Module Legacy.

(** The callback of [filteredData.map] that builds [formattedData]. *)
Definition formatRow (row : Row) : Formatted :=
  [ (js "Date", VStr (formatDate (DATE row)));
    (js "CUSIP", JsValue.or (CUSIP row) (VStr []));
    (js "Ticker", JsValue.or (TICKER row) (VStr []));
    (js "Description", JsValue.or (DESCRIPTION row) (VStr []));
    (js "Shares", VStr (formatNumber (SHARES row)));
    (js "Market Value", VStr (formatCurrency (BASE_MV row)));
    (js "Holdings %", VStr (formatPercent (PCT_HOLDINGS row))) ].

Definition formattedData (rows : list Row) : list Formatted :=
  List.map formatRow rows.

Definition dataRow (headers : list jsstring) (row : Formatted)
    (originalRow : Row) : jsstring :=
  let originalPercent := toNumber (PCT_HOLDINGS originalRow) in
  let rowClass :=
    signClass originalPercent (js "positive-holding") (js "negative-holding") in
  js "<tr"
    ++ (match rowClass with
        | [] => []
        | _ => js " class=" ++ quoted rowClass
        end)
    ++ js ">" ++ nl
    ++ concat (List.map
                 (fun header =>
                    js "<td>" ++ toString (getField row header) ++ js "</td>"
                      ++ nl)
                 headers)
    ++ js "</tr>" ++ nl.

Definition buildColorCodedTable (formattedRows : list Formatted)
    (originalRows : list Row) : jsstring :=
  match formattedRows with
  | [] => js "<p>No holdings with tickers found.</p>"
  | first :: _ =>
      let headers := List.map fst first in
      js "<table id=" ++ quoted (js "holdings-table") ++ js ">" ++ nl
        ++ js "<thead><tr>" ++ nl
        ++ concat (List.map (fun header => js "<th>" ++ header ++ js "</th>" ++ nl)
                            headers)
        ++ js "</tr></thead>" ++ nl ++ js "<tbody>" ++ nl
        ++ concat (List.map (fun '(row, originalRow) =>
                               dataRow headers row originalRow)
                            (combine formattedRows originalRows))
        ++ js "</tbody>" ++ nl ++ js "</table>"
  end.

(** The template literal of the page, up to [${htmlTable}]. *)
Definition pageHead : jsstring :=
  js "
<!DOCTYPE html>
<html lang="
    ++ quoted (js "en")
    ++ js ">
<head>
    <meta charset="
    ++ quoted (js "UTF-8")
    ++ js ">
    <meta name="
    ++ quoted (js "viewport")
    ++ js " content="
    ++ quoted (js "width=device-width, initial-scale=1.0")
    ++ js ">
    <title>DBMF Holdings</title>
    <style>
        * {
            margin: 0;
            padding: 0;
            box-sizing: border-box;
        }
        
        body {
            font-family: -apple-system, BlinkMacSystemFont, 'Segoe UI', Roboto, Oxygen, Ubuntu, Cantarell, sans-serif;
            background: linear-gradient(135deg, #667eea 0%, #764ba2 100%);
            min-height: 100vh;
            padding: 20px;
        }
        
        .container {
            max-width: 1400px;
            margin: 0 auto;
            background: white;
            border-radius: 12px;
            box-shadow: 0 20px 60px rgba(0, 0, 0, 0.3);
            overflow: hidden;
        }
        
        .header {
            background: linear-gradient(135deg, #667eea 0%, #764ba2 100%);
            color: white;
            padding: 30px;
            text-align: center;
        }
        
        .header h1 {
            font-size: 2.5em;
            margin-bottom: 10px;
            font-weight: 700;
        }
        
        .header p {
            font-size: 1.1em;
            opacity: 0.9;
        }
        
        .table-container {
            overflow-x: auto;
            padding: 30px;
        }
        
        #holdings-table {
            width: 100%;
            border-collapse: collapse;
            font-size: 14px;
        }
        
        #holdings-table th {
            background: #667eea;
            color: white;
            padding: 15px;
            text-align: left;
            font-weight: 600;
            position: sticky;
            top: 0;
            z-index: 10;
            text-transform: uppercase;
            font-size: 12px;
            letter-spacing: 0.5px;
        }
        
        #holdings-table td {
            padding: 12px 15px;
            border-bottom: 1px solid #e0e0e0;
        }
        
        /* Right-align numeric columns */
        #holdings-table td:nth-child(5),  /* Shares */
        #holdings-table td:nth-child(6),  /* Market Value */
        #holdings-table td:nth-child(7) { /* Holdings % */
            text-align: right;
            font-family: 'SF Mono', Monaco, 'Cascadia Code', 'Roboto Mono', Consolas, 'Courier New', monospace;
        }
        
        /* Right-align headers for numeric columns */
        #holdings-table th:nth-child(5),
        #holdings-table th:nth-child(6),
        #holdings-table th:nth-child(7) {
            text-align: right;
        }
        
        /* Color coding for Holdings % column */
        .positive-holding td:nth-child(7) {
            background-color: #c3f73a;
            color: #2d5016;
            font-weight: 600;
        }
        
        .negative-holding td:nth-child(7) {
            background-color: #ffb3d9;
            color: #8b0045;
            font-weight: 600;
        }
        
        #holdings-table tr:hover {
            background-color: #f5f5f5;
            transition: background-color 0.2s ease;
        }
        
        .positive-holding:hover td:nth-child(7) {
            background-color: #b4e632;
        }
        
        .negative-holding:hover td:nth-child(7) {
            background-color: #ff99cc;
        }
        
        #holdings-table tr:nth-child(even) {
            background-color: #fafafa;
        }
        
        #holdings-table tr:nth-child(even):hover {
            background-color: #f5f5f5;
        }
        
        .footer {
            background: #f8f9fa;
            padding: 20px 30px;
            text-align: center;
            color: #666;
            font-size: 14px;
            border-top: 1px solid #e0e0e0;
        }
        
        .footer a {
            color: #667eea;
            text-decoration: none;
            font-weight: 600;
        }
        
        .footer a:hover {
            text-decoration: underline;
        }
        
        .timestamp {
            margin-top: 10px;
            font-size: 12px;
            opacity: 0.8;
        }
        
        @media (max-width: 768px) {
            .header h1 {
                font-size: 1.8em;
            }
            
            .table-container {
                padding: 15px;
            }
            
            #holdings-table {
                font-size: 12px;
            }
            
            #holdings-table th,
            #holdings-table td {
                padding: 8px 10px;
            }
        }
    </style>
</head>
<body>
    <div class="
    ++ quoted (js "container")
    ++ js ">
        <div class="
    ++ quoted (js "header")
    ++ js ">
            <h1>"
    ++ [55357; 56522]%N
    ++ js " DBMF Holdings</h1>
            <p>Securities with Tickers</p>
        </div>
        <div class="
    ++ quoted (js "table-container")
    ++ js ">
            ".

(** From [${htmlTable}] to [${EXCEL_URL}]. *)
Definition pageMiddle : jsstring :=
  js "
        </div>
        <div class="
    ++ quoted (js "footer")
    ++ js ">
            <p>Data source: <a href="
    ++ [dq].

(** From [${EXCEL_URL}] to the time stamp. *)
Definition pageFooter : jsstring :=
  [dq]
    ++ js " target="
    ++ quoted (js "_blank")
    ++ js ">DBMF-Holdings.xlsx</a></p>
            <p class="
    ++ quoted (js "timestamp")
    ++ js ">Last updated: ".

(** After the time stamp. *)
Definition pageTail : jsstring :=
  js "</p>
        </div>
    </div>
</body>
</html>
      ".

Definition renderPage (htmlTable now : jsstring) : jsstring :=
  trim (pageHead ++ htmlTable ++ pageMiddle ++ EXCEL_URL ++ pageFooter
          ++ now ++ pageTail).

Section Handler.

Variable net : Network.
Variable now : jsstring.

Definition respond : M Worker.Reply :=
  response <- Eff.fetch net EXCEL_URL ;;
  if negb (ok response) then
    ret {| Worker.replyStatus := 500;
           Worker.contentType := js "text/plain";
           Worker.cacheControl := None;
           Worker.replyBody := js "Failed to fetch Excel file: "
                                 ++ decimal (status response) ++ js " "
                                 ++ statusText response |}
  else
    jsonData <- read EvParseSheet (sheet response) ;;
    let filteredData := filteredData jsonData in
    let formattedData := formattedData filteredData in
    let htmlTable := buildColorCodedTable formattedData filteredData in
    let html := renderPage htmlTable now in
    ret {| Worker.replyStatus := 200;
           Worker.contentType := js "text/html;charset=UTF-8";
           Worker.cacheControl := Some (js "public, max-age=300");
           Worker.replyBody := html |}.

Definition fetch : M Worker.Reply :=
  tryCatch respond
    (fun message =>
       log (js "Error:") ;;;
       ret {| Worker.replyStatus := 500;
              Worker.contentType := js "text/plain";
              Worker.cacheControl := None;
              Worker.replyBody := js "Error processing Excel file: "
                                    ++ message |}).

End Handler.

End Legacy.

(** * Statements

    The predicates in which the properties are stated, and the inputs of
    the worked examples. *)

(** ** Tickers *)

(** A ticker has no trailing digits when it does not end in a digit. *)
Definition noTrailingDigit (ticker : jsstring) : Prop :=
  forall c, last ticker = Some c -> isDigit c = false.

(** The condition under which the filter keeps a row: a truthy TICKER
    cell whose string form, trimmed, is not empty. *)
Definition keptTicker (row : Row) : Prop :=
  toBoolean (TICKER row) = true /\ trim (toString (TICKER row)) <> [].

(** A letter of the alphabet, capital or small, and the longest leading
    alphabetic run of a ticker, as the specification words them.  The
    patterns of the worker are about capital letters only ([upperRun]). *)
Definition isLetter (c : N) : bool :=
  isUpper c || ((97 <=? c) && (c <=? 122))%N.

Fixpoint specAlphabeticRun (s : jsstring) : jsstring :=
  match s with
  | c :: s' => if isLetter c then c :: specAlphabeticRun s' else []
  | [] => []
  end.

(** ** Numbers and ranking *)

(** A number of sign [s] that is not zero: an infinity or a finite
    number with that sign. *)
Definition signed (s : bool) (x : number) : Prop :=
  x = S754_infinity s \/ exists m e, x = S754_finite s m e.

(** A cell holds a number of the format, or no number at all. *)
Definition wellFormedValue (v : jsval) : Prop :=
  match v with
  | VNum x => wellFormed x
  | _ => True
  end.

(** The contribution is a number of the format, and it is not NaN. *)
Definition comparable (x : Enriched) : Prop :=
  wellFormed (contribution x) /\ isNaN (contribution x) = false.

(** Contributions in non-increasing order: every item is followed only by
    items whose contribution is at most its own. *)
Definition nonIncreasing (items : list Enriched) : Prop :=
  StronglySorted
    (fun x y => leb (contribution y) (contribution x) = true) items.

(** The items whose contribution equals [k], in their order. *)
Definition withContribution (k : number) (items : list Enriched)
  : list Enriched :=
  List.filter (fun x => eqb (contribution x) k) items.

(** A reordering is stable when items of equal contribution keep their
    relative order. *)
Definition stable (before after : list Enriched) : Prop :=
  forall k, withContribution k after = withContribution k before.

(** ** Formatted changes *)

(** A string made of a sign, a whole part, a point, two digits and a
    percent sign. *)
Definition signedTwoDecimalPercent (s : jsstring) : Prop :=
  exists sign whole d1 d2,
    s = sign :: whole ++ js "." ++ [d1; d2] ++ js "%"
    /\ (sign = 43%N \/ sign = 45%N)
    /\ isDigit d1 = true /\ isDigit d2 = true.

(** Neither NaN nor an infinity. *)
Definition isFinite (x : number) : bool :=
  match x with
  | S754_zero _ | S754_finite _ _ _ => true
  | _ => false
  end.

(** The numeric portion of a percent-change string, as the specification
    words it: the number that the string spells, its separators of
    thousands and its percent sign set aside.  The worker reads
    [parseFloat(str.replace('%', ''))] instead, which stops at the first
    separator. *)
Definition withoutSeparators (str : jsstring) : jsstring :=
  List.filter (fun c => negb (c =? 44)%N) str.

Definition specNumericPortion (str : jsstring) : number :=
  parseFloat (replace (js "%") [] (withoutSeparators str)).

(** ** Calls *)

(** The number of the next call of [fetch] after the trace [tr]. *)
Definition fetches (tr : list Event) : nat := length (List.filter isFetch tr).

(** A computation that cannot throw. *)
Definition total {A} (c : M A) : Prop :=
  forall tr, exists a tr', c tr = (Return a, tr').

(** The address that [fetchSinglePrice] fetches for a ticker. *)
Definition quoteUrl (ticker : jsstring) : option jsstring :=
  match resolveSymbol ticker with
  | Barchart root => Some (barchartUrl root)
  | Yahoo symbol =>
      match encodeURIComponent symbol with
      | Return encoded => Some (yahooUrl encoded)
      | Throw _ => None
      end
  end.

(** The ways in which the quote of [ticker] can fail, when its fetch is
    the [n]-th of the run. *)
Inductive QuoteFailure (net : Network) (n : nat) (ticker : jsval) : Prop :=
| NotAString :
    (forall t, ticker <> VStr t) -> QuoteFailure net n ticker
| MalformedSymbol t :
    ticker = VStr t -> quoteUrl t = None -> QuoteFailure net n ticker
| NetworkFailure t url e :
    ticker = VStr t -> quoteUrl t = Some url -> net n url = Throw e ->
    QuoteFailure net n ticker
| HttpStatus t url r :
    ticker = VStr t -> quoteUrl t = Some url -> net n url = Return r ->
    ok r = false -> QuoteFailure net n ticker
| UnreadablePage t root r e :
    ticker = VStr t -> resolveSymbol t = Barchart root ->
    net n (barchartUrl root) = Return r -> ok r = true ->
    text r = Throw e -> QuoteFailure net n ticker
| NoPercentChange t root r html :
    ticker = VStr t -> resolveSymbol t = Barchart root ->
    net n (barchartUrl root) = Return r -> ok r = true ->
    text r = Return html -> matchPercentChange html = None ->
    QuoteFailure net n ticker
| NotNumeric t root r html percentStr :
    ticker = VStr t -> resolveSymbol t = Barchart root ->
    net n (barchartUrl root) = Return r -> ok r = true ->
    text r = Return html -> matchPercentChange html = Some percentStr ->
    isNaN (parseFloat (replace (js "%") [] percentStr)) = true ->
    QuoteFailure net n ticker
| MalformedJson t url r e :
    ticker = VStr t -> (exists y, resolveSymbol t = Yahoo y) ->
    quoteUrl t = Some url -> net n url = Return r -> ok r = true ->
    json r = Throw e -> QuoteFailure net n ticker
| NoMeta t url r data :
    ticker = VStr t -> (exists y, resolveSymbol t = Yahoo y) ->
    quoteUrl t = Some url -> net n url = Return r -> ok r = true ->
    json r = Return data -> meta data = None -> QuoteFailure net n ticker
| NoPrice t url r data m :
    ticker = VStr t -> (exists y, resolveSymbol t = Yahoo y) ->
    quoteUrl t = Some url -> net n url = Return r -> ok r = true ->
    json r = Return data -> meta data = Some m ->
    toBoolean (regularMarketPrice m)
      && toBoolean (JsValue.or (chartPreviousClose m) (Eff.previousClose m))
    = false ->
    QuoteFailure net n ticker.

(** ** Worked examples *)

(** The holdings of the worked example of the specification: CLZ5 with a
    weight of 0.10 and a quote of +2.00%, XYZ with 0.05 and no quote. *)
Definition holding (ticker : string) (pct : number) : Row :=
  {| DATE := VNum (ofDecimal false 20240115 0); CUSIP := VUndefined;
     TICKER := VStr (js ticker); DESCRIPTION := VUndefined;
     SHARES := VUndefined; BASE_MV := VUndefined; PCT_HOLDINGS := VNum pct |}.

(** The quotes of the worked example. *)
Definition examplePrices : gmap jsstring jsstring :=
  <[js "CLZ5" := js "+2.00%"]> (<[js "XYZ" := NA]> ∅).

(** The worked example: XYZ without a quote before CLZ5 in the sheet,
    CLZ5 first after sorting. *)
Definition exampleItems : list Enriched :=
  dataWithContributions examplePrices
    [holding "XYZ" (ofDecimal false 5 (-2));
     holding "CLZ5" (ofDecimal false 10 (-2))].

(** A row whose TICKER cell holds the number 0. *)
Definition zeroTickerRow : Row :=
  {| DATE := VNum (ofZ 20240115); CUSIP := VUndefined; TICKER := VNum zero;
     DESCRIPTION := VStr (js "CASH"); SHARES := VUndefined;
     BASE_MV := VUndefined; PCT_HOLDINGS := VNum zero |}.

(** A holding without a PCT_HOLDINGS cell; with a quote its contribution
    is NaN. *)
Definition unweighted : Row :=
  {| DATE := VNum (ofDecimal false 20240115 0); CUSIP := VUndefined;
     TICKER := VStr (js "GCZ5"); DESCRIPTION := VStr (js "GOLD");
     SHARES := VUndefined; BASE_MV := VUndefined;
     PCT_HOLDINGS := VUndefined |}.

(** Two holdings, the first without a weight, both with the quote
    +2.00%. *)
Definition risingPrices : gmap jsstring jsstring :=
  <[js "GCZ5" := js "+2.00%"]> (<[js "CLZ5" := js "+2.00%"]> ∅).

Definition unweightedItems : list Enriched :=
  dataWithContributions risingPrices
    [unweighted; holding "CLZ5" (ofDecimal false 10 (-2))].

(** A row with a blank ticker, and the answer of the spreadsheet server
    when the sheet holds that row only. *)
Definition blankRow : Row :=
  {| DATE := VUndefined; CUSIP := VUndefined; TICKER := VStr (js "  ");
     DESCRIPTION := VStr (js "Net cash"); SHARES := VUndefined;
     BASE_MV := VUndefined; PCT_HOLDINGS := VUndefined |}.

Definition blankSheet : Response :=
  {| status := 200; statusText := js "OK"; text := Return [];
     json := Throw (js "Unexpected end of JSON input");
     sheet := Return [blankRow] |}.

(** The answer of a server that does not have the spreadsheet. *)
Definition notFound : Response :=
  {| status := 404; statusText := js "Not Found"; text := Return [];
     json := Throw (js "Unexpected end of JSON input");
     sheet := Throw (js "Unsupported file") |}.

(** A sheet with one holding, and a network on which every quote server
    is out of reach. *)
Definition oneHolding : Response :=
  {| status := 200; statusText := js "OK"; text := Return [];
     json := Throw (js "Unexpected token");
     sheet := Return [holding "CLZ5" (ofDecimal false 10 (-2))] |}.

Definition quotesDown : Network :=
  fun n url =>
    if streq url EXCEL_URL then Return oneHolding
    else Throw (js "Network connection lost").

(** A Yahoo chart with the given prices in its metadata. *)
Definition chartOf (price chartPrevious previous : jsval) : Response :=
  {| status := 200; statusText := js "OK"; text := Return [];
     json := Return {| meta := Some {| regularMarketPrice := price;
                                        chartPreviousClose := chartPrevious;
                                        previousClose := previous |};
                       chartError := false |};
     sheet := Throw (js "Unsupported file") |}.

(** The paragraph that stands for an empty table. *)
Definition noHoldings : jsstring := js "<p>No holdings with tickers found.</p>".

(** The table container of the page when it holds the paragraph. *)
Definition emptyTableRegion : jsstring :=
  js "<div class=" ++ quoted (js "table-container") ++ js ">" ++ nl
    ++ js "            " ++ noHoldings ++ nl ++ js "        </div>".

(** ** Further statements *)

(** *** Tickers *)

(** The ticker starts with a capital letter: both expressions of
    [convertToYahooSymbol] ask for one. *)
Definition startsWithCapital (ticker : jsstring) : bool :=
  match ticker with
  | c :: _ => isUpper c
  | [] => false
  end.

(** *** Traces *)

(** The addresses that a trace fetches, in order. *)
Definition fetchedUrls (tr : list Event) : list jsstring :=
  flat_map (fun e => match e with EvFetch url => [url] | _ => [] end) tr.

(** The addresses that [fetchSinglePrice] fetches for a ticker: one for a
    string whose lookup symbol can be encoded, none otherwise. *)
Definition quoteUrls (ticker : jsval) : list jsstring :=
  match ticker with
  | VStr t =>
      match quoteUrl t with
      | Some url => [url]
      | None => []
      end
  | _ => []
  end.

(** The one key under which an assignment to an object makes no entry:
    it sets the prototype.  The finite map that stands for [prices] is
    the object only for tickers with another string form. *)
Definition protoKey : jsstring := js "__proto__".

(** What [fetchSinglePrice] returns: N/A or a change written by
    [formatChangePercent]. *)
Definition isQuote (s : jsstring) : Prop :=
  s = NA \/ exists x, s = formatChangePercent (VNum x).

(** A page of Barchart with the given percentChange field among its
    embedded data. *)
Definition barchartPage (field : jsstring) : Response :=
  {| status := 200; statusText := js "OK";
     text := Return (js "{" ++ quoted (js "lastPrice") ++ js ":"
                       ++ quoted (js "2,431.5") ++ js ","
                       ++ quoted (js "percentChange") ++ js ":"
                       ++ quoted field ++ js "}");
     json := Throw (js "Unexpected token");
     sheet := Throw (js "Unsupported file") |}.

(** *** Replies *)

(** The two kinds of reply of the handler. *)
Definition pageReply (reply : Worker.Reply) : Prop :=
  Worker.replyStatus reply = 200%N
  /\ Worker.contentType reply = js "text/html;charset=UTF-8"
  /\ Worker.cacheControl reply = Some (js "public, max-age=300").

Definition errorReply (reply : Worker.Reply) : Prop :=
  Worker.replyStatus reply = 500%N
  /\ Worker.contentType reply = js "text/plain"
  /\ Worker.cacheControl reply = None.

(** The spreadsheet server answers the first call with a status in
    200-299 and a body that the parser reads. *)
Definition sheetRead (net : Network) : Prop :=
  exists r jsonData,
    net 0%nat EXCEL_URL = Return r /\ ok r = true
    /\ sheet r = Return jsonData.

(** The reply of the [catch] of the handler. *)
Definition processingError (message : jsstring) : Worker.Reply :=
  {| Worker.replyStatus := 500;
     Worker.contentType := js "text/plain";
     Worker.cacheControl := None;
     Worker.replyBody := js "Error processing Excel file: " ++ message |}.

(** [s.endsWith(p)] *)
Definition endsWith (p s : jsstring) : bool := startsWith (rev p) (rev s).

(** *** Written numbers *)

(** The sign bit of a number; NaN has none. *)
Definition signOf (x : number) : option bool :=
  match x with
  | S754_nan => None
  | S754_zero s | S754_infinity s | S754_finite s _ _ => Some s
  end.

(** The value of a run of decimal digits read after [acc]. *)
Definition digitsValue (acc : N) (ds : jsstring) : N :=
  fold_left (fun a c => (a * 10 + (c - 48))%N) ds acc.

(** A change of [h] hundredths of a percent written with its sign and two
    decimals, without separators of thousands. *)
Definition hundredths (negative : bool) (h : N) : jsstring :=
  (if negative then js "-" else js "+") ++ decimal (h / 100) ++ js "."
    ++ padded 2 (h mod 100) ++ js "%".

Definition isDigitOrComma (c : N) : bool := isDigit c || (c =? 44)%N.

(** A zero, of either sign. *)
Definition isZero (x : number) : bool :=
  match x with
  | S754_zero _ => true
  | _ => false
  end.

(** Any number but the zero with a minus sign. *)
Definition notMinusZero (x : number) : Prop := x <> S754_zero true.

(** *** The table *)


(** The keys of an object of [formattedData], in the order in which they
    are written. *)
Definition columns : list jsstring :=
  [js "Date"; js "CUSIP"; js "Ticker"; js "Description"; js "Holdings %";
   js "Daily Change"; js "Contribution"].

(** The keys of a formatted row of the earlier revision. *)
Definition legacyColumns : list jsstring :=
  [js "Date"; js "CUSIP"; js "Ticker"; js "Description"; js "Shares";
   js "Market Value"; js "Holdings %"].

(** The table up to its first data row. *)
Definition tableHeadOf (headers : list jsstring) : jsstring :=
  js "<table id=" ++ quoted (js "holdings-table") ++ js ">" ++ nl
    ++ js "<thead><tr>" ++ nl
    ++ concat (List.map (fun header => js "<th>" ++ header ++ js "</th>" ++ nl)
                        headers)
    ++ js "</tr></thead>" ++ nl ++ js "<tbody>" ++ nl.

Definition tableHead : jsstring := tableHeadOf columns.

(** The total row: TOTAL under the first column, the total under
    Contribution, nothing under the five columns between them. *)
Definition totalRow (totalContribution : number) : jsstring :=
  js "<tr class=" ++ quoted (js "total-row") ++ js ">" ++ nl
    ++ js "<td><strong>TOTAL</strong></td>" ++ nl
    ++ concat (repeat (js "<td></td>" ++ nl) 5)
    ++ js "<td class="
    ++ quoted (signClass totalContribution (js "positive-change")
                         (js "negative-change"))
    ++ js ">"
    ++ formatChangePercent (VNum (mul totalContribution (ofZ 100)))
    ++ js "</td>" ++ nl
    ++ js "</tr>" ++ nl.

(** A cell that holds [text]. *)
Definition plainCell (text : jsstring) : jsstring :=
  js "<td>" ++ text ++ js "</td>" ++ nl.

(** A cell of one of the text columns: the value of the sheet, or the
    empty string when it is falsy, between the tags. *)
Definition textCell (v : jsval) : jsstring :=
  js "<td>" ++ toString (JsValue.or v (VStr [])) ++ js "</td>" ++ nl.

(** A cell that is not a text: a number, a truth value, or no value at
    all.  The formatters stand for the code on such cells. *)
Definition notText (v : jsval) : Prop :=
  match v with
  | VStr (_ :: _) => False
  | _ => True
  end.

(** A row whose shares, market value and weight are not texts. *)
Definition numericCells (row : Row) : Prop :=
  notText (SHARES row) /\ notText (BASE_MV row)
  /\ notText (PCT_HOLDINGS row).

(** * Properties *)

(** ** Binary64 numbers *)

Section Binary64.

Local Open Scope Z_scope.

Lemma digits2_pos_size (m : positive) : digits2_pos m = Pos.size m.
Proof. induction m as [m IH|m IH|]; cbn; rewrite ?IH; reflexivity. Qed.

(** A mantissa of [d] binary digits lies between [2^(d-1)] and [2^d]. *)
Lemma digits2_bounds (m : positive) :
  2 ^ (Z.pos (digits2_pos m) - 1) <= Z.pos m < 2 ^ Z.pos (digits2_pos m).
Proof.
  rewrite digits2_pos_size. split.
  - pose proof (Pos.size_le m) as H.
    assert (H' : 2 ^ Z.pos (Pos.size m) <= 2 * Z.pos m).
    { rewrite <- Pos2Z.inj_pow. exact H. }
    replace (Z.pos (Pos.size m)) with (Z.succ (Z.pos (Pos.size m) - 1)) in H'
      by lia.
    rewrite Z.pow_succ_r in H' by lia. lia.
  - pose proof (Pos.size_gt m) as H.
    rewrite <- Pos2Z.inj_pow. exact H.
Qed.

Lemma iter_xO (m d : positive) :
  Z.pos (Pos.iter xO m d) = Z.pos m * 2 ^ Z.pos d.
Proof.
  induction d as [|d IH] using Pos.peano_ind.
  - cbn. lia.
  - rewrite Pos.iter_succ, Pos2Z.inj_succ, Z.pow_succ_r by lia.
    rewrite Pos2Z.inj_xO, IH. lia.
Qed.

(** Aligning a mantissa to a smaller exponent keeps its value. *)
Lemma shl_align_value (m : positive) (e e' : Z) :
  e' <= e ->
  Z.pos (fst (shl_align m e e')) = Z.pos m * 2 ^ (e - e')
  /\ snd (shl_align m e e') = e'.
Proof.
  intros Hle. unfold shl_align.
  destruct (e' - e) as [|p|p] eqn:Hd; try lia.
  - replace (e - e') with 0 by lia. replace e' with e by lia.
    cbn [fst snd]. split; lia.
  - cbn [fst snd]. rewrite iter_xO. replace (e - e') with (Z.pos p) by lia.
    split; reflexivity.
Qed.

Lemma shr_1_m (mrs : shr_record) :
  0 <= shr_m mrs -> shr_m (shr_1 mrs) = shr_m mrs / 2.
Proof.
  destruct mrs as [m r s]. cbn [shr_m]. intros Hm.
  destruct m as [|[p|p|]|p]; cbn [shr_1 shr_m]; try lia;
    try reflexivity;
    solve [ apply Z.div_unique with (r := 1); lia
          | apply Z.div_unique with (r := 0); lia ].
Qed.

Lemma iter_shr_1_m (p : positive) :
  forall mrs, 0 <= shr_m mrs ->
    shr_m (SpecFloat.iter_pos shr_1 p mrs) = shr_m mrs / 2 ^ Z.pos p.
Proof.
  induction p as [p IH|p IH|]; intros mrs Hm; cbn [SpecFloat.iter_pos].
  - assert (H1 : 0 <= shr_m (shr_1 mrs)).
    { rewrite shr_1_m by exact Hm. apply Z.div_pos; lia. }
    assert (H2 : 0 <= shr_m (SpecFloat.iter_pos shr_1 p (shr_1 mrs))).
    { rewrite IH by exact H1. apply Z.div_pos; lia. }
    rewrite IH, IH, shr_1_m by assumption.
    rewrite !Z.div_div by lia.
    f_equal.
    replace (Z.pos p~1) with (1 + Z.pos p + Z.pos p) by lia.
    rewrite (Z.pow_add_r 2 (1 + Z.pos p) (Z.pos p)) by lia.
    rewrite (Z.pow_add_r 2 1 (Z.pos p)) by lia. lia.
  - assert (H2 : 0 <= shr_m (SpecFloat.iter_pos shr_1 p mrs)).
    { rewrite IH by exact Hm. apply Z.div_pos; lia. }
    rewrite IH, IH by assumption.
    rewrite !Z.div_div by lia.
    f_equal.
    replace (Z.pos p~0) with (Z.pos p + Z.pos p) by lia.
    rewrite (Z.pow_add_r 2 (Z.pos p) (Z.pos p)) by lia. lia.
  - rewrite shr_1_m by exact Hm. reflexivity.
Qed.

(** Rounding to the format never loses a mantissa that is not zero, as
    long as the exponent is not below the least one. *)
Lemma shr_fexp_positive (m : positive) (e : Z) (l : location) :
  emin prec emax <= e ->
  0 < shr_m (fst (shr_fexp prec emax (Z.pos m) e l))
  /\ emin prec emax <= snd (shr_fexp prec emax (Z.pos m) e l).
Proof.
  intros He. unfold shr_fexp, shr. cbn [Zdigits2].
  pose proof (digits2_bounds m) as [Hlo _].
  set (d := Z.pos (digits2_pos m)) in *.
  assert (Hm : shr_m (shr_record_of_loc (Z.pos m) l) = Z.pos m)
    by (destruct l as [|[]]; reflexivity).
  unfold fexp, emin, prec, emax in *.
  destruct (Z.max (d + e - 53) (3 - 1024 - 53) - e) as [|n|n] eqn:Hn;
    cbn [fst snd]; rewrite ?Hm; try (split; lia).
  rewrite iter_shr_1_m by (rewrite Hm; lia). rewrite Hm.
  split; [|lia].
  assert (Hnd : Z.pos n <= d - 1) by lia.
  apply Z.div_str_pos. split; [lia|].
  apply Z.le_trans with (2 ^ (d - 1)); [|exact Hlo].
  apply Z.pow_le_mono_r; lia.
Qed.

Lemma round_nearest_even_positive (m : Z) (l : location) :
  0 < m -> 0 < round_nearest_even m l.
Proof.
  intros Hm. destruct l as [|[]]; cbn [round_nearest_even]; try lia.
  destruct (Z.even m); lia.
Qed.

Lemma binary_round_aux_signed (s : bool) (m : positive) (e : Z)
    (l : location) :
  emin prec emax <= e ->
  signed s (binary_round_aux prec emax s (Z.pos m) e l).
Proof.
  intros He. unfold binary_round_aux.
  destruct (shr_fexp_positive m e l He) as [Hpos He'].
  destruct (shr_fexp prec emax (Z.pos m) e l) as [mrs' e'].
  cbn [fst snd] in Hpos, He'.
  pose proof (round_nearest_even_positive (shr_m mrs')
                (loc_of_shr_record mrs') Hpos) as Hround.
  destruct (round_nearest_even (shr_m mrs') (loc_of_shr_record mrs'))
    as [|m1|m1]; try lia.
  destruct (shr_fexp_positive m1 e' loc_Exact He') as [Hpos' _].
  destruct (shr_fexp prec emax (Z.pos m1) e' loc_Exact) as [mrs'' e''].
  cbn [fst] in Hpos'.
  destruct (shr_m mrs'') as [|m2|m2]; try lia.
  destruct (e'' <=? emax - prec); [right; eauto | left; reflexivity].
Qed.

Lemma binary_round_signed (s : bool) (m : positive) (e : Z) :
  emin prec emax <= e -> signed s (binary_round prec emax s m e).
Proof.
  intros He. unfold binary_round.
  destruct (shl_align m e (fexp prec emax (Z.pos (digits2_pos m) + e)))
    as [mz ez] eqn:Hal.
  apply binary_round_aux_signed.
  unfold shl_align in Hal.
  assert (Hf : emin prec emax <= fexp prec emax (Z.pos (digits2_pos m) + e))
    by (unfold fexp; lia).
  destruct (fexp prec emax (Z.pos (digits2_pos m) + e) - e);
    injection Hal as <- <-; lia.
Qed.

Lemma ltb_zero_signed (s : bool) (x : number) :
  signed s x -> ltb zero x = negb s.
Proof. intros [->|(m & e & ->)]; destruct s; reflexivity. Qed.

Lemma binary_normalize_sign (d e : Z) :
  emin prec emax <= e ->
  ltb zero (binary_normalize prec emax d e false) = (0 <? d).
Proof.
  intros He. destruct d as [|m|m]; cbn [binary_normalize].
  - reflexivity.
  - rewrite (ltb_zero_signed false) by (apply binary_round_signed; exact He).
    reflexivity.
  - rewrite (ltb_zero_signed true) by (apply binary_round_signed; exact He).
    reflexivity.
Qed.

(** What the representation invariant says of a finite number. *)
Lemma bounded_canonical (m : positive) (e : Z) :
  bounded prec emax m e = true ->
  emin prec emax <= e
  /\ Z.pos (digits2_pos m) <= prec
  /\ (emin prec emax < e -> Z.pos (digits2_pos m) = prec).
Proof.
  unfold bounded, canonical_mantissa, fexp, emin, prec, emax.
  intros H. apply andb_true_iff in H as [H _]. apply Z.eqb_eq in H. lia.
Qed.

(** Of two canonical mantissas, the one with the greater exponent stands
    for the greater magnitude. *)
Lemma canonical_magnitude_lt (ma mb : positive) (ea eb : Z) :
  bounded prec emax ma ea = true -> bounded prec emax mb eb = true ->
  ea < eb -> Z.pos ma < Z.pos mb * 2 ^ (eb - ea).
Proof.
  intros Ha Hb Hlt.
  destruct (bounded_canonical ma ea Ha) as (Hea & Hda & _).
  destruct (bounded_canonical mb eb Hb) as (_ & _ & Hdb).
  pose proof (digits2_bounds ma) as [_ Hma].
  pose proof (digits2_bounds mb) as [Hmb _].
  rewrite Hdb in Hmb by lia. unfold prec in *.
  assert (H53 : Z.pos ma < 2 ^ 53).
  { eapply Z.lt_le_trans; [exact Hma|]. apply Z.pow_le_mono_r; lia. }
  assert (H2 : 2 ^ 1 <= 2 ^ (eb - ea)) by (apply Z.pow_le_mono_r; lia).
  change (2 ^ 1) with 2 in H2. change (2 ^ (53 - 1)) with 4503599627370496 in Hmb.
  change (2 ^ 53) with 9007199254740992 in H53.
  nia.
Qed.

(** The sign of [b - a] tells whether [a < b]: a difference of two
    numbers is never rounded to zero. *)
Lemma sub_sign (a b : number) :
  wellFormed a -> wellFormed b -> ltb zero (sub b a) = ltb a b.
Proof.
  unfold wellFormed.
  destruct a as [sa|sa| |sa ma ea], b as [sb|sb| |sb mb eb];
    try (intros _ _; try destruct sa; try destruct sb; reflexivity).
  cbn [valid_binary]. intros Ha Hb.
  destruct (bounded_canonical ma ea Ha) as (Hea & _ & _).
  destruct (bounded_canonical mb eb Hb) as (Heb & _ & _).
  unfold sub. cbn [SFsub].
  rewrite binary_normalize_sign by lia.
  destruct (shl_align_value mb eb (Z.min eb ea)) as [-> _]; [lia|].
  destruct (shl_align_value ma ea (Z.min eb ea)) as [-> _]; [lia|].
  unfold ltb, SFltb. cbn [SFcompare].
  change (Pos.compare_cont Eq ma mb) with (Pos.compare ma mb).
  destruct (Z.compare_spec ea eb) as [Heq|Hlt|Hgt].
  - subst eb. rewrite Z.min_id, Z.sub_diag. change (2 ^ 0) with 1.
    rewrite !Z.mul_1_r.
    destruct (Pos.compare_spec ma mb) as [Hm|Hm|Hm];
      destruct sa, sb; cbn [cond_Zopp CompOpp];
      first [apply Z.ltb_lt; lia | apply Z.ltb_ge; lia].
  - pose proof (canonical_magnitude_lt ma mb ea eb Ha Hb Hlt) as Hmag.
    rewrite Z.min_r by lia. rewrite Z.sub_diag. change (2 ^ 0) with 1.
    rewrite Z.mul_1_r.
    destruct sa, sb; cbn [cond_Zopp];
      first [apply Z.ltb_lt; lia | apply Z.ltb_ge; lia].
  - pose proof (canonical_magnitude_lt mb ma eb ea Hb Ha Hgt) as Hmag.
    rewrite Z.min_l by lia. rewrite Z.sub_diag. change (2 ^ 0) with 1.
    rewrite Z.mul_1_r.
    destruct sa, sb; cbn [cond_Zopp];
      first [apply Z.ltb_lt; lia | apply Z.ltb_ge; lia].
Qed.

Lemma Zdigits2_log2 (m : Z) : 0 < m -> Zdigits2 m = Z.log2 m + 1.
Proof.
  destruct m as [|p|p]; try lia. intros _. cbn [Zdigits2].
  rewrite digits2_pos_size. destruct p; cbn [Pos.size Z.log2]; lia.
Qed.

Lemma Zdigits2_nonneg (m : Z) : 0 <= Zdigits2 m.
Proof. destruct m; cbn [Zdigits2]; lia. Qed.

Lemma Zdigits2_mono (m n : Z) : 0 <= m <= n -> Zdigits2 m <= Zdigits2 n.
Proof.
  intros [Hm Hmn].
  destruct (Z.eq_dec m 0) as [->|Hne]; [apply Zdigits2_nonneg|].
  rewrite !Zdigits2_log2 by lia.
  pose proof (Z.log2_le_mono m n Hmn). lia.
Qed.

(** Shifting right by [n] takes [n] digits away. *)
Lemma Zdigits2_div_pow2 (m n : Z) :
  0 < m -> 0 <= n < Zdigits2 m -> Zdigits2 (m / 2 ^ n) = Zdigits2 m - n.
Proof.
  intros Hm Hn. rewrite Zdigits2_log2 in Hn by exact Hm.
  rewrite <- Z.shiftr_div_pow2 by lia.
  assert (Hpos : 0 < Z.shiftr m n).
  { rewrite Z.shiftr_div_pow2 by lia. apply Z.div_str_pos. split; [lia|].
    apply Z.le_trans with (2 ^ Z.log2 m).
    - apply Z.pow_le_mono_r; lia.
    - apply Z.log2_spec. exact Hm. }
  rewrite !Zdigits2_log2 by assumption.
  rewrite Z.log2_shiftr by exact Hm. lia.
Qed.

Lemma shr_m_of_loc (m : Z) (l : location) :
  shr_m (shr_record_of_loc m l) = m.
Proof. destruct l as [|[]]; reflexivity. Qed.

(** After [shr_fexp] the exponent is the canonical one of the mantissa. *)
Lemma shr_fexp_canonical (m e : Z) (l : location) :
  0 <= m -> e <= fexp prec emax (Zdigits2 m + e) ->
  0 <= shr_m (fst (shr_fexp prec emax m e l))
  /\ fexp prec emax
       (Zdigits2 (shr_m (fst (shr_fexp prec emax m e l)))
        + snd (shr_fexp prec emax m e l))
     = snd (shr_fexp prec emax m e l).
Proof.
  intros Hm He. unfold shr_fexp, shr.
  pose proof (Zdigits2_nonneg m) as Hd.
  set (d := Zdigits2 m) in *.
  destruct (fexp prec emax (d + e) - e) as [|n|n] eqn:Hn;
    cbn [fst snd]; rewrite ?shr_m_of_loc.
  - split; [exact Hm|]. fold d. lia.
  - rewrite iter_shr_1_m by (rewrite shr_m_of_loc; exact Hm).
    rewrite shr_m_of_loc.
    split; [apply Z.div_pos; lia|].
    destruct (Z_lt_le_dec (Z.pos n) d) as [Hlt|Hge].
    + assert (Hm' : 0 < m).
      { destruct (Z.eq_dec m 0) as [->|]; [|lia]. subst d. cbn in Hlt. lia. }
      rewrite Zdigits2_div_pow2 by (fold d; lia). fold d.
      replace (d - Z.pos n + (e + Z.pos n)) with (d + e) by lia. lia.
    + assert (H0 : m / 2 ^ Z.pos n = 0).
      { destruct (Z.eq_dec m 0) as [->|Hne]; [apply Z.div_0_l; lia|].
        apply Z.div_small. split; [lia|].
        assert (Hdm : m < 2 ^ d).
        { subst d. rewrite Zdigits2_log2 by lia.
          pose proof (Z.log2_spec m ltac:(lia)) as [_ Hup].
          replace (Z.log2 m + 1) with (Z.succ (Z.log2 m)) by lia. exact Hup. }
        eapply Z.lt_le_trans; [exact Hdm|]. apply Z.pow_le_mono_r; lia. }
      rewrite H0. cbn [Zdigits2].
      unfold fexp, emin, prec, emax in *. lia.
  - lia.
Qed.

Lemma round_nearest_even_bounds (m : Z) (l : location) :
  m <= round_nearest_even m l <= m + 1.
Proof.
  destruct l as [|[]]; cbn [round_nearest_even]; try lia.
  destruct (Z.even m); lia.
Qed.

Lemma fexp_mono (x y : Z) : x <= y -> fexp prec emax x <= fexp prec emax y.
Proof. unfold fexp. lia. Qed.

(** Rounding gives a number of the format. *)
Lemma binary_round_aux_valid (s : bool) (m e : Z) (l : location) :
  0 <= m -> e <= fexp prec emax (Zdigits2 m + e) ->
  valid_binary prec emax (binary_round_aux prec emax s m e l) = true.
Proof.
  intros Hm He. unfold binary_round_aux.
  destruct (shr_fexp_canonical m e l Hm He) as [Hpos Hcan].
  destruct (shr_fexp prec emax m e l) as [mrs' e'].
  cbn [fst snd] in Hpos, Hcan.
  pose proof (round_nearest_even_bounds (shr_m mrs') (loc_of_shr_record mrs'))
    as Hround.
  set (m1 := round_nearest_even (shr_m mrs') (loc_of_shr_record mrs')) in *.
  assert (Hm1 : 0 <= m1) by lia.
  assert (He1 : e' <= fexp prec emax (Zdigits2 m1 + e')).
  { rewrite <- Hcan at 1. apply fexp_mono.
    pose proof (Zdigits2_mono (shr_m mrs') m1 ltac:(lia)). lia. }
  destruct (shr_fexp_canonical m1 e' loc_Exact Hm1 He1) as [Hpos2 Hcan2].
  destruct (shr_fexp prec emax m1 e' loc_Exact) as [mrs'' e''].
  cbn [fst snd] in Hpos2, Hcan2.
  destruct (shr_m mrs'') as [|m2|m2]; try reflexivity.
  destruct (e'' <=? emax - prec) eqn:Hle; [|reflexivity].
  cbn [valid_binary]. unfold bounded, canonical_mantissa.
  cbn [Zdigits2] in Hcan2. rewrite Hcan2, Z.eqb_refl, Hle. reflexivity.
Qed.

Lemma binary_round_valid (s : bool) (m : positive) (e : Z) :
  valid_binary prec emax (binary_round prec emax s m e) = true.
Proof.
  unfold binary_round.
  destruct (shl_align m e (fexp prec emax (Z.pos (digits2_pos m) + e)))
    as [mz ez] eqn:Hal.
  apply binary_round_aux_valid; [lia|].
  unfold shl_align in Hal.
  destruct (fexp prec emax (Z.pos (digits2_pos m) + e) - e) as [|n|n] eqn:Hn;
    injection Hal as <- <-; cbn [Zdigits2]; try lia.
  assert (Hd : Z.pos (digits2_pos (Pos.iter xO m n))
               = Z.pos (digits2_pos m) + Z.pos n).
  { clear. induction n as [|n IH] using Pos.peano_ind.
    - cbn. lia.
    - rewrite Pos.iter_succ. cbn [digits2_pos]. lia. }
  rewrite Hd.
  replace (Z.pos (digits2_pos m) + Z.pos n
           + fexp prec emax (Z.pos (digits2_pos m) + e))
    with (Z.pos (digits2_pos m) + e) by lia.
  lia.
Qed.

Lemma binary_normalize_valid (m e : Z) (szero : bool) :
  valid_binary prec emax (binary_normalize prec emax m e szero) = true.
Proof.
  destruct m; cbn [binary_normalize]; [reflexivity| |];
    apply binary_round_valid.
Qed.

Lemma Zdigits2_ge (m k : Z) : 0 <= k -> 2 ^ k <= m -> k + 1 <= Zdigits2 m.
Proof.
  intros Hk Hm. assert (0 < m) by (pose proof (Z.pow_pos_nonneg 2 k); lia).
  rewrite Zdigits2_log2 by lia.
  apply Z.log2_le_pow2 in Hm; lia.
Qed.

Lemma add_wellFormed (x y : number) :
  wellFormed x -> wellFormed y -> wellFormed (add x y).
Proof.
  unfold wellFormed, add.
  destruct x as [sx|sx| |sx mx ex], y as [sy|sy| |sy my ey];
    intros Hx Hy; cbn [SFadd];
    try (destruct sx, sy; first [reflexivity | assumption]);
    try assumption.
  all: apply binary_normalize_valid.
Qed.

Lemma sub_wellFormed (x y : number) :
  wellFormed x -> wellFormed y -> wellFormed (sub x y).
Proof.
  unfold wellFormed, sub.
  destruct x as [sx|sx| |sx mx ex], y as [sy|sy| |sy my ey];
    intros Hx Hy; cbn [SFsub];
    try (destruct sx, sy; first [reflexivity | assumption]);
    try assumption; try reflexivity.
  all: apply binary_normalize_valid.
Qed.

Lemma mul_wellFormed (x y : number) :
  wellFormed x -> wellFormed y -> wellFormed (mul x y).
Proof.
  unfold wellFormed, mul.
  destruct x as [sx|sx| |sx mx ex], y as [sy|sy| |sy my ey];
    intros Hx Hy; cbn [SFmul]; try reflexivity.
  cbn [valid_binary] in Hx, Hy.
  destruct (bounded_canonical mx ex Hx) as (Hex & Hdx & Hnx).
  destruct (bounded_canonical my ey Hy) as (Hey & Hdy & Hny).
  apply binary_round_aux_valid; [lia|].
  pose proof (digits2_bounds mx) as [Hmx _].
  pose proof (digits2_bounds my) as [Hmy _].
  set (dx := Z.pos (digits2_pos mx)) in *.
  set (dy := Z.pos (digits2_pos my)) in *.
  assert (Hdx1 : 1 <= dx) by (subst dx; lia).
  assert (Hdy1 : 1 <= dy) by (subst dy; lia).
  assert (Hprod : 2 ^ (dx + dy - 2) <= Z.pos (mx * my)).
  { rewrite Pos2Z.inj_mul.
    replace (dx + dy - 2) with ((dx - 1) + (dy - 1)) by lia.
    rewrite Z.pow_add_r by lia.
    apply Z.mul_le_mono_nonneg; try assumption; apply Z.pow_nonneg; lia. }
  apply Zdigits2_ge in Hprod; [|lia].
  unfold fexp, emin, prec, emax in *. lia.
Qed.

Lemma div_core_valid (s : bool) (m1 m2 : positive) (e1 e2 : Z) :
  valid_binary prec emax
    (let '(q, e, l) := SFdiv_core_binary prec emax (Z.pos m1) e1 (Z.pos m2) e2 in
     binary_round_aux prec emax s q e l) = true.
Proof.
  unfold SFdiv_core_binary. cbn [Zdigits2].
  set (d1 := Z.pos (digits2_pos m1)).
  set (d2 := Z.pos (digits2_pos m2)).
  set (e' := Z.min (fexp prec emax (d1 + e1 - (d2 + e2))) (e1 - e2)).
  set (sh := e1 - e2 - e').
  assert (Hsh : 0 <= sh) by (subst sh e'; lia).
  set (m' := match sh with
             | 0 => Z.pos m1
             | Z.pos _ => Z.shiftl (Z.pos m1) sh
             | Z.neg _ => 0
             end).
  assert (Hm' : m' = Z.pos m1 * 2 ^ sh).
  { subst m'. destruct sh as [|p|p] eqn:Hp; try lia.
    rewrite Z.shiftl_mul_pow2 by lia. reflexivity. }
  pose proof (Z_div_mod m' (Z.pos m2) ltac:(lia)) as Hdm.
  destruct (Z.div_eucl m' (Z.pos m2)) as [q r].
  destruct Hdm as [Hq Hr].
  pose proof (digits2_bounds m1) as [Hlo1 _].
  pose proof (digits2_bounds m2) as [_ Hhi2].
  fold d1 in Hlo1. fold d2 in Hhi2.
  assert (H2sh : 0 < 2 ^ sh) by (apply Z.pow_pos_nonneg; lia).
  assert (Hq0 : 0 <= q) by nia.
  apply binary_round_aux_valid; [exact Hq0|].
  assert (Hdig : d1 + sh - d2 <= Zdigits2 q).
  { destruct (Z_le_gt_dec (d1 + sh - d2) 0) as [Hle|Hgt].
    - pose proof (Zdigits2_nonneg q). lia.
    - assert (Hpow : 2 ^ (d1 + sh - d2 - 1) <= q).
      { assert (Hm2 : 2 ^ (d1 + sh - d2 - 1) * Z.pos m2 <= m').
        { rewrite Hm'.
          apply Z.le_trans with (2 ^ (d1 + sh - d2 - 1) * 2 ^ d2).
          - apply Z.mul_le_mono_nonneg_l; [apply Z.pow_nonneg; lia | lia].
          - rewrite <- Z.pow_add_r by lia.
            replace (d1 + sh - d2 - 1 + d2) with ((d1 - 1) + sh) by lia.
            rewrite Z.pow_add_r by lia.
            apply Z.mul_le_mono_nonneg_r; lia. }
        assert (Hpp : 0 <= 2 ^ (d1 + sh - d2 - 1))
          by (apply Z.pow_nonneg; lia).
        nia. }
      apply Zdigits2_ge in Hpow; lia. }
  apply Z.le_trans with (fexp prec emax (d1 + e1 - (d2 + e2))).
  - subst e'. lia.
  - apply fexp_mono. subst sh. lia.
Qed.

Lemma div_wellFormed (x y : number) :
  wellFormed x -> wellFormed y -> wellFormed (div x y).
Proof.
  unfold wellFormed, div.
  destruct x as [sx|sx| |sx mx ex], y as [sy|sy| |sy my ey];
    intros Hx Hy; cbn [SFdiv]; try reflexivity.
  apply div_core_valid.
Qed.

Lemma ofZ_wellFormed (z : Z) : wellFormed (ofZ z).
Proof. apply binary_normalize_valid. Qed.

Lemma ofRatio_wellFormed (neg : bool) (num den : positive) :
  wellFormed (ofRatio neg num den).
Proof. apply div_core_valid. Qed.

Lemma ofDecimal_wellFormed (neg : bool) (m : N) (e : Z) :
  wellFormed (ofDecimal neg m e).
Proof.
  unfold ofDecimal. destruct m as [|p]; [reflexivity|].
  destruct e; apply ofRatio_wellFormed.
Qed.

End Binary64.

Lemma scanUnsignedDecimal_wellFormed (neg : bool) (s rest : jsstring)
    (v : number) :
  scanUnsignedDecimal neg s = Some (v, rest) -> wellFormed v.
Proof.
  unfold scanUnsignedDecimal. intros H.
  repeat case_match; simplify_eq; first [reflexivity | apply ofDecimal_wellFormed].
Qed.

Lemma scanDecimal_wellFormed (s rest : jsstring) (v : number) :
  scanDecimal s = Some (v, rest) -> wellFormed v.
Proof.
  unfold scanDecimal. intros H.
  repeat case_match; simplify_eq;
    eapply scanUnsignedDecimal_wellFormed; eassumption.
Qed.

Lemma parseFloat_wellFormed (s : jsstring) : wellFormed (parseFloat s).
Proof.
  unfold parseFloat.
  destruct (scanDecimal (trimStart s)) as [[v rest]|] eqn:H; [|reflexivity].
  eapply scanDecimal_wellFormed; eassumption.
Qed.

Lemma stringToNumber_wellFormed (s : jsstring) : wellFormed (stringToNumber s).
Proof.
  unfold stringToNumber.
  repeat case_match; simplify_eq;
    first [ reflexivity
          | apply ofZ_wellFormed
          | eapply scanDecimal_wellFormed; eassumption ].
Qed.

Lemma toNumber_wellFormed (v : jsval) :
  wellFormedValue v -> wellFormed (toNumber v).
Proof.
  destruct v as [| |[]|x|s]; cbn [wellFormedValue toNumber]; intros H;
    first [ exact H | reflexivity | apply ofZ_wellFormed
          | apply stringToNumber_wellFormed ].
Qed.

(** What the worker computes from numbers of the format is a number of
    the format. *)
Lemma enrich_wellFormed (prices : gmap jsstring jsstring) (row : Row) :
  wellFormedValue (PCT_HOLDINGS row) ->
  wellFormed (contribution (enrich prices row)).
Proof.
  intros Hpct. unfold enrich.
  destruct (prices !! toString (TICKER row)) as [str|]; [|reflexivity].
  destruct (hasQuote (Some str)); [|reflexivity].
  cbn [contribution].
  apply mul_wellFormed; [apply toNumber_wellFormed; exact Hpct|].
  apply div_wellFormed; [apply parseFloat_wellFormed | apply ofZ_wellFormed].
Qed.

(** ** The order of numbers *)

Ltac order_crush :=
  unfold leb, ltb, eqb, isNaN, SFleb, SFltb, SFeqb; cbn [SFcompare];
  repeat match goal with s : bool |- _ => destruct s end;
  change (Pos.compare_cont Eq) with Pos.compare;
  repeat match goal with
         | |- context [Z.compare ?x ?y] => destruct (Z.compare_spec x y)
         | |- context [Pos.compare ?x ?y] => destruct (Pos.compare_spec x y)
         end;
  cbn [CompOpp]; intros; subst;
  try discriminate; try reflexivity; try lia.

Lemma ltb_leb (a b : number) : ltb a b = true -> leb a b = true.
Proof. destruct a, b; order_crush. Qed.

Lemma not_ltb_leb (a b : number) :
  isNaN a = false -> isNaN b = false -> ltb a b = false -> leb b a = true.
Proof. destruct a, b; order_crush. Qed.

Lemma leb_trans (a b c : number) :
  leb a b = true -> leb b c = true -> leb a c = true.
Proof. destruct a, b, c; order_crush. Qed.

Lemma eqb_not_ltb (a b k : number) :
  eqb a k = true -> eqb b k = true -> ltb a b = false.
Proof. destruct a, b, k; order_crush. Qed.

Lemma eqb_refl (a : number) : isNaN a = false -> eqb a a = true.
Proof.
  destruct a as [s|s| |s m e]; unfold eqb, SFeqb, isNaN; cbn [SFcompare];
    intros H; try discriminate H; try (destruct s; reflexivity).
  change (Pos.compare_cont Eq m m) with (Pos.compare m m).
  rewrite Z.compare_refl, Pos.compare_refl. destruct s; reflexivity.
Qed.

Lemma eqb_sym (a b : number) : eqb a b = eqb b a.
Proof. destruct a, b; order_crush. Qed.

Lemma leb_antisym (a b : number) :
  leb a b = true -> leb b a = true -> eqb a b = true.
Proof. destruct a, b; order_crush. Qed.

(** ** Symbol resolution *)

Lemma forallb_last (f : N -> bool) (s : jsstring) (c : N) :
  forallb f s = true -> last s = Some c -> f c = true.
Proof.
  induction s as [|a s IH]; simpl; [discriminate|].
  intros Hall Hlast. apply andb_true_iff in Hall as [Ha Hs].
  destruct s as [|b s'].
  - simpl in Hlast. congruence.
  - apply IH; assumption.
Qed.

Lemma monthYear_ends_in_digit (s : jsstring) :
  monthYear s = true -> exists c, last s = Some c /\ isDigit c = true.
Proof.
  destruct s as [|c [|d ds]]; simpl; try discriminate.
  intros H. apply andb_true_iff in H as [_ Hds].
  change (last (c :: d :: ds)) with (last (d :: ds)).
  destruct (last (d :: ds)) as [x|] eqn:Hlast.
  - exists x. split; [reflexivity|].
    eapply (forallb_last isDigit (d :: ds)); eassumption.
  - apply last_None in Hlast. discriminate.
Qed.

Lemma contractPrefix_ends_in_digit (acc s p : jsstring) :
  contractPrefix acc s = Some p ->
  exists c, last s = Some c /\ isDigit c = true.
Proof.
  revert acc. induction s as [|c s IH]; intros acc; simpl; [discriminate|].
  destruct (isUpper c); [|discriminate].
  destruct (monthYear s) eqn:Hmy.
  - intros _. destruct (monthYear_ends_in_digit s Hmy) as (x & Hx & Hd).
    exists x. split; [|assumption].
    destruct s; [discriminate|assumption].
  - intros H. destruct (IH _ H) as (x & Hx & Hd).
    exists x. split; [|assumption].
    destruct s; [discriminate|assumption].
Qed.

Lemma matchContract_no_trailing_digit (ticker : jsstring) :
  noTrailingDigit ticker -> matchContract ticker = None.
Proof.
  intros Hno. unfold matchContract.
  destruct (contractPrefix [] ticker) as [p|] eqn:Hp; [|reflexivity].
  destruct (contractPrefix_ends_in_digit _ _ _ Hp) as (c & Hc & Hd).
  rewrite (Hno c Hc) in Hd. discriminate.
Qed.

Lemma contractPrefix_needs_letter (acc s : jsstring) :
  upperRun s = [] -> contractPrefix acc s = None.
Proof.
  destruct s as [|c s]; simpl; [reflexivity|].
  destruct (isUpper c); [discriminate|reflexivity].
Qed.

(** [fetchSinglePrice] dispatches on [resolveSymbol]. *)
Lemma fetchSinglePrice_resolve (net : Network) (ticker : jsstring) :
  fetchSinglePrice net (VStr ticker) =
  tryCatch
    (match resolveSymbol ticker with
     | Barchart root => fetchBarchartPrice net root
     | Yahoo symbol => fetchYahooPrice net symbol
     end)
    (fun error =>
       log (js "Error fetching price for " ++ ticker ++ js ":") ;;; ret NA).
Proof.
  unfold fetchSinglePrice, resolveSymbol. simpl.
  destruct (streq (commodityPrefix ticker) (js "MFS")); [reflexivity|].
  destruct (streq (commodityPrefix ticker) (js "MES")); reflexivity.
Qed.

(** [upperRun] is the longest leading run of capital letters: the ticker
    is the run followed by a rest that does not start with a capital
    letter. *)
Lemma upperRun_longest (ticker : jsstring) :
  exists rest,
    ticker = upperRun ticker ++ rest
    /\ forallb isUpper (upperRun ticker) = true
    /\ startsWithCapital rest = false.
Proof.
  induction ticker as [|c s (rest & Hs & Hup & Hrest)].
  - exists []. repeat split.
  - cbn [upperRun]. destruct (isUpper c) eqn:Hc.
    + exists rest. split; [cbn [app]; f_equal; exact Hs|].
      split; [cbn [forallb]; rewrite Hc; exact Hup | exact Hrest].
    + exists (c :: s). split; [reflexivity|]. split; [reflexivity|].
      cbn. exact Hc.
Qed.

(** C3, as stated, fails for small letters.  The ticker abc does not end
    in a digit and its leading alphabetic run is abc, yet it resolves to
    the Yahoo symbol abc, unchanged, and not to abc=F: the patterns of the
    worker match the capital letters A to Z only.  The quote of abc is
    fetched under that symbol. *)
Lemma symbol_resolution_counterexample :
  noTrailingDigit (js "abc")
  /\ specAlphabeticRun (js "abc") = js "abc"
  /\ resolveSymbol (js "abc") = Yahoo (js "abc")
  /\ convertToYahooSymbol (js "abc") <> specAlphabeticRun (js "abc") ++ js "=F"
  /\ fst (fetchSinglePrice
            (fun _ url =>
               if streq url (yahooUrl (js "abc"))
               then Return (chartOf (VNum (ofZ 102)) (VNum (ofZ 100)) VUndefined)
               else Throw (js "Not found"))
            (VStr (js "abc")) [])
     = Return (js "+2.00%").
Proof.
  split.
  { intros c Hc. vm_compute in Hc. injection Hc as <-. reflexivity. }
  repeat split; try (vm_compute; reflexivity).
  vm_compute. discriminate.
Qed.

(** C3, amended.  Symbol resolution sends CLZ5 to the Yahoo symbol CL=F,
    MFSZ5 to the Barchart root DI and MESZ5 to the Barchart root M0.  A
    ticker that does not end in a digit (ABC is one) and starts with a
    capital letter resolves to its longest leading run of capital letters
    A to Z followed by =F on the Yahoo path, unless that run is MFS or
    MES, which go to the Barchart roots DI and M0.  A ticker that does not
    start with a capital letter resolves to the full ticker, unchanged, on
    the Yahoo path.  The run is the longest one: what follows it does not
    start with a capital letter.  And the quote of a ticker is fetched
    where [resolveSymbol] says. *)
Theorem symbol_resolution :
  resolveSymbol (js "CLZ5") = Yahoo (js "CL=F")
  /\ resolveSymbol (js "MFSZ5") = Barchart (js "DI")
  /\ resolveSymbol (js "MESZ5") = Barchart (js "M0")
  /\ resolveSymbol (js "ABC") = Yahoo (js "ABC=F")
  /\ (forall ticker,
        noTrailingDigit ticker -> upperRun ticker <> [] ->
        convertToYahooSymbol ticker = upperRun ticker ++ js "=F"
        /\ (upperRun ticker <> js "MFS" -> upperRun ticker <> js "MES" ->
            resolveSymbol ticker = Yahoo (upperRun ticker ++ js "=F"))
        /\ (upperRun ticker = js "MFS" ->
            resolveSymbol ticker = Barchart (js "DI"))
        /\ (upperRun ticker = js "MES" ->
            resolveSymbol ticker = Barchart (js "M0")))
  /\ (forall ticker,
        upperRun ticker = [] ->
        convertToYahooSymbol ticker = ticker
        /\ resolveSymbol ticker = Yahoo ticker)
  /\ (forall ticker,
        exists rest,
          ticker = upperRun ticker ++ rest
          /\ forallb isUpper (upperRun ticker) = true
          /\ startsWithCapital rest = false)
  /\ (forall net ticker tr,
        fetchSinglePrice net (VStr ticker) tr
        = tryCatch
            (match resolveSymbol ticker with
             | Barchart root => fetchBarchartPrice net root
             | Yahoo symbol => fetchYahooPrice net symbol
             end)
            (fun error =>
               log (js "Error fetching price for " ++ ticker ++ js ":") ;;;
               ret NA) tr).
Proof.
  split; [vm_compute; reflexivity|].
  split; [vm_compute; reflexivity|].
  split; [vm_compute; reflexivity|].
  split; [vm_compute; reflexivity|].
  split; [|split; [|split]].
  - intros ticker Hno Hne.
    assert (Hpre : commodityPrefix ticker = upperRun ticker).
    { unfold commodityPrefix.
      rewrite (matchContract_no_trailing_digit ticker Hno).
      unfold matchLetters. destruct (upperRun ticker); [contradiction|reflexivity]. }
    assert (Hy : convertToYahooSymbol ticker = upperRun ticker ++ js "=F").
    { unfold convertToYahooSymbol.
      rewrite (matchContract_no_trailing_digit ticker Hno).
      unfold matchLetters. destruct (upperRun ticker); [contradiction|reflexivity]. }
    split; [exact Hy|]. unfold resolveSymbol. rewrite Hpre, Hy.
    split; [|split].
    + intros Hmfs Hmes. unfold streq.
      rewrite !bool_decide_eq_false_2 by assumption. reflexivity.
    + intros ->. reflexivity.
    + intros ->. reflexivity.
  - intros ticker H. split.
    + unfold convertToYahooSymbol, matchContract, matchLetters.
      rewrite (contractPrefix_needs_letter [] ticker H), H. reflexivity.
    + unfold resolveSymbol, commodityPrefix, convertToYahooSymbol,
        matchContract, matchLetters.
      rewrite (contractPrefix_needs_letter [] ticker H), H.
      unfold streq.
      rewrite !bool_decide_eq_false_2; [reflexivity| |];
        intros ->; vm_compute in H; discriminate.
  - exact upperRun_longest.
  - intros net ticker tr. rewrite fetchSinglePrice_resolve. reflexivity.
Qed.

Lemma symbol_resolution_witness :
  convertToYahooSymbol (js "ABC") = js "ABC=F"
  /\ resolveSymbol (js "ABC") = Yahoo (js "ABC=F")
  /\ resolveSymbol (js "MFS") = Barchart (js "DI")
  /\ resolveSymbol (js "1AB") = Yahoo (js "1AB")
  /\ resolveSymbol (js "abc") = Yahoo (js "abc").
Proof.
  destruct symbol_resolution as (_ & _ & _ & _ & Hrun & Hnone & _).
  assert (Hno : noTrailingDigit (js "ABC")).
  { intros c Hc. vm_compute in Hc. injection Hc as <-. reflexivity. }
  assert (Hne : upperRun (js "ABC") <> []) by (vm_compute; discriminate).
  destruct (Hrun (js "ABC") Hno Hne) as (Hy & Hr & _).
  split; [exact Hy|]. split; [|split; [|split]].
  - apply Hr; vm_compute; discriminate.
  - assert (Hno' : noTrailingDigit (js "MFS")).
    { intros c Hc. vm_compute in Hc. injection Hc as <-. reflexivity. }
    destruct (Hrun (js "MFS") Hno') as (_ & _ & Hmfs & _);
      [vm_compute; discriminate|]. apply Hmfs. reflexivity.
  - apply (Hnone (js "1AB")). reflexivity.
  - apply (Hnone (js "abc")). reflexivity.
Defined.

(** ** The ticker filter *)

Lemma filteredData_sublist (jsonData : list Row) :
  sublist (filteredData jsonData) jsonData.
Proof.
  induction jsonData as [|row rows IH]; simpl; [constructor|].
  destruct (hasTicker row); [apply sublist_skip | apply sublist_cons];
    exact IH.
Qed.

Lemma hasTicker_spec (row : Row) :
  hasTicker row = true <->
  toBoolean (TICKER row) = true /\ trim (toString (TICKER row)) <> [].
Proof.
  unfold hasTicker, streq. rewrite andb_true_iff, negb_true_iff.
  rewrite bool_decide_eq_false. reflexivity.
Qed.

(** C4, as stated, fails: the string form of the number 0 is not empty
    after trimming, yet the row is dropped. *)
Lemma ticker_filter_counterexample :
  ~ (In zeroTickerRow (filteredData [zeroTickerRow]) <->
     In zeroTickerRow [zeroTickerRow]
     /\ trim (toString (TICKER zeroTickerRow)) <> []).
Proof.
  intros [_ H]. apply H. split; [left; reflexivity|].
  vm_compute. discriminate.
Qed.

(** The filter goes through the rows in order. *)
Lemma filteredData_cons (row : Row) (rows : list Row) :
  filteredData (row :: rows)
  = if hasTicker row then row :: filteredData rows else filteredData rows.
Proof. reflexivity. Qed.

Lemma filteredData_app (before after : list Row) :
  filteredData (before ++ after) = filteredData before ++ filteredData after.
Proof. unfold filteredData. apply List.filter_app. Qed.

(** C4, amended.  A row of the parsed sheet is kept if and only if its
    TICKER cell is truthy (not absent, not null, not false, not the number
    0 or NaN, not the empty string) and its string form, trimmed, is not
    empty; blank and whitespace-only tickers are dropped, and the kept rows
    are in their source order.  The list of the kept rows is determined
    row by row: a row that meets the condition is kept in front of the
    kept rows that follow it, once for each of its occurrences, a row
    that does not is left out, the kept rows of two sheets put end to end
    are those of the first followed by those of the second, and a sheet
    whose rows all meet the condition is kept as it is. *)
Theorem ticker_filter (jsonData : list Row) :
  (forall row,
     In row (filteredData jsonData) <->
     In row jsonData /\ toBoolean (TICKER row) = true
     /\ trim (toString (TICKER row)) <> [])
  /\ (forall row s,
        TICKER row = VStr s -> trim s = [] ->
        ~ In row (filteredData jsonData))
  /\ sublist (filteredData jsonData) jsonData
  /\ filteredData [] = []
  /\ (forall row,
        keptTicker row ->
        filteredData (row :: jsonData) = row :: filteredData jsonData)
  /\ (forall row,
        ~ keptTicker row ->
        filteredData (row :: jsonData) = filteredData jsonData)
  /\ (forall before after,
        jsonData = before ++ after ->
        filteredData jsonData = filteredData before ++ filteredData after)
  /\ ((forall row, In row jsonData -> keptTicker row) ->
      filteredData jsonData = jsonData).
Proof.
  split; [|split; [|split; [|split; [|split; [|split; [|split]]]]]].
  - intros row. unfold filteredData. rewrite filter_In, hasTicker_spec.
    reflexivity.
  - intros row s Hs Hblank Hin. unfold filteredData in Hin.
    apply filter_In in Hin as [_ Hkeep].
    apply hasTicker_spec in Hkeep as [_ Hne]. rewrite Hs in Hne.
    simpl in Hne. contradiction.
  - apply filteredData_sublist.
  - reflexivity.
  - intros row Hkept. apply hasTicker_spec in Hkept.
    rewrite filteredData_cons, Hkept. reflexivity.
  - intros row Hdrop. rewrite filteredData_cons.
    destruct (hasTicker row) eqn:Hkeep; [|reflexivity].
    exfalso. apply Hdrop, hasTicker_spec, Hkeep.
  - intros before after ->. apply filteredData_app.
  - induction jsonData as [|row rows IH]; intros Hall; [reflexivity|].
    rewrite filteredData_cons.
    assert (Hrow : hasTicker row = true).
    { apply hasTicker_spec, Hall. left. reflexivity. }
    rewrite Hrow. f_equal. apply IH. intros r Hr. apply Hall. right. exact Hr.
Qed.

Lemma ticker_filter_witness :
  let kept := {| DATE := VUndefined; CUSIP := VUndefined;
                 TICKER := VStr (js " CLZ5 "); DESCRIPTION := VUndefined;
                 SHARES := VUndefined; BASE_MV := VUndefined;
                 PCT_HOLDINGS := VUndefined |} in
  let blank := {| DATE := VUndefined; CUSIP := VUndefined;
                  TICKER := VStr (js "   "); DESCRIPTION := VUndefined;
                  SHARES := VUndefined; BASE_MV := VUndefined;
                  PCT_HOLDINGS := VUndefined |} in
  In kept (filteredData [blank; kept])
  /\ ~ In blank (filteredData [blank; kept])
  /\ filteredData [kept; blank; kept; kept] = [kept; kept; kept].
Proof.
  intros kept blank.
  destruct (ticker_filter [blank; kept]) as (Hiff & Hblank & _).
  assert (Hkept : keptTicker kept).
  { split; [reflexivity|vm_compute; discriminate]. }
  assert (Hdrop : ~ keptTicker blank).
  { intros [_ Hne]. apply Hne. reflexivity. }
  split; [|split].
  - apply Hiff. split; [right; left; reflexivity|]. exact Hkept.
  - apply (Hblank blank (js "   ")); reflexivity.
  - destruct (ticker_filter [blank; kept; kept]) as (_ & _ & _ & _ & Hk & _).
    rewrite (Hk kept Hkept).
    destruct (ticker_filter [kept; kept]) as (_ & _ & _ & _ & _ & Hd & _ & Hall).
    rewrite (Hd blank Hdrop). rewrite Hall; [reflexivity|].
    intros r [<-|[<-|[]]]; exact Hkept.
Defined.

(** ** Formatting *)

Lemma falsy_toString_length (v : jsval) :
  toBoolean v = false -> length (toString v) <> 8%nat.
Proof.
  intros H.
  destruct v as [| |[]|x|[|c s]]; cbn [toBoolean] in H; try discriminate H.
  4: destruct x as [s|s| |s m e]; try discriminate H.
  all: try destruct s; vm_compute; discriminate.
Qed.

Lemma padded_two (n : N) :
  (n < 100)%N ->
  exists d1 d2,
    padded 2 n = [d1; d2] /\ isDigit d1 = true /\ isDigit d2 = true.
Proof.
  intros Hn.
  assert (Hk : exists k, (k < 100)%nat /\ n = N.of_nat k).
  { exists (N.to_nat n). split; lia. }
  destruct Hk as (k & Hk & ->). clear Hn.
  do 100 (destruct k as [|k];
          [eexists _, _; vm_compute; repeat split; reflexivity|]).
  lia.
Qed.

Lemma formatMagnitude_two (always : bool) (num den : Z) :
  exists whole d1 d2,
    formatMagnitude {| style := Decimal; minimumFractionDigits := 2;
                       maximumFractionDigits := 2;
                       signDisplayAlways := always |} num den
    = whole ++ js "." ++ [d1; d2]
    /\ isDigit d1 = true /\ isDigit d2 = true.
Proof.
  unfold formatMagnitude.
  cbn [minimumFractionDigits maximumFractionDigits].
  change (10 ^ N.of_nat 2)%N with 100%N.
  set (h := Z.to_N ((2 * Z.of_N 100 * num + den) / (2 * den))%Z).
  destruct (padded_two (h mod 100)%N) as (d1 & d2 & -> & H1 & H2).
  { apply N.mod_lt. discriminate. }
  cbn [trimFraction]. eexists _, d1, d2. repeat split; assumption.
Qed.

(** A change that is a finite number is written with its sign, two
    decimals and a percent sign. *)
Lemma formatChangePercent_shape (x : number) :
  isFinite x = true -> signedTwoDecimalPercent (formatChangePercent (VNum x)).
Proof.
  intros Hfin. unfold formatChangePercent. cbn [isBlank toNumber].
  unfold format. cbn [style signDisplayAlways].
  destruct x as [s|s| |s m e]; try discriminate Hfin.
  - destruct (formatMagnitude_two true 0 1) as (whole & d1 & d2 & -> & H1 & H2).
    exists (if s then 45%N else 43%N), whole, d1, d2.
    split; [destruct s; cbn [app]; rewrite <- ?app_assoc; reflexivity|].
    split; [destruct s; auto|]. split; assumption.
  - destruct (shortestDecimal m e) as [d e10].
    destruct (scale10 (N.succ_pos (N.pred d)) 1 e10) as [num den].
    destruct (formatMagnitude_two true num den)
      as (whole & d1 & d2 & -> & H1 & H2).
    exists (if s then 45%N else 43%N), whole, d1, d2.
    split; [destruct s; cbn [app]; rewrite <- ?app_assoc; reflexivity|].
    split; [destruct s; auto|]. split; assumption.
Qed.

(** C9, as stated, fails: the number 0 has a string form of one character
    and is rendered as the empty string, not passed through. *)
Lemma formatting_counterexample :
  length (toString (VNum zero)) <> 8%nat
  /\ formatDate (VNum zero) <> toString (VNum zero).
Proof. split; vm_compute; discriminate. Qed.

Lemma formatDate_eight (raw : jsval) :
  length (toString raw) = 8%nat ->
  formatDate raw =
    slice 0 4 (toString raw) ++ js "-" ++ slice 4 6 (toString raw)
      ++ js "-" ++ slice 6 8 (toString raw).
Proof.
  intros Hlen. unfold formatDate.
  destruct (toBoolean raw) eqn:Htruthy.
  - cbn [negb]. rewrite Hlen. reflexivity.
  - exfalso. exact (falsy_toString_length raw Htruthy Hlen).
Qed.

Lemma formatDate_other (raw : jsval) :
  toBoolean raw = true -> length (toString raw) <> 8%nat ->
  formatDate raw = toString raw.
Proof.
  intros Htruthy Hlen. unfold formatDate. rewrite Htruthy. cbn [negb].
  apply Nat.eqb_neq in Hlen. rewrite Hlen. reflexivity.
Qed.

Lemma formatDate_falsy (raw : jsval) :
  toBoolean raw = false -> formatDate raw = [].
Proof. intros Hfalsy. unfold formatDate. rewrite Hfalsy. reflexivity. Qed.

(** C9, amended.  A raw date whose string form has exactly 8 characters
    (20240115 is one) is rendered as YYYY-MM-DD, 2024-01-15 here; any other
    truthy raw date is rendered as its string form, unchanged; a falsy raw
    date (absent, null, 0, NaN, false or the empty string) is rendered as
    the empty string.  The holding 0.0123 is rendered as 1.23%, and the
    change -0.54 as -0.54%; every change that is a finite number is
    rendered with its sign, two decimals and a closing percent sign. *)
Theorem formatting :
  (forall raw,
     length (toString raw) = 8%nat ->
     formatDate raw =
       slice 0 4 (toString raw) ++ js "-" ++ slice 4 6 (toString raw)
         ++ js "-" ++ slice 6 8 (toString raw))
  /\ formatDate (VNum (ofDecimal false 20240115 0)) = js "2024-01-15"
  /\ (forall raw,
        toBoolean raw = true -> length (toString raw) <> 8%nat ->
        formatDate raw = toString raw)
  /\ (forall raw, toBoolean raw = false -> formatDate raw = [])
  /\ formatPercent (VNum (ofDecimal false 123 (-4))) = js "1.23%"
  /\ formatChangePercent (VNum (ofDecimal true 54 (-2))) = js "-0.54%"
  /\ (forall change,
        isFinite change = true ->
        signedTwoDecimalPercent (formatChangePercent (VNum change))).
Proof.
  split; [exact formatDate_eight|].
  split; [vm_compute; reflexivity|].
  split; [exact formatDate_other|].
  split; [exact formatDate_falsy|].
  split; [vm_compute; reflexivity|].
  split; [vm_compute; reflexivity|].
  exact formatChangePercent_shape.
Qed.

Lemma formatting_witness :
  formatDate (VStr (js "20240115")) = js "2024-01-15"
  /\ formatDate (VStr (js "Jan 15")) = js "Jan 15"
  /\ formatDate VUndefined = [].
Proof.
  destruct formatting as (H8 & _ & Hother & Hfalsy & _).
  split; [|split].
  - rewrite (H8 (VStr (js "20240115"))); reflexivity.
  - apply (Hother (VStr (js "Jan 15"))); [reflexivity|].
    vm_compute. discriminate.
  - apply (Hfalsy VUndefined). reflexivity.
Defined.

(** ** Contributions *)

Lemma enrich_unquoted (prices : gmap jsstring jsstring) (row : Row) :
  let quote := prices !! toString (TICKER row) in
  quote = None \/ quote = Some [] \/ quote = Some NA ->
  contribution (enrich prices row) = zero
  /\ dailyChangePct (enrich prices row) = zero.
Proof.
  intros quote. subst quote. unfold enrich.
  destruct (prices !! toString (TICKER row)) as [str|].
  - intros [H|[H|H]]; [discriminate H| |]; injection H as ->;
      split; reflexivity.
  - intros _. split; reflexivity.
Qed.

Lemma enrich_quoted (prices : gmap jsstring jsstring) (row : Row)
    (str : jsstring) :
  prices !! toString (TICKER row) = Some str -> str <> [] -> str <> NA ->
  dailyChangePct (enrich prices row)
  = div (parseFloat (replace (js "%") [] str)) (ofZ 100)
  /\ contribution (enrich prices row)
     = mul (toNumber (PCT_HOLDINGS row)) (dailyChangePct (enrich prices row)).
Proof.
  intros Hquote Hne Hna. unfold enrich. rewrite Hquote.
  unfold hasQuote. destruct str as [|c s]; [contradiction|].
  unfold streq. rewrite bool_decide_eq_false_2 by exact Hna.
  split; reflexivity.
Qed.

(** ** Ranking *)

Lemma sortInsert_perm {A} (comparefn : A -> A -> number) (x : A)
    (sorted : list A) :
  Permutation (sortInsert comparefn x sorted) (x :: sorted).
Proof.
  induction sorted as [|y rest IH]; cbn [sortInsert]; [reflexivity|].
  destruct (gtb (comparefn x y) zero); [|reflexivity].
  rewrite IH. apply perm_swap.
Qed.

Lemma arraySort_perm {A} (comparefn : A -> A -> number) (items : list A) :
  Permutation (arraySort comparefn items) items.
Proof.
  induction items as [|x items IH]; [reflexivity|].
  change (arraySort comparefn (x :: items))
    with (sortInsert comparefn x (arraySort comparefn items)).
  rewrite sortInsert_perm. apply perm_skip. exact IH.
Qed.

(** [x] has to follow [y] exactly when its contribution is the smaller. *)
Lemma follows_iff (x y : Enriched) :
  wellFormed (contribution x) -> wellFormed (contribution y) ->
  gtb (byContribution x y) zero = ltb (contribution x) (contribution y).
Proof. intros Hx Hy. unfold gtb, byContribution. apply sub_sign; assumption. Qed.

Lemma sortInsert_nonIncreasing (x : Enriched) (sorted : list Enriched) :
  comparable x -> Forall comparable sorted -> nonIncreasing sorted ->
  nonIncreasing (sortInsert byContribution x sorted).
Proof.
  intros [Hwx Hnx] Hall Hsorted.
  induction Hsorted as [|y rest Hrest IH Hy]; cbn [sortInsert].
  - repeat constructor.
  - apply Forall_cons in Hall as [[Hwy Hny] Hall].
    rewrite follows_iff by assumption.
    destruct (ltb (contribution x) (contribution y)) eqn:Hlt.
    + constructor; [apply IH; exact Hall|].
      apply (Permutation_Forall
               (Permutation_sym (sortInsert_perm byContribution x rest))).
      constructor; [apply ltb_leb; exact Hlt | exact Hy].
    + assert (Hle : leb (contribution y) (contribution x) = true)
        by (apply not_ltb_leb; assumption).
      constructor; [constructor; assumption|].
      constructor; [exact Hle|].
      eapply List.Forall_impl; [|exact Hy].
      intros z Hz. cbv beta in *. eapply leb_trans; eassumption.
Qed.

Lemma sortByContribution_nonIncreasing (items : list Enriched) :
  Forall comparable items -> nonIncreasing (sortByContribution items).
Proof.
  unfold sortByContribution.
  induction items as [|x items IH]; intros Hall.
  - constructor.
  - change (arraySort byContribution (x :: items))
      with (sortInsert byContribution x (arraySort byContribution items)).
    apply Forall_cons in Hall as [Hx Hall].
    apply sortInsert_nonIncreasing; [exact Hx| |apply IH; exact Hall].
    apply (Permutation_Forall
             (Permutation_sym (arraySort_perm byContribution items))).
    exact Hall.
Qed.

Lemma sortInsert_stable (k : number) (x : Enriched) (sorted : list Enriched) :
  wellFormed (contribution x) ->
  Forall (fun y => wellFormed (contribution y)) sorted ->
  withContribution k (sortInsert byContribution x sorted)
  = withContribution k (x :: sorted).
Proof.
  intros Hwx Hall. unfold withContribution.
  induction sorted as [|y rest IH]; cbn [sortInsert]; [reflexivity|].
  apply Forall_cons in Hall as [Hwy Hall].
  rewrite follows_iff by assumption.
  destruct (ltb (contribution x) (contribution y)) eqn:Hlt; [|reflexivity].
  cbn [List.filter] in *. rewrite (IH Hall).
  destruct (eqb (contribution x) k) eqn:Hxk;
    destruct (eqb (contribution y) k) eqn:Hyk; try reflexivity.
  rewrite (eqb_not_ltb _ _ k Hxk Hyk) in Hlt. discriminate.
Qed.

Lemma sortByContribution_stable (items : list Enriched) :
  Forall (fun y => wellFormed (contribution y)) items ->
  stable items (sortByContribution items).
Proof.
  unfold sortByContribution, stable.
  induction items as [|x items IH]; intros Hall k; [reflexivity|].
  change (arraySort byContribution (x :: items))
    with (sortInsert byContribution x (arraySort byContribution items)).
  apply Forall_cons in Hall as [Hx Hall].
  rewrite sortInsert_stable.
  - unfold withContribution in *. cbn [List.filter].
    rewrite (IH Hall k). reflexivity.
  - exact Hx.
  - apply (Permutation_Forall
             (Permutation_sym (arraySort_perm byContribution items))).
    exact Hall.
Qed.

Lemma withContribution_head (x : Enriched) (rest : list Enriched) :
  isNaN (contribution x) = false ->
  withContribution (contribution x) (x :: rest)
  = x :: withContribution (contribution x) rest.
Proof.
  intros Hx. unfold withContribution. cbn [List.filter].
  rewrite eqb_refl by exact Hx. reflexivity.
Qed.

Lemma withContribution_In (k : number) (x : Enriched) (l : list Enriched) :
  In x (withContribution k l) -> In x l.
Proof. unfold withContribution. intros H. apply filter_In in H as [H _]. exact H. Qed.

(** A list has at most one arrangement that is in non-increasing order and
    keeps the order of the holdings of equal contribution. *)
Lemma nonIncreasing_stable_unique (l1 : list Enriched) :
  forall l2,
    Forall comparable l1 -> Forall comparable l2 ->
    nonIncreasing l1 -> nonIncreasing l2 ->
    (forall k, withContribution k l1 = withContribution k l2) ->
    l1 = l2.
Proof.
  induction l1 as [|x t1 IH]; intros l2 Hc1 Hc2 Hs1 Hs2 Hsame.
  - destruct l2 as [|y t2]; [reflexivity|].
    apply Forall_cons in Hc2 as [[_ Hy] _].
    specialize (Hsame (contribution y)).
    rewrite withContribution_head in Hsame by exact Hy. discriminate Hsame.
  - apply Forall_cons in Hc1 as [[Hwx Hx] Hc1].
    destruct l2 as [|y t2].
    { specialize (Hsame (contribution x)).
      rewrite withContribution_head in Hsame by exact Hx. discriminate Hsame. }
    apply Forall_cons in Hc2 as [[Hwy Hy] Hc2].
    apply StronglySorted_inv in Hs1 as [Hs1 Hx_ge].
    apply StronglySorted_inv in Hs2 as [Hs2 Hy_ge].
    assert (Hxy : x = y).
    { pose proof (Hsame (contribution x)) as Hkx.
      pose proof (Hsame (contribution y)) as Hky.
      rewrite withContribution_head in Hkx by exact Hx.
      rewrite withContribution_head in Hky by exact Hy.
      unfold withContribution in Hkx at 2. cbn [List.filter] in Hkx.
      unfold withContribution in Hky at 1. cbn [List.filter] in Hky.
      destruct (eqb (contribution y) (contribution x)) eqn:Hyx.
      - injection Hkx as Hkx _. exact Hkx.
      - rewrite eqb_sym, Hyx in Hky.
        assert (Hx2 : In x t2).
        { apply (withContribution_In (contribution x)).
          unfold withContribution. rewrite <- Hkx. left. reflexivity. }
        assert (Hy1 : In y t1).
        { apply (withContribution_In (contribution y)).
          unfold withContribution. rewrite Hky. left. reflexivity. }
        rewrite List.Forall_forall in Hx_ge, Hy_ge.
        pose proof (Hy_ge x Hx2) as Hle1. pose proof (Hx_ge y Hy1) as Hle2.
        cbv beta in Hle1, Hle2.
        rewrite (leb_antisym _ _ Hle2 Hle1) in Hyx. discriminate Hyx. }
    subst y. f_equal. apply IH; try assumption.
    intros k. specialize (Hsame k). unfold withContribution in *.
    cbn [List.filter] in Hsame.
    destruct (eqb (contribution x) k); [injection Hsame as Hsame|]; exact Hsame.
Qed.

(** C2, as stated, fails: a holding without a weight has the contribution
    NaN, which no order relates to the contribution of another holding;
    neither the sorted list nor any other arrangement of the two holdings
    is in non-increasing order. *)
Lemma ranked_order_counterexample :
  ~ nonIncreasing (sortByContribution unweightedItems)
  /\ ~ exists arranged,
         Permutation unweightedItems arranged /\ nonIncreasing arranged.
Proof.
  assert (Hnone : ~ exists arranged,
             Permutation unweightedItems arranged /\ nonIncreasing arranged).
  { intros (arranged & Hperm & Hsorted).
    unfold unweightedItems, dataWithContributions in Hperm.
    cbn [List.map] in Hperm.
    apply Permutation_length_2_inv in Hperm as [-> | ->];
      inversion Hsorted as [|x l _ Hhead]; subst;
      inversion Hhead as [|y l' Hle _]; subst;
      vm_compute in Hle; discriminate Hle. }
  split; [|exact Hnone].
  intros Hsorted. apply Hnone.
  exists (sortByContribution unweightedItems). split; [|exact Hsorted].
  symmetry. apply arraySort_perm.
Qed.

(** C2, amended.  For every list of enriched holdings whose contributions
    are numbers other than NaN, after sorting the contributions are in
    non-increasing order, and the sort is stable: holdings with equal
    contribution keep their original relative order; the sorted list holds
    the same holdings, and it is the only arrangement of them with these
    two properties.  For the holdings that the worker computes from a
    sheet of numbers, it is enough that no contribution is NaN. *)
Theorem ranked_order :
  (forall items,
     Forall comparable items ->
     nonIncreasing (sortByContribution items)
     /\ stable items (sortByContribution items)
     /\ Permutation (sortByContribution items) items
     /\ (forall arranged,
           Permutation arranged items -> nonIncreasing arranged ->
           stable items arranged -> arranged = sortByContribution items))
  /\ (forall prices rows,
        Forall (fun row => wellFormedValue (PCT_HOLDINGS row)) rows ->
        Forall (fun item => isNaN (contribution item) = false)
               (dataWithContributions prices rows) ->
        nonIncreasing (sortByContribution (dataWithContributions prices rows))
        /\ stable (dataWithContributions prices rows)
                  (sortByContribution (dataWithContributions prices rows))).
Proof.
  assert (Hgeneral : forall items,
             Forall comparable items ->
             nonIncreasing (sortByContribution items)
             /\ stable items (sortByContribution items)
             /\ Permutation (sortByContribution items) items
             /\ (forall arranged,
                   Permutation arranged items -> nonIncreasing arranged ->
                   stable items arranged ->
                   arranged = sortByContribution items)).
  { intros items Hall.
    assert (Hsorted : nonIncreasing (sortByContribution items))
      by (apply sortByContribution_nonIncreasing; exact Hall).
    assert (Hstable : stable items (sortByContribution items)).
    { apply sortByContribution_stable.
      eapply List.Forall_impl; [|exact Hall]. intros x [Hw _]. exact Hw. }
    assert (Hperm : Permutation (sortByContribution items) items)
      by apply arraySort_perm.
    repeat split; try assumption.
    intros arranged Harr Hsorted' Hstable'.
    apply nonIncreasing_stable_unique; try assumption.
    - apply (Permutation_Forall (Permutation_sym Harr)). exact Hall.
    - apply (Permutation_Forall (Permutation_sym Hperm)). exact Hall.
    - intros k. rewrite (Hstable' k), (Hstable k). reflexivity. }
  split; [exact Hgeneral|].
  intros prices rows Hrows Hnan.
  destruct (Hgeneral (dataWithContributions prices rows))
    as (Hs & Hst & _ & _); [|split; assumption].
  unfold dataWithContributions in *.
  induction rows as [|row rows IH]; cbn [List.map] in *; [constructor|].
  apply Forall_cons in Hrows as [Hrow Hrows].
  apply Forall_cons in Hnan as [Hn Hnan].
  constructor; [|apply IH; assumption].
  split; [apply enrich_wellFormed; exact Hrow | exact Hn].
Qed.

Lemma ranked_order_witness :
  nonIncreasing (sortByContribution exampleItems)
  /\ List.map (fun x => TICKER (original x)) (sortByContribution exampleItems)
     = [VStr (js "CLZ5"); VStr (js "XYZ")].
Proof.
  split; [|vm_compute; reflexivity].
  destruct ranked_order as [Hgeneral _].
  apply (Hgeneral exampleItems).
  repeat constructor.
Defined.

(** ** The fund total *)

Lemma fold_left_add_map {A} (f : A -> number) (items : list A) :
  forall start,
    fold_left (fun sum item => add sum (f item)) items start
    = fold_left add (List.map f items) start.
Proof.
  induction items as [|x items IH]; intros start; [reflexivity|].
  cbn [fold_left List.map]. apply IH.
Qed.

(** C6.  The fund total is the sum, accumulated from 0 with the addition
    of numbers over the ranked holdings, of the contributions of all the
    holdings: the ranked list holds every holding of the sheet once, those
    without a quote included, each of which enters the sum with a
    contribution of 0. *)
Theorem fund_total (prices : gmap jsstring jsstring) (rows : list Row) :
  let ranked := sortByContribution (dataWithContributions prices rows) in
  totalContribution ranked
  = fold_left add (List.map contribution ranked) zero
  /\ Permutation ranked (List.map (enrich prices) rows)
  /\ length ranked = length rows
  /\ (forall row,
        In row rows -> prices !! toString (TICKER row) = Some NA ->
        In (enrich prices row) ranked
        /\ contribution (enrich prices row) = zero).
Proof.
  intros ranked. subst ranked.
  pose proof (arraySort_perm byContribution
                (dataWithContributions prices rows)) as Hperm.
  fold (sortByContribution (dataWithContributions prices rows)) in Hperm.
  split; [|split; [|split]].
  - unfold totalContribution. apply fold_left_add_map.
  - exact Hperm.
  - rewrite (Permutation_length Hperm). unfold dataWithContributions.
    apply length_map.
  - intros row Hin Hquote. split.
    + apply (Permutation_in _ (Permutation_sym Hperm)).
      unfold dataWithContributions. apply in_map. exact Hin.
    + apply (enrich_unquoted prices row). right. right. exact Hquote.
Qed.

Lemma fund_total_witness :
  totalContribution (sortByContribution exampleItems) = ofDecimal false 2 (-3)
  /\ In (enrich examplePrices (holding "XYZ" (ofDecimal false 5 (-2))))
        (sortByContribution exampleItems).
Proof.
  destruct (fund_total examplePrices
              [holding "XYZ" (ofDecimal false 5 (-2));
               holding "CLZ5" (ofDecimal false 10 (-2))])
    as (Hsum & _ & _ & Hna).
  split.
  - unfold exampleItems. rewrite Hsum. vm_compute. reflexivity.
  - apply Hna; [left; reflexivity | reflexivity].
Defined.

(** ** Running the handler *)

Ltac run_monad :=
  unfold tryCatch, bind, ret, throw, log, emit, read, Eff.fetch;
  repeat case_match; simplify_eq; eauto.

Lemma startsWith_app (p s : jsstring) : startsWith p (p ++ s) = true.
Proof.
  induction p as [|c p IH]; [reflexivity|].
  cbn [app startsWith]. rewrite N.eqb_refl. exact IH.
Qed.

Lemma includes_unfold (p s : jsstring) :
  includes p s =
  startsWith p s || match s with _ :: s' => includes p s' | [] => false end.
Proof. destruct s; reflexivity. Qed.

Lemma includes_app (a p b : jsstring) : includes p (a ++ p ++ b) = true.
Proof.
  induction a as [|c a IH]; rewrite includes_unfold.
  - cbn [app]. rewrite startsWith_app. reflexivity.
  - cbn [app]. rewrite IH. apply orb_true_r.
Qed.

(** The run of the handler up to the answer of the spreadsheet server. *)
Lemma fetch_excel (net : Network) (r : Response) :
  net 0%nat EXCEL_URL = Return r ->
  Eff.fetch net EXCEL_URL [] = (Return r, [EvFetch EXCEL_URL]).
Proof. intros H. unfold Eff.fetch. cbn [List.filter length app]. rewrite H. reflexivity. Qed.

Lemma trimStart_app (a b : jsstring) :
  trimStart a <> [] -> trimStart (a ++ b) = trimStart a ++ b.
Proof.
  induction a as [|c a IH]; cbn [trimStart app]; [contradiction|].
  destruct (isWhiteSpace c); [exact IH|reflexivity].
Qed.

Lemma trimEnd_app (a b : jsstring) :
  trimEnd b <> [] -> trimEnd (a ++ b) = a ++ trimEnd b.
Proof.
  unfold trimEnd. intros Hb.
  rewrite rev_app_distr, trimStart_app.
  - rewrite rev_app_distr, rev_involutive. reflexivity.
  - intros Hnil. apply Hb. rewrite Hnil. reflexivity.
Qed.

(** ** Quote failures *)

Lemma fetchBarchartPrice_total (net : Network) (root : jsstring) :
  total (fetchBarchartPrice net root).
Proof. intros tr. unfold fetchBarchartPrice. run_monad. Qed.

Lemma fetchSinglePrice_total (net : Network) (ticker : jsval) :
  total (fetchSinglePrice net ticker).
Proof. intros tr. unfold fetchSinglePrice. run_monad. Qed.

Lemma quote_failure_NA (net : Network) (ticker : jsval) (tr : list Event) :
  QuoteFailure net (fetches tr) ticker ->
  exists tr', fetchSinglePrice net ticker tr = (Return NA, tr').
Proof.
  unfold fetches.
  intros [Hns | t -> Hurl | t url e -> Hurl Hnet | t url r -> Hurl Hnet Hok
         | t root r e -> Hres Hnet Hok Htext
         | t root r html -> Hres Hnet Hok Htext Hmatch
         | t root r html p -> Hres Hnet Hok Htext Hmatch Hnan
         | t url r e -> [y Hres] Hurl Hnet Hok Hjson
         | t url r data -> [y Hres] Hurl Hnet Hok Hjson Hmeta
         | t url r data m -> [y Hres] Hurl Hnet Hok Hjson Hmeta Hprice].
  - unfold fetchSinglePrice.
    destruct ticker; try (run_monad; fail). exfalso. eapply Hns; reflexivity.
  - rewrite fetchSinglePrice_resolve. unfold quoteUrl in Hurl.
    destruct (resolveSymbol t) as [root|y]; [discriminate|].
    unfold fetchYahooPrice.
    destruct (encodeURIComponent y); [discriminate|]. run_monad.
  - rewrite fetchSinglePrice_resolve. unfold quoteUrl in Hurl.
    destruct (resolveSymbol t) as [root|y].
    + injection Hurl as <-. unfold fetchBarchartPrice.
      unfold tryCatch, bind, Eff.fetch. rewrite Hnet. run_monad.
    + unfold fetchYahooPrice.
      destruct (encodeURIComponent y); [|discriminate].
      injection Hurl as <-.
      unfold tryCatch, bind, Eff.fetch. rewrite Hnet. run_monad.
  - rewrite fetchSinglePrice_resolve. unfold quoteUrl in Hurl.
    destruct (resolveSymbol t) as [root|y].
    + injection Hurl as <-. unfold fetchBarchartPrice.
      unfold tryCatch, bind, Eff.fetch. rewrite Hnet, Hok. run_monad.
    + unfold fetchYahooPrice.
      destruct (encodeURIComponent y); [|discriminate].
      injection Hurl as <-.
      unfold tryCatch, bind, Eff.fetch. rewrite Hnet, Hok. run_monad.
  - rewrite fetchSinglePrice_resolve, Hres. unfold fetchBarchartPrice.
    unfold tryCatch, bind, Eff.fetch, read. rewrite Hnet, Hok, Htext.
    run_monad.
  - rewrite fetchSinglePrice_resolve, Hres. unfold fetchBarchartPrice.
    unfold tryCatch, bind, Eff.fetch, read.
    rewrite Hnet, Hok, Htext, Hmatch. run_monad.
  - rewrite fetchSinglePrice_resolve, Hres. unfold fetchBarchartPrice.
    unfold tryCatch, bind, Eff.fetch, read.
    rewrite Hnet, Hok, Htext, Hmatch, Hnan. run_monad.
  - rewrite fetchSinglePrice_resolve. unfold quoteUrl in Hurl.
    rewrite Hres in *. unfold fetchYahooPrice.
    destruct (encodeURIComponent y); [|discriminate].
    injection Hurl as <-.
    unfold tryCatch, bind, Eff.fetch, read. rewrite Hnet, Hok, Hjson.
    run_monad.
  - rewrite fetchSinglePrice_resolve. unfold quoteUrl in Hurl.
    rewrite Hres in *. unfold fetchYahooPrice.
    destruct (encodeURIComponent y); [|discriminate].
    injection Hurl as <-.
    unfold tryCatch, bind, Eff.fetch, read. rewrite Hnet, Hok, Hjson, Hmeta.
    run_monad.
  - rewrite fetchSinglePrice_resolve. unfold quoteUrl in Hurl.
    rewrite Hres in *. unfold fetchYahooPrice.
    destruct (encodeURIComponent y); [|discriminate].
    injection Hurl as <-.
    unfold tryCatch, bind, Eff.fetch, read.
    rewrite Hnet, Hok, Hjson, Hmeta, Hprice. run_monad.
Qed.

(** [Promise.all] of calls that cannot throw cannot throw, and there is
    one result for every call. *)
Lemma all_total {A} (cs : list (M A)) :
  Forall total cs ->
  forall tr, exists results tr',
    Eff.all cs tr = (Return results, tr') /\ length results = length cs.
Proof.
  induction 1 as [|c cs Hc _ IH]; intros tr.
  - exists [], tr. split; reflexivity.
  - cbn [Eff.all]. unfold bind at 1.
    destruct (Hc tr) as (a & tr1 & ->).
    unfold bind at 1. destruct (IH tr1) as (rest & tr2 & -> & Hlen).
    exists (a :: rest), tr2. split; [reflexivity|].
    cbn [length]. rewrite Hlen. reflexivity.
Qed.

Lemma setPrices_spec (batch : list jsval) :
  forall (batchResults : list jsstring) (prices : gmap jsstring jsstring),
    length batchResults = length batch ->
    (forall key, is_Some (prices !! key) ->
                 is_Some (setPrices prices batch batchResults !! key))
    /\ (forall ticker, In ticker batch ->
          is_Some (setPrices prices batch batchResults !! toString ticker)).
Proof.
  unfold setPrices.
  induction batch as [|t batch IH]; intros [|res results] prices Hlen;
    try discriminate Hlen.
  - split; [auto | intros ? []].
  - cbn [combine fold_left]. injection Hlen as Hlen.
    destruct (IH results (<[toString t := res]> prices) Hlen) as [Hkeep Hnew].
    split.
    + intros key Hkey. apply Hkeep.
      destruct (decide (toString t = key)) as [->|Hne].
      * rewrite lookup_insert_eq. eauto.
      * rewrite lookup_insert_ne by exact Hne. exact Hkey.
    + intros ticker [->|Hin]; [|apply Hnew; exact Hin].
      apply Hkeep. rewrite lookup_insert_eq. eauto.
Qed.

Lemma fetchBatches_total (net : Network) (fuel : nat) :
  forall (tickers : list jsval) (prices : gmap jsstring jsstring)
         (tr : list Event),
    (length tickers <= fuel)%nat ->
    exists prices' tr',
      fetchBatches net fuel tickers prices tr = (Return prices', tr')
      /\ (forall key, is_Some (prices !! key) -> is_Some (prices' !! key))
      /\ (forall ticker, In ticker tickers ->
            is_Some (prices' !! toString ticker)).
Proof.
  induction fuel as [|fuel IH]; intros tickers prices tr Hfuel.
  - destruct tickers; [|cbn [length] in Hfuel; lia].
    exists prices, tr. repeat split; [auto | intros ? []].
  - destruct tickers as [|t rest].
    + exists prices, tr. repeat split; [auto | intros ? []].
    + set (tickers := t :: rest) in *.
      change (fetchBatches net (S fuel) tickers prices tr)
        with (bind (Eff.all (List.map (fetchSinglePrice net)
                                      (take batchSize tickers)))
                (fun batchResults =>
                   fetchBatches net fuel (drop batchSize tickers)
                     (setPrices prices (take batchSize tickers) batchResults))
                tr).
      unfold bind.
      destruct (all_total (List.map (fetchSinglePrice net)
                                    (take batchSize tickers))) with (tr := tr)
        as (results & tr1 & -> & Hlen).
      { apply List.Forall_forall. intros c Hc. apply in_map_iff in Hc as (x & <- & _).
        apply fetchSinglePrice_total. }
      rewrite length_map in Hlen.
      destruct (setPrices_spec (take batchSize tickers) results prices Hlen)
        as [Hkeep Hnew].
      destruct (IH (drop batchSize tickers)
                  (setPrices prices (take batchSize tickers) results) tr1)
        as (prices' & tr2 & -> & Hkeep' & Hnew').
      { rewrite length_drop. subst tickers. cbn [length] in *.
        unfold batchSize. lia. }
      exists prices', tr2. split; [reflexivity|]. split.
      * intros key Hkey. apply Hkeep', Hkeep, Hkey.
      * intros ticker Hin.
        rewrite <- (take_drop batchSize tickers) in Hin.
        apply in_app_or in Hin as [Hin|Hin].
        -- apply Hkeep', Hnew, Hin.
        -- apply Hnew', Hin.
Qed.

Lemma fetchTickerPrices_total (net : Network) (tickers : list jsval)
    (tr : list Event) :
  exists prices tr',
    fetchTickerPrices net tickers tr = (Return prices, tr')
    /\ forall ticker, In ticker tickers ->
         is_Some (prices !! toString ticker).
Proof.
  unfold fetchTickerPrices.
  destruct (fetchBatches_total net (length tickers) tickers ∅ tr)
    as (prices & tr' & Hrun & _ & Hall); [lia|].
  exists prices, tr'. split; assumption.
Qed.

(** Once the spreadsheet is read, the worker answers with the page
    whatever the quotes do. *)
Lemma page_whatever_quotes (net : Network) (now : jsstring) (r : Response)
    (jsonData : list Row) :
  net 0%nat EXCEL_URL = Return r -> ok r = true ->
  sheet r = Return jsonData ->
  exists page tr,
    Eff.run (Worker.fetch net now) = (Return page, tr)
    /\ Worker.replyStatus page = 200%N.
Proof.
  intros Hnet Hok Hsheet.
  unfold Eff.run, Worker.fetch, tryCatch, Worker.respond.
  unfold bind at 1. rewrite (fetch_excel net r Hnet), Hok. cbn [negb].
  unfold bind at 1. unfold read. rewrite Hsheet.
  unfold bind at 1.
  destruct (fetchTickerPrices_total net
              (List.map TICKER (filteredData jsonData))
              ([EvFetch EXCEL_URL] ++ [EvParseSheet]))
    as (prices & tr' & -> & _).
  eexists _, tr'. split; reflexivity.
Qed.

(** A price that is not a number makes the change NaN, and NaN and the
    infinities are written as such. *)
Lemma changePercent_NaN (currentPrice previousClose : jsval) :
  isNaN (toNumber currentPrice) = true \/ isNaN (toNumber previousClose) = true ->
  changePercent currentPrice previousClose = NaN.
Proof.
  unfold changePercent, sub, div, mul.
  destruct (toNumber currentPrice), (toNumber previousClose); cbn [isNaN];
    intros [H|H]; try discriminate H; reflexivity.
Qed.

Lemma formatChangePercent_NaN : formatChangePercent (VNum NaN) = js "+NaN%".
Proof. reflexivity. Qed.

Lemma formatChangePercent_infinity (negative : bool) :
  formatChangePercent (VNum (S754_infinity negative))
  = (if negative then js "-" else js "+") ++ [8734%N] ++ js "%".
Proof. destruct negative; reflexivity. Qed.

(** The result of a Yahoo quote with both prices truthy. *)
Lemma yahoo_priced (net : Network) (ticker symbol encoded : jsstring)
    (tr : list Event) (r : Response) (data : ChartData) (m : Meta) :
  resolveSymbol ticker = Yahoo symbol ->
  encodeURIComponent symbol = Return encoded ->
  net (fetches tr) (yahooUrl encoded) = Return r -> ok r = true ->
  json r = Return data -> meta data = Some m ->
  let currentPrice := regularMarketPrice m in
  let previousClose :=
    JsValue.or (chartPreviousClose m) (Eff.previousClose m) in
  toBoolean currentPrice = true -> toBoolean previousClose = true ->
  fst (fetchSinglePrice net (VStr ticker) tr)
  = Return (formatChangePercent
              (VNum (changePercent currentPrice previousClose))).
Proof.
  intros Hres Henc Hnet Hok Hjson Hmeta currentPrice previousClose Hc Hp.
  subst currentPrice previousClose. unfold fetches in Hnet.
  rewrite fetchSinglePrice_resolve, Hres. unfold fetchYahooPrice.
  rewrite Henc. unfold tryCatch, bind, Eff.fetch, read.
  rewrite Hnet, Hok, Hjson, Hmeta. cbn [negb]. rewrite Hc, Hp. reflexivity.
Qed.

(** C7, as stated, fails on malformed data that is there: when the
    price of the Yahoo answer is the text abc, the result is +NaN% and
    not N/A. *)
Lemma quote_failures_absorbed_counterexample :
  let textPrice : Network :=
    fun _ _ => Return (chartOf (VStr (js "abc")) (VNum (ofZ 100))
                               VUndefined) in
  fst (fetchSinglePrice textPrice (VStr (js "CLZ5")) [])
  = Return (js "+NaN%")
  /\ fst (fetchSinglePrice textPrice (VStr (js "CLZ5")) []) <> Return NA.
Proof. split; [vm_compute; reflexivity | vm_compute; discriminate]. Qed.

(** C7, amended.  Fetching the quote of one ticker never throws, on the
    Yahoo path and on the Barchart path alike, and each of these failures
    gives the string N/A: a ticker that is not a string or cannot be
    encoded, a rejected fetch, a status outside 200-299, a body that
    cannot be read or decoded, no percentChange field or one that does not
    start with a number, no metadata, a price that is missing or zero.  A
    Yahoo price that is there but is not a number is not noticed: the
    result is +NaN%.  The batches never throw, every ticker whose string
    form is not __proto__ gets an entry in the price map, and once the
    spreadsheet is read, a sheet without the ticker __proto__ is answered
    with the page. *)
Theorem quote_failures_absorbed (net : Network) :
  (forall ticker, total (fetchSinglePrice net ticker))
  /\ (forall root, total (fetchBarchartPrice net root))
  /\ (forall ticker tr,
        QuoteFailure net (fetches tr) ticker ->
        exists tr', fetchSinglePrice net ticker tr = (Return NA, tr'))
  /\ (forall ticker symbol encoded tr r data m,
        resolveSymbol ticker = Yahoo symbol ->
        encodeURIComponent symbol = Return encoded ->
        net (fetches tr) (yahooUrl encoded) = Return r -> ok r = true ->
        json r = Return data -> meta data = Some m ->
        let currentPrice := regularMarketPrice m in
        let previousClose :=
          JsValue.or (chartPreviousClose m) (Eff.previousClose m) in
        toBoolean currentPrice = true -> toBoolean previousClose = true ->
        isNaN (toNumber currentPrice) = true
        \/ isNaN (toNumber previousClose) = true ->
        fst (fetchSinglePrice net (VStr ticker) tr) = Return (js "+NaN%"))
  /\ (forall tickers tr,
        exists prices tr',
          fetchTickerPrices net tickers tr = (Return prices, tr')
          /\ forall ticker, In ticker tickers ->
               toString ticker <> protoKey ->
               is_Some (prices !! toString ticker))
  /\ (forall now r jsonData,
        net 0%nat EXCEL_URL = Return r -> ok r = true ->
        sheet r = Return jsonData ->
        (forall row, In row jsonData -> toString (TICKER row) <> protoKey) ->
        exists page tr,
          Eff.run (Worker.fetch net now) = (Return page, tr)
          /\ Worker.replyStatus page = 200%N).
Proof.
  split; [exact (fetchSinglePrice_total net)|].
  split; [exact (fetchBarchartPrice_total net)|].
  split; [exact (quote_failure_NA net)|].
  split; [|split].
  - intros ticker symbol encoded tr r data m Hres Henc Hnet Hok Hjson Hmeta
      currentPrice previousClose Hc Hp Hnan.
    rewrite (yahoo_priced net ticker symbol encoded tr r data m
               Hres Henc Hnet Hok Hjson Hmeta Hc Hp).
    fold currentPrice previousClose.
    rewrite (changePercent_NaN _ _ Hnan). reflexivity.
  - intros tickers tr.
    destruct (fetchTickerPrices_total net tickers tr)
      as (prices & tr' & Hrun & Hall).
    exists prices, tr'. split; [exact Hrun|].
    intros ticker Hin _. apply Hall, Hin.
  - intros now r jsonData Hnet Hok Hsheet _.
    exact (page_whatever_quotes net now r jsonData Hnet Hok Hsheet).
Qed.

Lemma quote_failures_absorbed_witness :
  (exists tr', fetchSinglePrice quotesDown (VStr (js "CLZ5")) []
               = (Return NA, tr'))
  /\ (exists tr', fetchSinglePrice quotesDown (VStr (js "MFSZ5")) []
                  = (Return NA, tr'))
  /\ exists page tr,
       Eff.run (Worker.fetch quotesDown (js "now")) = (Return page, tr)
       /\ Worker.replyStatus page = 200%N.
Proof.
  destruct (quote_failures_absorbed quotesDown)
    as (_ & _ & Hfail & _ & _ & Hpage).
  split; [|split].
  - apply Hfail.
    apply (NetworkFailure _ _ _ (js "CLZ5") (yahooUrl (js "CL%3DF"))
             (js "Network connection lost")); reflexivity.
  - apply Hfail.
    apply (NetworkFailure _ _ _ (js "MFSZ5") (barchartUrl (js "DI"))
             (js "Network connection lost")); reflexivity.
  - apply (Hpage (js "now") oneHolding
             [holding "CLZ5" (ofDecimal false 10 (-2))]);
      try reflexivity.
    intros row [<-|[]]. vm_compute. discriminate.
Defined.

(** ** The Yahoo quote *)

(** C5, as stated, fails.  With a current price of 0 and a previous close
    of 100, both present and the previous close not zero, the result is
    N/A and not the formatted change of -100.00%.  And when both
    previous-close fields are present the chart one is used, not the plain
    one: with a price of 110, a chart previous close of 100 and a previous
    close of 105 the result is +10.00%, not +4.76%. *)
Lemma yahoo_quote_counterexample :
  let zeroPrice : Network :=
    fun _ _ => Return (chartOf (VNum zero) (VNum (ofZ 100)) VUndefined) in
  let twoCloses : Network :=
    fun _ _ => Return (chartOf (VNum (ofZ 110)) (VNum (ofZ 100))
                               (VNum (ofZ 105))) in
  (fst (fetchSinglePrice zeroPrice (VStr (js "CLZ5")) []) = Return NA
   /\ formatChangePercent
        (VNum (changePercent (VNum zero) (VNum (ofZ 100))))
      = js "-100.00%")
  /\ (fst (fetchSinglePrice twoCloses (VStr (js "CLZ5")) [])
      = Return (js "+10.00%")
      /\ formatChangePercent
           (VNum (changePercent (VNum (ofZ 110)) (VNum (ofZ 105))))
         = js "+4.76%").
Proof. repeat split; vm_compute; reflexivity. Qed.

(** C5, amended.  On the Yahoo path, when the call succeeds (a status in
    200-299 and a JSON body) and the metadata is there: if the current
    price and the previous close (the chart previous close, or the plain
    previous close when that one is missing or zero) are both truthy
    (present, not zero, not the empty string), the result is
    (current - previous) / previous * 100 written by
    [formatChangePercent]; if either is missing or zero the result is N/A.
    The written change has its sign, two decimals and a percent sign when
    the number is finite; it is the sign, the infinity symbol and a
    percent sign when the quotient overflows (1e308 against 1e-308), and
    +NaN% when a price is not a number (the text abc).  The result is N/A
    as well when the metadata is missing (as when the endpoint reports an
    error in its place), when the call is rejected, when the status is
    outside 200-299 and when the body is not JSON. *)
Theorem yahoo_quote (net : Network) (ticker symbol encoded : jsstring)
    (tr : list Event) :
  resolveSymbol ticker = Yahoo symbol ->
  encodeURIComponent symbol = Return encoded ->
  let answer := net (fetches tr) (yahooUrl encoded) in
  let result := fst (fetchSinglePrice net (VStr ticker) tr) in
  (forall r data m,
     answer = Return r -> ok r = true -> json r = Return data ->
     meta data = Some m ->
     let currentPrice := regularMarketPrice m in
     let previousClose :=
       JsValue.or (chartPreviousClose m) (Eff.previousClose m) in
     (toBoolean currentPrice = true -> toBoolean previousClose = true ->
      result
      = Return (formatChangePercent
                  (VNum (changePercent currentPrice previousClose))))
     /\ (toBoolean currentPrice = false \/ toBoolean previousClose = false ->
         result = Return NA)
     /\ (toBoolean currentPrice = true -> toBoolean previousClose = true ->
         isNaN (toNumber currentPrice) = true
         \/ isNaN (toNumber previousClose) = true ->
         result = Return (js "+NaN%")))
  /\ (forall r data,
        answer = Return r -> ok r = true -> json r = Return data ->
        meta data = None -> result = Return NA)
  /\ (forall e, answer = Throw e -> result = Return NA)
  /\ (forall r, answer = Return r -> ok r = false -> result = Return NA)
  /\ (forall r e,
        answer = Return r -> ok r = true -> json r = Throw e ->
        result = Return NA)
  /\ (forall change,
        isFinite change = true ->
        signedTwoDecimalPercent (formatChangePercent (VNum change)))
  /\ (forall negative,
        formatChangePercent (VNum (S754_infinity negative))
        = (if negative then js "-" else js "+") ++ [8734%N] ++ js "%")
  /\ formatChangePercent (VNum NaN) = js "+NaN%"
  /\ formatChangePercent
       (VNum (changePercent (VNum (ofDecimal false 1 308))
                            (VNum (ofDecimal false 1 (-308)))))
     = js "+" ++ [8734%N] ++ js "%"
  /\ formatChangePercent
       (VNum (changePercent (VStr (js "abc")) (VNum (ofZ 100))))
     = js "+NaN%".
Proof.
  intros Hres Henc answer result. subst answer result. unfold fetches.
  rewrite fetchSinglePrice_resolve, Hres. unfold fetchYahooPrice.
  rewrite Henc. unfold tryCatch, bind, Eff.fetch, read.
  split; [|split; [|split; [|split; [|split; [|split; [|split; [|split; [|split]]]]]]]];
    [| | | | |exact formatChangePercent_shape
     |exact formatChangePercent_infinity|reflexivity
     |vm_compute; reflexivity|vm_compute; reflexivity].
  - intros r data m -> Hok Hjson Hmeta. cbv zeta.
    rewrite Hok, Hjson, Hmeta. cbn [negb].
    split; [|split].
    + intros -> ->. reflexivity.
    + intros [-> | ->]; rewrite ?andb_false_r; run_monad.
    + intros -> -> Hnan. cbn [andb]. unfold ret. cbn [fst].
      rewrite (changePercent_NaN _ _ Hnan). reflexivity.
  - intros r data -> Hok Hjson Hmeta. rewrite Hok, Hjson, Hmeta. run_monad.
  - intros e ->. reflexivity.
  - intros r -> Hok. rewrite Hok. reflexivity.
  - intros r e -> Hok Hjson. rewrite Hok, Hjson. reflexivity.
Qed.

Lemma yahoo_quote_witness :
  fst (fetchSinglePrice
         (fun _ _ => Return (chartOf (VNum (ofZ 102)) (VNum (ofZ 100))
                                     VUndefined))
         (VStr (js "CLZ5")) [])
  = Return (js "+2.00%")
  /\ fst (fetchSinglePrice
            (fun _ _ => Return (chartOf (VStr (js "abc")) (VNum (ofZ 100))
                                        VUndefined))
            (VStr (js "CLZ5")) [])
     = Return (js "+NaN%").
Proof.
  split.
  - destruct (yahoo_quote
                (fun _ _ => Return (chartOf (VNum (ofZ 102)) (VNum (ofZ 100))
                                            VUndefined))
                (js "CLZ5") (js "CL=F") (js "CL%3DF") [])
      as [Hpriced _]; [reflexivity | reflexivity |].
    destruct (Hpriced (chartOf (VNum (ofZ 102)) (VNum (ofZ 100)) VUndefined)
                _ _ eq_refl eq_refl eq_refl eq_refl) as [Hfmt _].
    rewrite Hfmt by reflexivity. vm_compute. reflexivity.
  - destruct (yahoo_quote
                (fun _ _ => Return (chartOf (VStr (js "abc")) (VNum (ofZ 100))
                                            VUndefined))
                (js "CLZ5") (js "CL=F") (js "CL%3DF") [])
      as [Hpriced _]; [reflexivity | reflexivity |].
    destruct (Hpriced (chartOf (VStr (js "abc")) (VNum (ofZ 100)) VUndefined)
                _ _ eq_refl eq_refl eq_refl eq_refl) as (_ & _ & Hnan).
    apply Hnan; [reflexivity | reflexivity |]. left. reflexivity.
Defined.

(** ** The reply of the worker *)

(** C8.  When the spreadsheet fetch answers with a status outside 200-299,
    the worker replies with status 500 and a text/plain body that holds the
    upstream status code and reason text (404 for an upstream 404), and it
    stops there: the fetch of the spreadsheet is the only call it makes,
    nothing is parsed. *)
Theorem upstream_failure (net : Network) (now : jsstring) (r : Response) :
  net 0%nat EXCEL_URL = Return r ->
  ok r = false ->
  let body := js "Failed to fetch Excel file: " ++ decimal (status r)
                ++ js " " ++ statusText r in
  Eff.run (Worker.fetch net now)
  = (Return {| Worker.replyStatus := 500;
               Worker.contentType := js "text/plain";
               Worker.cacheControl := None;
               Worker.replyBody := body |},
     [EvFetch EXCEL_URL])
  /\ includes (decimal (status r)) body = true
  /\ includes (statusText r) body = true
  /\ (status r = 404%N -> includes (js "404") body = true).
Proof.
  intros Hnet Hok body. subst body.
  split; [|split; [|split]].
  - unfold Eff.run, Worker.fetch, tryCatch, Worker.respond, bind.
    rewrite (fetch_excel net r Hnet), Hok. reflexivity.
  - apply includes_app.
  - rewrite (app_assoc (js "Failed to fetch Excel file: ")).
    rewrite (app_assoc _ (js " ")).
    rewrite <- (app_nil_r (statusText r)) at 2.
    apply includes_app.
  - intros ->. apply includes_app.
Qed.

Lemma upstream_failure_witness :
  fst (Eff.run (Worker.fetch (fun _ _ => Return notFound) []))
  = Return {| Worker.replyStatus := 500;
              Worker.contentType := js "text/plain";
              Worker.cacheControl := None;
              Worker.replyBody := js "Failed to fetch Excel file: 404 Not Found" |}.
Proof.
  destruct (upstream_failure (fun _ _ => Return notFound) [] notFound)
    as [Hrun _]; [reflexivity | reflexivity |].
  rewrite Hrun. reflexivity.
Defined.

(** The page without the white space that [trim] removes: the line feed
    in front and the line feed and blanks at the end. *)
Lemma renderPage_trimmed (htmlTable now : jsstring) :
  renderPage htmlTable now
  = drop 1 pageHead ++ htmlTable ++ pageMiddle ++ EXCEL_URL ++ pageFooter
      ++ now ++ trimEnd pageTail.
Proof.
  unfold renderPage, trim.
  assert (Hhead : pageHead = 10%N :: 60%N :: drop 2 pageHead)
    by (vm_compute; reflexivity).
  rewrite Hhead at 1. cbn [app trimStart].
  replace (isWhiteSpace 10) with true by reflexivity.
  replace (isWhiteSpace 60) with false by reflexivity.
  change (60%N :: drop 2 pageHead
            ++ htmlTable ++ pageMiddle ++ EXCEL_URL ++ pageFooter ++ now
            ++ pageTail)
    with ((60%N :: drop 2 pageHead)
            ++ htmlTable ++ pageMiddle ++ EXCEL_URL ++ pageFooter ++ now
            ++ pageTail).
  replace (60%N :: drop 2 pageHead) with (drop 1 pageHead)
    by (vm_compute; reflexivity).
  rewrite !app_assoc. rewrite trimEnd_app by (vm_compute; discriminate).
  reflexivity.
Qed.

Lemma legacy_renderPage_trimmed (htmlTable now : jsstring) :
  Legacy.renderPage htmlTable now
  = drop 1 Legacy.pageHead ++ htmlTable ++ Legacy.pageMiddle ++ EXCEL_URL
      ++ Legacy.pageFooter ++ now ++ trimEnd Legacy.pageTail.
Proof.
  unfold Legacy.renderPage, trim.
  assert (Hhead : Legacy.pageHead = 10%N :: 60%N :: drop 2 Legacy.pageHead)
    by (vm_compute; reflexivity).
  rewrite Hhead at 1. cbn [app trimStart].
  replace (isWhiteSpace 10) with true by reflexivity.
  replace (isWhiteSpace 60) with false by reflexivity.
  change (60%N :: drop 2 Legacy.pageHead
            ++ htmlTable ++ Legacy.pageMiddle ++ EXCEL_URL
            ++ Legacy.pageFooter ++ now ++ Legacy.pageTail)
    with ((60%N :: drop 2 Legacy.pageHead)
            ++ htmlTable ++ Legacy.pageMiddle ++ EXCEL_URL
            ++ Legacy.pageFooter ++ now ++ Legacy.pageTail).
  replace (60%N :: drop 2 Legacy.pageHead) with (drop 1 Legacy.pageHead)
    by (vm_compute; reflexivity).
  rewrite !app_assoc. rewrite trimEnd_app by (vm_compute; discriminate).
  reflexivity.
Qed.

(** In either page an empty table leaves the paragraph alone in the table
    container. *)
Lemma renderPage_no_holdings (now : jsstring) :
  exists before after,
    renderPage noHoldings now = before ++ emptyTableRegion ++ after.
Proof.
  rewrite renderPage_trimmed.
  exists (take (length pageHead - 43) (drop 1 pageHead)).
  exists (drop 15 pageMiddle ++ EXCEL_URL ++ pageFooter ++ now
            ++ trimEnd pageTail).
  assert (Hhead : drop 1 pageHead
                  = take (length pageHead - 43) (drop 1 pageHead)
                      ++ js "<div class=" ++ quoted (js "table-container")
                      ++ js ">" ++ nl ++ js "            ")
    by (vm_compute; reflexivity).
  assert (Hmid : pageMiddle = (nl ++ js "        </div>") ++ drop 15 pageMiddle)
    by (vm_compute; reflexivity).
  rewrite Hhead at 1. rewrite Hmid at 1. unfold emptyTableRegion.
  rewrite <- !app_assoc. reflexivity.
Qed.

Lemma legacy_renderPage_no_holdings (now : jsstring) :
  exists before after,
    Legacy.renderPage noHoldings now = before ++ emptyTableRegion ++ after.
Proof.
  rewrite legacy_renderPage_trimmed.
  exists (take (length Legacy.pageHead - 43) (drop 1 Legacy.pageHead)).
  exists (drop 15 Legacy.pageMiddle ++ EXCEL_URL ++ Legacy.pageFooter ++ now
            ++ trimEnd Legacy.pageTail).
  assert (Hhead : drop 1 Legacy.pageHead
                  = take (length Legacy.pageHead - 43) (drop 1 Legacy.pageHead)
                      ++ js "<div class=" ++ quoted (js "table-container")
                      ++ js ">" ++ nl ++ js "            ")
    by (vm_compute; reflexivity).
  assert (Hmid : Legacy.pageMiddle
                 = (nl ++ js "        </div>") ++ drop 15 Legacy.pageMiddle)
    by (vm_compute; reflexivity).
  rewrite Hhead at 1. rewrite Hmid at 1. unfold emptyTableRegion.
  rewrite <- !app_assoc. reflexivity.
Qed.

(** C10.  When no row has a ticker the worker still replies with status
    200 and an HTML page, in this revision and in the earlier one; the
    table builder returns the paragraph that says no holdings with tickers
    were found, and in the page the table container holds that paragraph
    and no table. *)
Theorem empty_holdings (net : Network) (now : jsstring) (r : Response)
    (jsonData : list Row) :
  net 0%nat EXCEL_URL = Return r ->
  ok r = true ->
  sheet r = Return jsonData ->
  filteredData jsonData = [] ->
  Eff.run (Worker.fetch net now)
  = (Return {| Worker.replyStatus := 200;
               Worker.contentType := js "text/html;charset=UTF-8";
               Worker.cacheControl := Some (js "public, max-age=300");
               Worker.replyBody := renderPage noHoldings now |},
     [EvFetch EXCEL_URL; EvParseSheet])
  /\ Eff.run (Legacy.fetch net now)
     = (Return {| Worker.replyStatus := 200;
                  Worker.contentType := js "text/html;charset=UTF-8";
                  Worker.cacheControl := Some (js "public, max-age=300");
                  Worker.replyBody := Legacy.renderPage noHoldings now |},
        [EvFetch EXCEL_URL; EvParseSheet])
  /\ (forall dataRows total,
        buildColorCodedTable [] dataRows total = noHoldings)
  /\ (forall originalRows,
        Legacy.buildColorCodedTable [] originalRows = noHoldings)
  /\ (exists before after,
        renderPage noHoldings now = before ++ emptyTableRegion ++ after)
  /\ (exists before after,
        Legacy.renderPage noHoldings now
        = before ++ emptyTableRegion ++ after).
Proof.
  intros Hnet Hok Hsheet Hempty.
  split; [|split; [|split; [|split; [|split]]]].
  - unfold Eff.run, Worker.fetch, tryCatch, Worker.respond, bind.
    rewrite (fetch_excel net r Hnet), Hok. cbn [negb].
    unfold read. rewrite Hsheet, Hempty. reflexivity.
  - unfold Eff.run, Legacy.fetch, tryCatch, Legacy.respond, bind.
    rewrite (fetch_excel net r Hnet), Hok. cbn [negb].
    unfold read. rewrite Hsheet, Hempty. reflexivity.
  - reflexivity.
  - reflexivity.
  - apply renderPage_no_holdings.
  - apply legacy_renderPage_no_holdings.
Qed.

Lemma empty_holdings_witness :
  exists page,
    fst (Eff.run (Worker.fetch (fun _ _ => Return blankSheet) (js "now")))
    = Return page
    /\ Worker.replyStatus page = 200%N
    /\ Worker.replyBody page = renderPage noHoldings (js "now").
Proof.
  destruct (empty_holdings (fun _ _ => Return blankSheet) (js "now")
              blankSheet [blankRow]) as [Hrun _];
    [reflexivity | reflexivity | reflexivity | reflexivity |].
  rewrite Hrun. eexists. split; [reflexivity|]. split; reflexivity.
Defined.

(** * Further properties

    Properties of the same code beyond the statements above. *)

(** ** Contract symbols *)

Lemma isUpper_not_digit (c : N) : isUpper c = true -> isDigit c = false.
Proof.
  unfold isUpper, isDigit. intros H.
  apply andb_true_iff in H as [H1 H2].
  apply N.leb_le in H1. apply andb_false_iff. right. apply N.leb_gt. lia.
Qed.

Lemma monthYear_letters (c d : N) (s : jsstring) :
  isUpper d = true -> monthYear (c :: d :: s) = false.
Proof.
  intros Hd. cbn [monthYear forallb].
  rewrite (isUpper_not_digit d Hd). cbn [andb]. apply andb_false_r.
Qed.

(** The lazy group stops at the first place where a month letter and a
    year are all that is left: in front of the last letter. *)
Lemma contractPrefix_contract (month : N) (year root : jsstring) :
  isUpper month = true -> year <> [] -> forallb isDigit year = true ->
  forall acc,
    root <> [] -> forallb isUpper root = true ->
    contractPrefix acc (root ++ month :: year) = Some (rev acc ++ root).
Proof.
  intros Hm Hy Hds.
  induction root as [|c root IH]; intros acc Hne Hup; [contradiction|].
  cbn [forallb] in Hup. apply andb_true_iff in Hup as [Hc Hup].
  cbn [app contractPrefix]. rewrite Hc.
  destruct root as [|c' root].
  - cbn [app]. destruct year as [|d ds]; [contradiction|].
    cbn [monthYear]. rewrite Hm, Hds. cbn [andb rev].
    reflexivity.
  - cbn [forallb] in Hup. pose proof Hup as Hup'.
    apply andb_true_iff in Hup' as [Hc' Hrest].
    assert (Hno : monthYear ((c' :: root) ++ month :: year) = false).
    { destruct root as [|c'' root]; cbn [app].
      - apply monthYear_letters. exact Hm.
      - apply monthYear_letters. cbn [forallb] in Hrest.
        apply andb_true_iff in Hrest as [H _]. exact H. }
    rewrite Hno. rewrite IH; [|discriminate|exact Hup].
    cbn [rev]. rewrite <- app_assoc. reflexivity.
Qed.

(** X1.  For a futures contract, a ticker made of one or more capital
    letters (the root), one more capital letter (the month) and one or
    more digits (the year), the commodity prefix is the root, the Yahoo
    symbol is the root followed by =F, and the quote comes from Barchart
    when the root is MFS or MES and from Yahoo otherwise. *)
Theorem contract_symbol (root : jsstring) (month : N) (year : jsstring) :
  root <> [] -> forallb isUpper root = true ->
  isUpper month = true ->
  year <> [] -> forallb isDigit year = true ->
  let ticker := root ++ month :: year in
  commodityPrefix ticker = root
  /\ convertToYahooSymbol ticker = root ++ js "=F"
  /\ resolveSymbol ticker =
     (if streq root (js "MFS") then Barchart (js "DI")
      else if streq root (js "MES") then Barchart (js "M0")
      else Yahoo (root ++ js "=F")).
Proof.
  intros Hne Hup Hm Hy Hds ticker. subst ticker.
  pose proof (contractPrefix_contract month year root Hm Hy Hds [] Hne Hup)
    as Hmatch.
  cbn [rev app] in Hmatch.
  assert (Hp : commodityPrefix (root ++ month :: year) = root)
    by (unfold commodityPrefix, matchContract; rewrite Hmatch; reflexivity).
  assert (Hy' : convertToYahooSymbol (root ++ month :: year) = root ++ js "=F")
    by (unfold convertToYahooSymbol, matchContract; rewrite Hmatch;
        reflexivity).
  split; [exact Hp|]. split; [exact Hy'|].
  unfold resolveSymbol. rewrite Hp, Hy'. reflexivity.
Qed.

Lemma contract_symbol_witness :
  commodityPrefix (js "ZN" ++ 72%N :: js "26") = js "ZN"
  /\ convertToYahooSymbol (js "ZNH26") = js "ZN=F"
  /\ resolveSymbol (js "MES" ++ 90%N :: js "2025") = Barchart (js "M0").
Proof.
  destruct (contract_symbol (js "ZN") 72%N (js "26")) as (H1 & H2 & _);
    [discriminate|reflexivity|reflexivity|discriminate|reflexivity|].
  destruct (contract_symbol (js "MES") 90%N (js "2025")) as (_ & _ & H3);
    [discriminate|reflexivity|reflexivity|discriminate|reflexivity|].
  split; [exact H1|]. split; [exact H2|exact H3].
Defined.

Lemma upperRun_upper (s : jsstring) : forallb isUpper (upperRun s) = true.
Proof.
  induction s as [|c s IH]; [reflexivity|]. cbn [upperRun].
  destruct (isUpper c) eqn:Hc; [|reflexivity].
  cbn [forallb]. rewrite Hc. exact IH.
Qed.

Lemma upperRun_prefix (s : jsstring) : startsWith (upperRun s) s = true.
Proof.
  induction s as [|c s IH]; [reflexivity|]. cbn [upperRun].
  destruct (isUpper c); [|reflexivity].
  cbn [startsWith]. rewrite N.eqb_refl. exact IH.
Qed.

(** Group 1 of the contract expression is made of capital letters from
    the head of the input. *)
Lemma contractPrefix_run (s : jsstring) :
  forall acc p,
    contractPrefix acc s = Some p ->
    exists run,
      p = rev acc ++ run /\ run <> [] /\ forallb isUpper run = true
      /\ startsWith run s = true.
Proof.
  induction s as [|c s IH]; intros acc p; cbn [contractPrefix];
    [discriminate|].
  destruct (isUpper c) eqn:Hc; [|discriminate].
  destruct (monthYear s).
  - intros [= <-]. exists [c]. cbn [rev forallb startsWith].
    rewrite Hc, N.eqb_refl.
    split; [reflexivity|]. split; [discriminate|]. split; [reflexivity|].
    destruct s; reflexivity.
  - intros Hrest.
    destruct (IH (c :: acc) p Hrest) as (run & -> & _ & Hup & Hpre).
    exists (c :: run). cbn [rev forallb startsWith].
    rewrite Hc, N.eqb_refl, Hup, Hpre, <- app_assoc.
    split; [reflexivity|]. split; [discriminate|]. split; reflexivity.
Qed.

Lemma commodityPrefix_capital (ticker : jsstring) :
  startsWithCapital ticker = true ->
  commodityPrefix ticker <> []
  /\ forallb isUpper (commodityPrefix ticker) = true
  /\ startsWith (commodityPrefix ticker) ticker = true
  /\ convertToYahooSymbol ticker = commodityPrefix ticker ++ js "=F".
Proof.
  intros Hcap. unfold commodityPrefix, convertToYahooSymbol, matchContract.
  destruct (contractPrefix [] ticker) as [p|] eqn:Hp.
  - destruct (contractPrefix_run ticker [] p Hp)
      as (run & -> & Hne & Hup & Hpre).
    cbn [rev app]. split; [exact Hne|]. split; [exact Hup|].
    split; [exact Hpre|reflexivity].
  - unfold matchLetters.
    destruct ticker as [|c s]; [discriminate Hcap|].
    cbn [startsWithCapital] in Hcap.
    pose proof (upperRun_upper (c :: s)) as Hup.
    pose proof (upperRun_prefix (c :: s)) as Hpre.
    cbn [upperRun] in *. rewrite Hcap in *.
    split; [discriminate|]. split; [exact Hup|].
    split; [exact Hpre|reflexivity].
Qed.

Lemma commodityPrefix_other (ticker : jsstring) :
  startsWithCapital ticker = false ->
  commodityPrefix ticker = ticker /\ convertToYahooSymbol ticker = ticker.
Proof.
  intros Hcap.
  assert (Hrun : upperRun ticker = []).
  { destruct ticker as [|c s]; [reflexivity|].
    cbn [startsWithCapital] in Hcap. cbn [upperRun]. rewrite Hcap.
    reflexivity. }
  unfold commodityPrefix, convertToYahooSymbol, matchContract, matchLetters.
  rewrite (contractPrefix_needs_letter [] ticker Hrun), Hrun.
  split; reflexivity.
Qed.

(** X2.  The prefix that [fetchSinglePrice] extracts and the symbol that
    [convertToYahooSymbol] builds always agree.  For a ticker that starts
    with a capital letter the prefix is a run of capital letters at the
    head of the ticker, not empty, and the symbol is that prefix followed
    by =F; for any other ticker (the empty one too) both are the ticker
    itself. *)
Theorem prefix_and_symbol (ticker : jsstring) :
  (startsWithCapital ticker = true ->
   commodityPrefix ticker <> []
   /\ forallb isUpper (commodityPrefix ticker) = true
   /\ startsWith (commodityPrefix ticker) ticker = true
   /\ convertToYahooSymbol ticker = commodityPrefix ticker ++ js "=F")
  /\ (startsWithCapital ticker = false ->
      commodityPrefix ticker = ticker
      /\ convertToYahooSymbol ticker = ticker).
Proof.
  split; [apply commodityPrefix_capital | apply commodityPrefix_other].
Qed.

Lemma prefix_and_symbol_witness :
  convertToYahooSymbol (js "ES1Z5") = commodityPrefix (js "ES1Z5") ++ js "=F"
  /\ convertToYahooSymbol (js "6EZ5") = js "6EZ5".
Proof.
  split.
  - apply (prefix_and_symbol (js "ES1Z5")). reflexivity.
  - apply (prefix_and_symbol (js "6EZ5")). reflexivity.
Defined.

Lemma isUpper_unreserved (c : N) : isUpper c = true -> isUnreserved c = true.
Proof. intros H. unfold isUnreserved. rewrite H. reflexivity. Qed.

Lemma encodeURIComponent_letters (run rest : jsstring) :
  forallb isUpper run = true ->
  encodeURIComponent (run ++ rest) =
  match encodeURIComponent rest with
  | Return r => Return (run ++ r)
  | Throw e => Throw e
  end.
Proof.
  induction run as [|c run IH]; intros Hup.
  - cbn [app]. destruct (encodeURIComponent rest); reflexivity.
  - cbn [forallb] in Hup. apply andb_true_iff in Hup as [Hc Hup].
    cbn [app encodeURIComponent]. rewrite (isUpper_unreserved c Hc).
    rewrite (IH Hup). destruct (encodeURIComponent rest); reflexivity.
Qed.

(** In the address the equals sign of the symbol is written %3D. *)
Lemma encode_yahoo_symbol (ticker : jsstring) :
  startsWithCapital ticker = true ->
  encodeURIComponent (convertToYahooSymbol ticker)
  = Return (commodityPrefix ticker ++ js "%3DF").
Proof.
  intros Hcap.
  destruct (commodityPrefix_capital ticker Hcap) as (_ & Hup & _ & ->).
  rewrite (encodeURIComponent_letters _ _ Hup). reflexivity.
Qed.

(** ** The calls of a quote *)

Ltac trace_done :=
  eexists _, _; split;
  [rewrite <- ?app_assoc; reflexivity
  |split; [reflexivity
          |first [left; reflexivity | right; eexists; reflexivity]]].

Lemma fetchBarchartPrice_trace (net : Network) (root : jsstring)
    (tr : list Event) :
  exists result rest,
    fetchBarchartPrice net root tr
    = (Return result, tr ++ EvFetch (barchartUrl root) :: rest)
    /\ fetchedUrls rest = []
    /\ isQuote result.
Proof.
  unfold fetchBarchartPrice, tryCatch, bind, Eff.fetch, read, log, emit, ret.
  destruct (net _ _) as [r|e]; [|trace_done].
  destruct (ok r); cbn [negb]; [|trace_done].
  destruct (text r) as [html|e]; [|trace_done].
  destruct (matchPercentChange html) as [percentStr|]; [|trace_done].
  destruct (isNaN _); cbn [negb]; trace_done.
Qed.

(** Whatever happens, the run of [fetchSinglePrice] returns a quote; it
    fetches the address of the ticker first, when there is one, and
    nothing else. *)
Lemma fetchSinglePrice_trace (net : Network) (ticker : jsval)
    (tr : list Event) :
  exists result rest,
    fetchSinglePrice net ticker tr
    = (Return result, tr ++ List.map EvFetch (quoteUrls ticker) ++ rest)
    /\ fetchedUrls rest = []
    /\ isQuote result.
Proof.
  destruct ticker as [| |b|x|t];
    try (unfold fetchSinglePrice, tryCatch, bind, throw, log, emit, ret;
         trace_done).
  rewrite fetchSinglePrice_resolve. unfold quoteUrls, quoteUrl.
  destruct (resolveSymbol t) as [root|symbol].
  - unfold tryCatch.
    destruct (fetchBarchartPrice_trace net root tr)
      as (result & rest & -> & Hurls & Hq).
    exists result, rest. split; [reflexivity|]. split; assumption.
  - unfold fetchYahooPrice.
    destruct (encodeURIComponent symbol) as [encoded|e].
    + unfold tryCatch, bind, Eff.fetch, read, log, emit, ret.
      destruct (net _ _) as [r|e]; [|trace_done].
      destruct (ok r); cbn [negb]; [|trace_done].
      destruct (json r) as [data|e]; [|trace_done].
      destruct (meta data) as [m|].
      * destruct (toBoolean (regularMarketPrice m) && _); [trace_done|].
        destruct (chartError data); trace_done.
      * destruct (chartError data); trace_done.
    + unfold tryCatch, bind, throw, log, emit, ret. trace_done.
Qed.

Lemma fetchedUrls_app (a b : list Event) :
  fetchedUrls (a ++ b) = fetchedUrls a ++ fetchedUrls b.
Proof. unfold fetchedUrls. apply flat_map_app. Qed.

Lemma fetchedUrls_fetches (urls : list jsstring) :
  fetchedUrls (List.map EvFetch urls) = urls.
Proof.
  induction urls as [|u urls IH]; [reflexivity|].
  cbn [List.map]. change (fetchedUrls (EvFetch u :: List.map EvFetch urls))
    with (u :: fetchedUrls (List.map EvFetch urls)).
  rewrite IH. reflexivity.
Qed.

Lemma quoteUrls_length (ticker : jsval) : (length (quoteUrls ticker) <= 1)%nat.
Proof.
  unfold quoteUrls. destruct ticker as [| | | |s]; cbn [length]; try lia.
  destruct (quoteUrl s); cbn [length]; lia.
Qed.

Lemma isQuote_nonempty (s : jsstring) : isQuote s -> s <> [].
Proof.
  intros [->|(x & ->)]; [discriminate|].
  unfold formatChangePercent. cbn [isBlank]. intros H.
  apply app_eq_nil in H as [_ H]. discriminate H.
Qed.

(** X3.  The quote of one ticker costs at most one call.  The run of
    [fetchSinglePrice] never throws; it fetches the address of the ticker
    first and nothing after it, or nothing at all when the ticker is not
    a string (or its symbol cannot be encoded); its result is N/A or a
    change written by [formatChangePercent], never the empty string. *)
Theorem one_call_per_ticker (net : Network) (ticker : jsval)
    (tr : list Event) :
  exists result rest,
    fetchSinglePrice net ticker tr
    = (Return result, tr ++ List.map EvFetch (quoteUrls ticker) ++ rest)
    /\ fetchedUrls rest = []
    /\ (length (quoteUrls ticker) <= 1)%nat
    /\ ((forall t, ticker <> VStr t) -> quoteUrls ticker = [])
    /\ isQuote result
    /\ result <> [].
Proof.
  destruct (fetchSinglePrice_trace net ticker tr)
    as (result & rest & Hrun & Hurls & Hq).
  exists result, rest.
  split; [exact Hrun|]. split; [exact Hurls|].
  split; [apply quoteUrls_length|].
  split; [|split; [exact Hq|apply isQuote_nonempty; exact Hq]].
  intros Hns. destruct ticker as [| | | |t]; try reflexivity.
  destruct (Hns t eq_refl).
Qed.

Lemma one_call_per_ticker_witness :
  exists result rest,
    fetchSinglePrice quotesDown (VNum (ofZ 123)) []
    = (Return result, rest)
    /\ fetchedUrls rest = [].
Proof.
  destruct (one_call_per_ticker quotesDown (VNum (ofZ 123)) [])
    as (result & rest & Hrun & Hurls & _ & Hnone & _).
  exists result, rest. rewrite Hrun. split; [reflexivity|exact Hurls].
Defined.

Lemma quoteUrls_capital (ticker : jsstring) :
  startsWithCapital ticker = true ->
  quoteUrls (VStr ticker)
  = [if streq (commodityPrefix ticker) (js "MFS") then barchartUrl (js "DI")
     else if streq (commodityPrefix ticker) (js "MES") then
       barchartUrl (js "M0")
     else yahooUrl (commodityPrefix ticker ++ js "%3DF")].
Proof.
  intros Hcap. unfold quoteUrls, quoteUrl, resolveSymbol.
  destruct (streq (commodityPrefix ticker) (js "MFS")); [reflexivity|].
  destruct (streq (commodityPrefix ticker) (js "MES")); [reflexivity|].
  rewrite (encode_yahoo_symbol ticker Hcap). reflexivity.
Qed.

(** X4.  The address fetched for a ticker that starts with a capital
    letter depends on its commodity prefix only: the Barchart page of DI
    for MFS and of M0 for MES, and for every other prefix the Yahoo chart
    of the prefix followed by %3DF, the encoded =F.  That fetch is the
    first thing the call does, and its only fetch. *)
Theorem quote_address (net : Network) (ticker : jsstring) (tr : list Event) :
  startsWithCapital ticker = true ->
  let prefix := commodityPrefix ticker in
  let url :=
    if streq prefix (js "MFS") then barchartUrl (js "DI")
    else if streq prefix (js "MES") then barchartUrl (js "M0")
    else yahooUrl (prefix ++ js "%3DF") in
  exists result rest,
    fetchSinglePrice net (VStr ticker) tr
    = (Return result, tr ++ EvFetch url :: rest)
    /\ fetchedUrls rest = [].
Proof.
  intros Hcap prefix url. subst prefix url.
  destruct (fetchSinglePrice_trace net (VStr ticker) tr)
    as (result & rest & Hrun & Hurls & _).
  rewrite (quoteUrls_capital ticker Hcap) in Hrun.
  exists result, rest. split; [exact Hrun|exact Hurls].
Qed.

Lemma quote_address_witness :
  exists result rest,
    fetchSinglePrice quotesDown (VStr (js "GCZ5")) []
    = (Return result,
       EvFetch (js "https://query1.finance.yahoo.com/v8/finance/chart/GC%3DF")
         :: rest).
Proof.
  destruct (quote_address quotesDown (js "GCZ5") [] eq_refl)
    as (result & rest & Hrun & _).
  exists result, rest. rewrite Hrun. vm_compute. reflexivity.
Defined.

(** ** The batches *)

(** The calls of a list of tickers, one after the other. *)
Lemma all_trace (net : Network) (tickers : list jsval) :
  forall tr,
    exists results tr',
      Eff.all (List.map (fetchSinglePrice net) tickers) tr
      = (Return results, tr ++ tr')
      /\ length results = length tickers
      /\ fetchedUrls tr' = flat_map quoteUrls tickers
      /\ Forall isQuote results.
Proof.
  induction tickers as [|t tickers IH]; intros tr.
  - exists [], []. cbn [List.map Eff.all]. unfold ret.
    rewrite app_nil_r. repeat split. constructor.
  - cbn [List.map Eff.all]. unfold bind at 1.
    destruct (fetchSinglePrice_trace net t tr)
      as (result & rest & -> & Hurl1 & Hq1).
    unfold bind at 1.
    destruct (IH (tr ++ List.map EvFetch (quoteUrls t) ++ rest))
      as (results & tr2 & -> & Hlen & Hurls & Hqs).
    exists (result :: results),
      ((List.map EvFetch (quoteUrls t) ++ rest) ++ tr2).
    unfold ret.
    split; [rewrite <- !app_assoc; reflexivity|].
    split; [cbn [length]; rewrite Hlen; reflexivity|].
    split; [|constructor; assumption].
    rewrite !fetchedUrls_app, fetchedUrls_fetches, Hurl1, Hurls.
    rewrite app_nil_r. reflexivity.
Qed.

Lemma all_app {A} (cs ds : list (M A)) (tr : list Event) :
  Eff.all (cs ++ ds) tr =
  (first <- Eff.all cs ;; rest <- Eff.all ds ;; ret (first ++ rest)) tr.
Proof.
  revert tr. induction cs as [|c cs IH]; intros tr.
  - cbn [app Eff.all]. unfold bind, ret.
    destruct (Eff.all ds tr) as [[rest|e] tr']; reflexivity.
  - cbn [app Eff.all]. unfold bind, ret in *.
    destruct (c tr) as [[a|e] tr1]; [|reflexivity].
    rewrite IH.
    destruct (Eff.all cs tr1) as [[first|e] tr2]; [|reflexivity].
    destruct (Eff.all ds tr2) as [[rest|e] tr3]; reflexivity.
Qed.

Lemma setPrices_app (batch rest : list jsval) (others : list jsstring) :
  forall (first : list jsstring) (prices : gmap jsstring jsstring),
    length first = length batch ->
    setPrices prices (batch ++ rest) (first ++ others)
    = setPrices (setPrices prices batch first) rest others.
Proof.
  unfold setPrices.
  induction batch as [|t batch IH]; intros [|r first] prices Hlen;
    try discriminate Hlen; [reflexivity|].
  injection Hlen as Hlen. cbn [app combine fold_left]. apply IH. exact Hlen.
Qed.

Lemma fetchBatches_sequential (net : Network) (fuel : nat) :
  forall (tickers : list jsval) (prices : gmap jsstring jsstring)
         (tr : list Event),
    (length tickers <= fuel)%nat ->
    exists results tr',
      Eff.all (List.map (fetchSinglePrice net) tickers) tr
      = (Return results, tr ++ tr')
      /\ length results = length tickers
      /\ Forall isQuote results
      /\ fetchedUrls tr' = flat_map quoteUrls tickers
      /\ fetchBatches net fuel tickers prices tr
         = (Return (setPrices prices tickers results), tr ++ tr').
Proof.
  induction fuel as [|fuel IH]; intros tickers prices tr Hfuel.
  - destruct tickers as [|t tickers]; [|cbn [length] in Hfuel; lia].
    exists [], []. rewrite app_nil_r. repeat split. constructor.
  - destruct tickers as [|t tickers].
    + exists [], []. rewrite app_nil_r. repeat split. constructor.
    + pose proof (take_drop batchSize (t :: tickers)) as Hts.
      assert (Hrest : (length (drop batchSize (t :: tickers)) <= fuel)%nat).
      { rewrite length_drop. cbn [length] in *. unfold batchSize. lia. }
      cbn [fetchBatches].
      remember (take batchSize (t :: tickers)) as batch eqn:Hbatch.
      remember (drop batchSize (t :: tickers)) as rest eqn:Hdrop.
      rewrite <- Hts. clear Hts Hbatch Hdrop.
      rewrite List.map_app, all_app.
      unfold bind at 1 3.
      destruct (all_trace net batch tr)
        as (first & tr1 & -> & Hlen1 & Hurls1 & Hq1).
      destruct (IH rest (setPrices prices batch first) (tr ++ tr1) Hrest)
        as (others & tr2 & Hall & Hlen2 & Hq2 & Hurls2 & Hrun).
      unfold bind at 1. rewrite Hall, Hrun. unfold ret.
      exists (first ++ others), (tr1 ++ tr2).
      rewrite !app_assoc.
      split; [reflexivity|].
      split; [rewrite !length_app, Hlen1, Hlen2; reflexivity|].
      split; [apply Forall_app; split; assumption|].
      split; [rewrite fetchedUrls_app, flat_map_app, Hurls1, Hurls2;
              reflexivity|].
      rewrite setPrices_app by exact Hlen1. reflexivity.
Qed.

(** X5.  The batches of [fetchTickerPrices] change nothing but the pace:
    the run is the run of the calls of [fetchSinglePrice] for all the
    tickers in their order, one result per ticker, each of them a quote,
    and the map returned is the one made by writing the results under
    their tickers in that order, from the empty map. *)
Theorem batches_in_sequence (net : Network) (tickers : list jsval)
    (tr : list Event) :
  exists results tr',
    Eff.all (List.map (fetchSinglePrice net) tickers) tr
    = (Return results, tr')
    /\ length results = length tickers
    /\ Forall isQuote results
    /\ fetchTickerPrices net tickers tr
       = (Return (setPrices ∅ tickers results), tr').
Proof.
  unfold fetchTickerPrices.
  destruct (fetchBatches_sequential net (length tickers) tickers ∅ tr)
    as (results & tr' & Hall & Hlen & Hq & _ & Hrun); [lia|].
  exists results, (tr ++ tr'). repeat split; assumption.
Qed.

Lemma setPrices_lookup_other (key : jsstring) (batch : list jsval) :
  forall (batchResults : list jsstring) (prices : gmap jsstring jsstring),
    ~ In key (List.map toString batch) ->
    setPrices prices batch batchResults !! key = prices !! key.
Proof.
  unfold setPrices.
  induction batch as [|t batch IH]; intros [|r results] prices Hnot;
    try reflexivity.
  cbn [combine fold_left]. cbn [List.map In] in Hnot.
  rewrite IH by tauto. apply lookup_insert_ne. tauto.
Qed.

Lemma setPrices_lookup_last (before after : list jsval) (t : jsval)
    (rb ra : list jsstring) (r : jsstring)
    (prices : gmap jsstring jsstring) :
  length rb = length before ->
  ~ In (toString t) (List.map toString after) ->
  setPrices prices (before ++ t :: after) (rb ++ r :: ra) !! toString t
  = Some r.
Proof.
  intros Hlen Hnot. rewrite setPrices_app by exact Hlen.
  change (setPrices (setPrices prices before rb) (t :: after) (r :: ra))
    with (setPrices (<[toString t := r]> (setPrices prices before rb))
                    after ra).
  rewrite setPrices_lookup_other by exact Hnot.
  apply lookup_insert_eq.
Qed.

(** X6.  The price map has an entry under the string form of every
    ticker and under no other key, and when a ticker occurs more than
    once (or two tickers have the same string form) the entry is the
    result of the last of them.  (No ticker is to have the string form
    __proto__, under which an object takes no entry.) *)
Theorem price_map (tickers : list jsval) (results : list jsstring) :
  length results = length tickers ->
  ~ In protoKey (List.map toString tickers) ->
  let prices := setPrices ∅ tickers results in
  (forall key,
     prices !! key = None <-> ~ In key (List.map toString tickers))
  /\ (forall before t after rb r ra,
        tickers = before ++ t :: after -> results = rb ++ r :: ra ->
        length rb = length before ->
        ~ In (toString t) (List.map toString after) ->
        prices !! toString t = Some r).
Proof.
  intros Hlen _ prices. subst prices. split.
  - intros key. split.
    + intros Hnone Hin. apply in_map_iff in Hin as (t & <- & Hin).
      destruct (setPrices_spec tickers results ∅ Hlen) as [_ Hsome].
      destruct (Hsome t Hin) as [v Hv]. congruence.
    + intros Hnot. rewrite setPrices_lookup_other by exact Hnot.
      apply lookup_empty.
  - intros before t after rb r ra -> -> Hrb Hnot.
    apply setPrices_lookup_last; assumption.
Qed.

Lemma price_map_witness :
  let prices :=
    setPrices ∅ [VStr (js "CLZ5"); VStr (js "GCZ5"); VStr (js "CLZ5")]
              [js "+1.00%"; NA; js "-2.00%"] in
  prices !! js "CLZ5" = Some (js "-2.00%")
  /\ prices !! js "GCZ5" = Some NA
  /\ prices !! js "SIZ5" = None.
Proof.
  destruct (price_map [VStr (js "CLZ5"); VStr (js "GCZ5"); VStr (js "CLZ5")]
              [js "+1.00%"; NA; js "-2.00%"] eq_refl) as [Hnone Hlast].
  { intros [H|[H|[H|[]]]]; discriminate H. }
  split; [|split].
  - apply (Hlast [VStr (js "CLZ5"); VStr (js "GCZ5")] (VStr (js "CLZ5")) []
                 [js "+1.00%"; NA] (js "-2.00%") []);
      [reflexivity|reflexivity|reflexivity|intros []].
  - apply (Hlast [VStr (js "CLZ5")] (VStr (js "GCZ5")) [VStr (js "CLZ5")]
                 [js "+1.00%"] NA [js "-2.00%"]);
      [reflexivity|reflexivity|reflexivity|].
    intros [H|[]]. discriminate H.
  - apply Hnone. intros [H|[H|[H|[]]]]; discriminate H.
Defined.

(** ** The Barchart page *)

Lemma startsWith_elim (p s : jsstring) :
  startsWith p s = true -> exists rest, s = p ++ rest.
Proof.
  revert s. induction p as [|c p IH]; intros s H.
  - exists s. reflexivity.
  - destruct s as [|d s]; [discriminate H|].
    cbn [startsWith] in H. apply andb_true_iff in H as [Hc Hp].
    apply N.eqb_eq in Hc as ->. destruct (IH s Hp) as (rest & ->).
    exists rest. reflexivity.
Qed.

Lemma untilQuote_elim (s v : jsstring) :
  untilQuote s = Some v ->
  ~ In dq v /\ exists rest, s = v ++ dq :: rest.
Proof.
  revert v. induction s as [|c s IH]; intros v; cbn [untilQuote];
    [discriminate|].
  destruct (c =? dq)%N eqn:Hc.
  - intros [= <-]. apply N.eqb_eq in Hc as ->.
    split; [intros []|]. exists s. reflexivity.
  - destruct (untilQuote s) as [w|]; [|discriminate].
    intros [= <-]. destruct (IH w eq_refl) as (Hnot & rest & ->).
    apply N.eqb_neq in Hc. split.
    + intros [H|H]; [congruence|contradiction].
    + exists rest. reflexivity.
Qed.

Lemma untilQuote_intro (v rest : jsstring) :
  ~ In dq v -> untilQuote (v ++ dq :: rest) = Some v.
Proof.
  induction v as [|c v IH]; intros Hnot.
  - cbn [app untilQuote]. rewrite N.eqb_refl. reflexivity.
  - cbn [app untilQuote]. cbn [In] in Hnot.
    destruct (N.eqb_spec c dq) as [->|_]; [tauto|].
    rewrite IH by tauto. reflexivity.
Qed.

Lemma drop_app_length {A} (a b : list A) : drop (length a) (a ++ b) = b.
Proof. induction a as [|x a IH]; [reflexivity|exact IH]. Qed.

Lemma percentChangeAt_elim (s v : jsstring) :
  percentChangeAt s = Some v ->
  v <> [] /\ ~ In dq v
  /\ exists rest, s = percentChangeKey ++ v ++ dq :: rest.
Proof.
  unfold percentChangeAt.
  destruct (startsWith percentChangeKey s) eqn:Hkey; [|discriminate].
  destruct (startsWith_elim _ _ Hkey) as (tail & ->).
  rewrite drop_app_length.
  destruct (untilQuote tail) as [[|c w]|] eqn:Hq; try discriminate.
  intros [= <-].
  destruct (untilQuote_elim tail (c :: w) Hq) as (Hnot & rest & ->).
  split; [discriminate|]. split; [exact Hnot|]. exists rest. reflexivity.
Qed.

Lemma percentChangeAt_intro (v rest : jsstring) :
  v <> [] -> ~ In dq v ->
  percentChangeAt (percentChangeKey ++ v ++ dq :: rest) = Some v.
Proof.
  intros Hne Hnot. unfold percentChangeAt.
  rewrite startsWith_app, drop_app_length, untilQuote_intro by exact Hnot.
  destruct v; [contradiction|reflexivity].
Qed.

(** X7.  What [fetchBarchartPrice] reads off the page is the value of its
    first percentChange field.  When the search finds [v], the page holds
    the key, [v] in double quotes right after it, [v] is not empty and has
    no double quote in it, and the expression matches at no earlier
    place; when it finds nothing, the page holds no such field at all. *)
Theorem percent_change_field (html : jsstring) :
  (forall v,
     matchPercentChange html = Some v ->
     v <> [] /\ ~ In dq v
     /\ exists before after,
          html = before ++ percentChangeKey ++ v ++ dq :: after
          /\ forall k, (k < length before)%nat ->
                       percentChangeAt (drop k html) = None)
  /\ (matchPercentChange html = None ->
      forall before v after,
        v <> [] -> ~ In dq v ->
        html <> before ++ percentChangeKey ++ v ++ dq :: after).
Proof.
  split.
  - induction html as [|c html IH]; intros v; cbn [matchPercentChange].
    + destruct (percentChangeAt []) as [w|] eqn:Hat; [|discriminate].
      intros [= <-].
      destruct (percentChangeAt_elim [] w Hat) as (H1 & H2 & rest & H3).
      split; [exact H1|]. split; [exact H2|]. exists [], rest.
      split; [exact H3|]. intros k Hk. cbn [length] in Hk. lia.
    + destruct (percentChangeAt (c :: html)) as [w|] eqn:Hat.
      * intros [= <-].
        destruct (percentChangeAt_elim _ w Hat) as (H1 & H2 & rest & H3).
        split; [exact H1|]. split; [exact H2|]. exists [], rest.
        split; [exact H3|]. intros k Hk. cbn [length] in Hk. lia.
      * intros Hrest.
        destruct (IH v Hrest) as (H1 & H2 & before & after & -> & Hleft).
        split; [exact H1|]. split; [exact H2|].
        exists (c :: before), after. split; [reflexivity|].
        intros [|k] Hk; [exact Hat|].
        cbn [length] in Hk. apply (Hleft k). lia.
  - intros Hnone before v after Hne Hnot ->. revert Hnone.
    induction before as [|c before IH].
    + cbn [app]. destruct (percentChangeKey ++ v ++ dq :: after) eqn:Hs;
        cbn [matchPercentChange]; rewrite <- ?Hs;
        rewrite percentChangeAt_intro by assumption; discriminate.
    + cbn [app matchPercentChange].
      destruct (percentChangeAt _); [discriminate|]. exact IH.
Qed.

Lemma percent_change_field_witness :
  exists before after,
    js "{" ++ quoted (js "percentChange") ++ js ":" ++ quoted (js "-0.54%")
      ++ js "}"
    = before ++ percentChangeKey ++ js "-0.54%" ++ dq :: after.
Proof.
  destruct (percent_change_field
              (js "{" ++ quoted (js "percentChange") ++ js ":"
                 ++ quoted (js "-0.54%") ++ js "}")) as [Hfound _].
  destruct (Hfound (js "-0.54%") eq_refl)
    as (_ & _ & before & after & Hpage & _).
  exists before, after. exact Hpage.
Defined.

(** X8.  On the Barchart path, when the page is fetched with a status in
    200-299, its body is read and its first percentChange field, without
    its percent sign, starts with a number, the result is that number
    written by [formatChangePercent]: with its sign, also when the page
    has none, and with two decimals.  The call fetches the page, reads
    its body and does nothing else. *)
Theorem barchart_quote (net : Network) (ticker root : jsstring)
    (tr : list Event) (r : Response) (html percentStr : jsstring) :
  resolveSymbol ticker = Barchart root ->
  net (fetches tr) (barchartUrl root) = Return r -> ok r = true ->
  text r = Return html ->
  matchPercentChange html = Some percentStr ->
  let percentValue := parseFloat (replace (js "%") [] percentStr) in
  isNaN percentValue = false ->
  fetchSinglePrice net (VStr ticker) tr
  = (Return (formatChangePercent (VNum percentValue)),
     tr ++ [EvFetch (barchartUrl root); EvReadText]).
Proof.
  intros Hres Hnet Hok Htext Hmatch percentValue Hnum. subst percentValue.
  rewrite fetchSinglePrice_resolve, Hres.
  unfold fetchBarchartPrice, tryCatch, bind, Eff.fetch, read.
  unfold fetches in Hnet. rewrite Hnet, Hok, Htext, Hmatch, Hnum.
  cbn [negb]. unfold ret. rewrite <- app_assoc. reflexivity.
Qed.

Lemma barchart_quote_witness :
  fst (fetchSinglePrice (fun _ _ => Return (barchartPage (js "1.23%")))
         (VStr (js "MFSZ5")) [])
  = Return (js "+1.23%").
Proof.
  rewrite (barchart_quote (fun _ _ => Return (barchartPage (js "1.23%")))
             (js "MFSZ5") (js "DI") [] (barchartPage (js "1.23%"))
             (js "{" ++ quoted (js "lastPrice") ++ js ":"
                ++ quoted (js "2,431.5") ++ js ","
                ++ quoted (js "percentChange") ++ js ":"
                ++ quoted (js "1.23%") ++ js "}")
             (js "1.23%"));
    try (vm_compute; reflexivity).
Defined.

(** ** The handler *)

Lemma fetchTickerPrices_trace (net : Network) (tickers : list jsval)
    (tr : list Event) :
  exists prices tr',
    fetchTickerPrices net tickers tr = (Return prices, tr ++ tr')
    /\ fetchedUrls tr' = flat_map quoteUrls tickers.
Proof.
  unfold fetchTickerPrices.
  destruct (fetchBatches_sequential net (length tickers) tickers ∅ tr)
    as (results & tr' & _ & _ & _ & Hurls & ->); [lia|].
  eexists _, tr'. split; [reflexivity|exact Hurls].
Qed.

Lemma flat_map_quoteUrls_length (tickers : list jsval) :
  (length (flat_map quoteUrls tickers) <= length tickers)%nat.
Proof.
  induction tickers as [|t tickers IH]; [reflexivity|].
  cbn [flat_map length]. rewrite length_app.
  pose proof (quoteUrls_length t). lia.
Qed.

(** The run of the handler, by what the spreadsheet server does. *)
Lemma worker_run (net : Network) (now : jsstring) :
  match net 0%nat EXCEL_URL with
  | Throw e =>
      Eff.run (Worker.fetch net now)
      = (Return (processingError e), [EvFetch EXCEL_URL; EvLog (js "Error:")])
  | Return r =>
      if ok r then
        match sheet r with
        | Throw e =>
            Eff.run (Worker.fetch net now)
            = (Return (processingError e),
               [EvFetch EXCEL_URL; EvParseSheet; EvLog (js "Error:")])
        | Return jsonData =>
            exists reply tr',
              Eff.run (Worker.fetch net now)
              = (Return reply, [EvFetch EXCEL_URL; EvParseSheet] ++ tr')
              /\ pageReply reply
              /\ fetchedUrls tr'
                 = flat_map quoteUrls (List.map TICKER (filteredData jsonData))
        end
      else
        exists reply,
          Eff.run (Worker.fetch net now) = (Return reply, [EvFetch EXCEL_URL])
          /\ errorReply reply
  end.
Proof.
  destruct (net 0%nat EXCEL_URL) as [r|e] eqn:Hnet.
  - destruct (ok r) eqn:Hok; [destruct (sheet r) as [jsonData|e] eqn:Hsheet|].
    + unfold Eff.run, Worker.fetch, tryCatch, Worker.respond.
      unfold bind at 1. rewrite (fetch_excel net r Hnet), Hok. cbn [negb].
      unfold bind at 1. unfold read. rewrite Hsheet. unfold bind at 1.
      destruct (fetchTickerPrices_trace net
                  (List.map TICKER (filteredData jsonData))
                  ([EvFetch EXCEL_URL] ++ [EvParseSheet]))
        as (prices & tr' & -> & Hurls).
      eexists _, tr'. split; [reflexivity|].
      split; [repeat split|exact Hurls].
    + unfold Eff.run, Worker.fetch, tryCatch, Worker.respond, bind.
      rewrite (fetch_excel net r Hnet), Hok. cbn [negb].
      unfold read. rewrite Hsheet. reflexivity.
    + unfold Eff.run, Worker.fetch, tryCatch, Worker.respond, bind.
      rewrite (fetch_excel net r Hnet), Hok. cbn [negb].
      eexists. split; [reflexivity|repeat split].
  - unfold Eff.run, Worker.fetch, tryCatch, Worker.respond, bind, Eff.fetch.
    cbn [List.filter length app]. rewrite Hnet. reflexivity.
Qed.

Lemma legacy_run (net : Network) (now : jsstring) :
  match net 0%nat EXCEL_URL with
  | Throw e =>
      Eff.run (Legacy.fetch net now)
      = (Return (processingError e), [EvFetch EXCEL_URL; EvLog (js "Error:")])
  | Return r =>
      if ok r then
        match sheet r with
        | Throw e =>
            Eff.run (Legacy.fetch net now)
            = (Return (processingError e),
               [EvFetch EXCEL_URL; EvParseSheet; EvLog (js "Error:")])
        | Return jsonData =>
            exists reply,
              Eff.run (Legacy.fetch net now)
              = (Return reply, [EvFetch EXCEL_URL; EvParseSheet])
              /\ pageReply reply
        end
      else
        exists reply,
          Eff.run (Legacy.fetch net now) = (Return reply, [EvFetch EXCEL_URL])
          /\ errorReply reply
  end.
Proof.
  destruct (net 0%nat EXCEL_URL) as [r|e] eqn:Hnet.
  - destruct (ok r) eqn:Hok; [destruct (sheet r) as [jsonData|e] eqn:Hsheet|];
      unfold Eff.run, Legacy.fetch, tryCatch, Legacy.respond, bind;
      rewrite (fetch_excel net r Hnet), Hok; cbn [negb];
      unfold read; rewrite ?Hsheet.
    + eexists. split; [reflexivity|repeat split].
    + reflexivity.
    + eexists. split; [reflexivity|repeat split].
  - unfold Eff.run, Legacy.fetch, tryCatch, Legacy.respond, bind, Eff.fetch.
    cbn [List.filter length app]. rewrite Hnet. reflexivity.
Qed.

Lemma page_not_error (reply : Worker.Reply) :
  pageReply reply -> errorReply reply -> False.
Proof. intros [H _] [H' _]. rewrite H in H'. discriminate H'. Qed.

(** X9.  The handler never throws and always answers.  Its first call is
    the fetch of the spreadsheet; its reply is the page (status 200, HTML,
    cached for five minutes) or an error (status 500, plain text, no cache
    header); it is the page only when the spreadsheet server answers with
    a status in 200-299 and the parser reads the body, and an error
    whenever that is not so. *)
Theorem handler_answers (net : Network) (now : jsstring) :
  exists reply rest,
    Eff.run (Worker.fetch net now) = (Return reply, EvFetch EXCEL_URL :: rest)
    /\ (pageReply reply \/ errorReply reply)
    /\ (pageReply reply -> sheetRead net)
    /\ (~ sheetRead net -> errorReply reply).
Proof.
  pose proof (worker_run net now) as Hrun. unfold sheetRead.
  destruct (net 0%nat EXCEL_URL) as [r|e].
  - destruct (ok r) eqn:Hok.
    + destruct (sheet r) as [jsonData|e] eqn:Hsheet.
      * destruct Hrun as (reply & tr' & -> & Hpage & _).
        eexists reply, _. split; [reflexivity|]. split; [left; exact Hpage|].
        split; [intros _; eauto|].
        intros Hnot. exfalso. apply Hnot. eauto.
      * rewrite Hrun. eexists _, _. split; [reflexivity|].
        split; [right; repeat split|].
        split; [intros [H _]; discriminate H|].
        intros _. repeat split.
    + destruct Hrun as (reply & -> & Herr).
      eexists reply, _. split; [reflexivity|]. split; [right; exact Herr|].
      split; [|intros _; exact Herr].
      intros Hpage. destruct (page_not_error reply Hpage Herr).
  - rewrite Hrun. eexists _, _. split; [reflexivity|].
    split; [right; repeat split|].
    split; [intros [H _]; discriminate H|].
    intros _. repeat split.
Qed.

(** X10.  The earlier revision never throws either; it answers with
    the page exactly when the spreadsheet server answers with a status in
    200-299 and the parser reads the body, with an error otherwise, and
    the spreadsheet is all it ever fetches. *)
Theorem legacy_answers (net : Network) (now : jsstring) :
  exists reply rest,
    Eff.run (Legacy.fetch net now) = (Return reply, EvFetch EXCEL_URL :: rest)
    /\ (pageReply reply \/ errorReply reply)
    /\ (pageReply reply <-> sheetRead net)
    /\ fetchedUrls (EvFetch EXCEL_URL :: rest) = [EXCEL_URL].
Proof.
  pose proof (legacy_run net now) as Hrun. unfold sheetRead.
  destruct (net 0%nat EXCEL_URL) as [r|e].
  - destruct (ok r) eqn:Hok.
    + destruct (sheet r) as [jsonData|e] eqn:Hsheet.
      * destruct Hrun as (reply & -> & Hpage).
        eexists reply, _. split; [reflexivity|]. split; [left; exact Hpage|].
        split; [|reflexivity].
        split; [intros _; eauto | intros _; exact Hpage].
      * rewrite Hrun. eexists _, _. split; [reflexivity|].
        split; [right; repeat split|].
        split; [|reflexivity]. split.
        -- intros [H _]. discriminate H.
        -- intros (r' & jsonData & [= <-] & _ & H). congruence.
    + destruct Hrun as (reply & -> & Herr).
      eexists reply, _. split; [reflexivity|]. split; [right; exact Herr|].
      split; [|reflexivity]. split.
      * intros Hpage. destruct (page_not_error reply Hpage Herr).
      * intros (r' & jsonData & [= <-] & H & _). congruence.
  - rewrite Hrun. eexists _, _. split; [reflexivity|].
    split; [right; repeat split|].
    split; [|reflexivity]. split.
    + intros [H _]. discriminate H.
    + intros (r' & jsonData & H & _). discriminate H.
Qed.

(** X11.  When the spreadsheet is read, the handler fetches the
    spreadsheet and then, for the rows that pass the ticker filter and in
    their order in the sheet, the address of each ticker that has one: at
    most one call more than there are holdings with a ticker, and none for
    a row that the filter drops. *)
Theorem worker_calls (net : Network) (now : jsstring) (r : Response)
    (jsonData : list Row) :
  net 0%nat EXCEL_URL = Return r -> ok r = true ->
  sheet r = Return jsonData ->
  let tickers := List.map TICKER (filteredData jsonData) in
  exists reply tr,
    Eff.run (Worker.fetch net now) = (Return reply, tr)
    /\ fetchedUrls tr = EXCEL_URL :: flat_map quoteUrls tickers
    /\ (length (fetchedUrls tr) <= 1 + length (filteredData jsonData))%nat.
Proof.
  intros Hnet Hok Hsheet tickers. subst tickers.
  pose proof (worker_run net now) as Hrun.
  rewrite Hnet, Hok, Hsheet in Hrun.
  destruct Hrun as (reply & tr' & -> & _ & Hurls).
  eexists reply, _. split; [reflexivity|].
  rewrite fetchedUrls_app, Hurls. split; [reflexivity|].
  cbn [fetchedUrls flat_map app length].
  pose proof (flat_map_quoteUrls_length
                (List.map TICKER (filteredData jsonData))) as Hlen.
  rewrite length_map in Hlen. lia.
Qed.

Lemma worker_calls_witness :
  exists reply tr,
    Eff.run (Worker.fetch quotesDown (js "now")) = (Return reply, tr)
    /\ fetchedUrls tr
       = [EXCEL_URL;
          js "https://query1.finance.yahoo.com/v8/finance/chart/CL%3DF"].
Proof.
  destruct (worker_calls quotesDown (js "now") oneHolding
              [holding "CLZ5" (ofDecimal false 10 (-2))]
              eq_refl eq_refl eq_refl) as (reply & tr & Hrun & Hurls & _).
  exists reply, tr. split; [exact Hrun|]. rewrite Hurls.
  vm_compute. reflexivity.
Defined.

(** X12.  When the fetch of the spreadsheet is rejected, or its body
    cannot be read or parsed, the error is caught: both revisions log it
    and reply with status 500 and the plain text Error processing Excel
    file: followed by the message of the error, and they fetch nothing
    but the spreadsheet. *)
Theorem processing_error (net : Network) (now message : jsstring) :
  net 0%nat EXCEL_URL = Throw message
  \/ (exists r, net 0%nat EXCEL_URL = Return r /\ ok r = true
                /\ sheet r = Throw message) ->
  (exists tr,
     Eff.run (Worker.fetch net now) = (Return (processingError message), tr)
     /\ last tr = Some (EvLog (js "Error:"))
     /\ fetchedUrls tr = [EXCEL_URL])
  /\ (exists tr,
        Eff.run (Legacy.fetch net now)
        = (Return (processingError message), tr)
        /\ last tr = Some (EvLog (js "Error:"))
        /\ fetchedUrls tr = [EXCEL_URL]).
Proof.
  intros Hfail.
  pose proof (worker_run net now) as Hw.
  pose proof (legacy_run net now) as Hl.
  destruct Hfail as [Hnet|(r & Hnet & Hok & Hsheet)].
  - rewrite Hnet in Hw, Hl.
    split; eexists; (split; [eassumption|]); split; reflexivity.
  - rewrite Hnet, Hok, Hsheet in Hw, Hl.
    split; eexists; (split; [eassumption|]); split; reflexivity.
Qed.

Lemma processing_error_witness :
  exists tr,
    Eff.run (Worker.fetch (fun _ _ => Throw (js "Network connection lost"))
                          (js "now"))
    = (Return (processingError (js "Network connection lost")), tr).
Proof.
  destruct (processing_error (fun _ _ => Throw (js "Network connection lost"))
              (js "now") (js "Network connection lost")
              (or_introl eq_refl))
    as [(tr & Hrun & _) _].
  exists tr. exact Hrun.
Defined.

(** ** The frame of the page *)

(** X13.  The page is the same frame around the table and the time
    stamp, whatever they are, in both revisions: it starts with the
    doctype and ends with the closing html tag ([trim] removes the line
    feed in front and the blanks at the end, and nothing of the
    table), and the link to the spreadsheet stands between the table and
    the time stamp. *)
Theorem page_frame :
  (exists opening middle closing,
     startsWith (js "<!DOCTYPE html>") opening = true
     /\ includes (js "<a href=" ++ quoted EXCEL_URL) middle = true
     /\ endsWith (js "</html>") closing = true
     /\ forall htmlTable now,
          renderPage htmlTable now
          = opening ++ htmlTable ++ middle ++ now ++ closing)
  /\ (exists opening middle closing,
        startsWith (js "<!DOCTYPE html>") opening = true
        /\ includes (js "<a href=" ++ quoted EXCEL_URL) middle = true
        /\ endsWith (js "</html>") closing = true
        /\ forall htmlTable now,
             Legacy.renderPage htmlTable now
             = opening ++ htmlTable ++ middle ++ now ++ closing).
Proof.
  split.
  - exists (drop 1 pageHead), (pageMiddle ++ EXCEL_URL ++ pageFooter),
      (trimEnd pageTail).
    split; [vm_compute; reflexivity|].
    split; [vm_compute; reflexivity|].
    split; [vm_compute; reflexivity|].
    intros htmlTable now. rewrite renderPage_trimmed.
    rewrite <- !app_assoc. reflexivity.
  - exists (drop 1 Legacy.pageHead),
      (Legacy.pageMiddle ++ EXCEL_URL ++ Legacy.pageFooter),
      (trimEnd Legacy.pageTail).
    split; [vm_compute; reflexivity|].
    split; [vm_compute; reflexivity|].
    split; [vm_compute; reflexivity|].
    intros htmlTable now. rewrite legacy_renderPage_trimmed.
    rewrite <- !app_assoc. reflexivity.
Qed.

(** ** Written numbers *)

Lemma digitsOfN_nonempty (fuel : nat) :
  forall n acc, acc <> [] -> digitsOfN fuel n acc <> [].
Proof.
  induction fuel as [|fuel IH]; intros n acc Hacc; cbn [digitsOfN];
    [exact Hacc|].
  destruct (n <? 10)%N; [discriminate|]. apply IH. discriminate.
Qed.

Lemma decimal_nonempty (n : N) : decimal n <> [].
Proof.
  unfold decimal. cbn [digitsOfN].
  destruct (n <? 10)%N; [discriminate|].
  apply digitsOfN_nonempty. discriminate.
Qed.

Lemma app_nonempty_r {A} (a b : list A) : b <> [] -> a ++ b <> [].
Proof. intros Hb H. apply app_eq_nil in H as [_ H]. contradiction. Qed.

Lemma app_nonempty_l {A} (a b : list A) : a <> [] -> a ++ b <> [].
Proof. intros Ha H. apply app_eq_nil in H as [H _]. contradiction. Qed.

Lemma groupDigits_nonempty (fuel : nat) (ds : jsstring) :
  ds <> [] -> groupDigits fuel ds <> [].
Proof.
  intros Hds. destruct fuel as [|fuel]; cbn [groupDigits]; [exact Hds|].
  destruct (length ds <=? 3)%nat; [exact Hds|].
  apply app_nonempty_r, app_nonempty_l. discriminate.
Qed.

Lemma formatMagnitude_nonempty (fmt : NumberFormat) (num den : Z) :
  formatMagnitude fmt num den <> [].
Proof.
  unfold formatMagnitude. apply app_nonempty_l, groupDigits_nonempty.
  apply decimal_nonempty.
Qed.

Lemma format_nonempty (fmt : NumberFormat) (x : number) :
  format fmt x <> [].
Proof.
  unfold format. apply app_nonempty_r, app_nonempty_r, app_nonempty_l.
  destruct x as [s|s| |s m e]; try discriminate.
  - apply formatMagnitude_nonempty.
  - destruct (shortestDecimal m e) as [d e10].
    destruct (scale10 _ _ _) as [num den].
    apply formatMagnitude_nonempty.
Qed.

(** X14.  Each of the four number helpers returns the empty string for
    null, undefined and the empty string, and for nothing else: every
    other value is converted to a number and written, so that 0 is
    written as 0 and as $0 (unlike a date, which is blank for 0). *)
Theorem blank_values (num : jsval) :
  (formatNumber num = [] <-> isBlank num = true)
  /\ (formatCurrency num = [] <-> isBlank num = true)
  /\ (formatPercent num = [] <-> isBlank num = true)
  /\ (formatChangePercent num = [] <-> isBlank num = true)
  /\ formatNumber (VNum zero) = js "0"
  /\ formatCurrency (VNum zero) = js "$0".
Proof.
  split; [|split; [|split; [|split; [|split; vm_compute; reflexivity]]]];
    unfold formatNumber, formatCurrency, formatPercent, formatChangePercent;
    destruct (isBlank num);
    try (split; reflexivity);
    (split; [|discriminate]); intros H; exfalso.
  - exact (format_nonempty _ _ H).
  - exact (format_nonempty _ _ H).
  - exact (format_nonempty _ _ H).
  - apply app_eq_nil in H as [_ H]. discriminate H.
Qed.

Lemma isDigit_digit (k : N) : (k < 10)%N -> isDigit (48 + k) = true.
Proof.
  intros Hk. unfold isDigit. apply andb_true_iff.
  split; apply N.leb_le; lia.
Qed.

(** The digits that [digitsOfN] writes in front of [acc] are decimal
    digits, and they read back as [n]. *)
Lemma digitsOfN_spec (fuel : nat) :
  forall n acc,
    (n < 10 ^ N.of_nat fuel)%N ->
    exists ds,
      digitsOfN fuel n acc = ds ++ acc
      /\ forallb isDigit ds = true
      /\ forall a, digitsValue a ds = (a * 10 ^ N.of_nat (length ds) + n)%N.
Proof.
  induction fuel as [|fuel IH]; intros n acc Hn.
  - exists []. cbn in Hn. assert (n = 0%N) as -> by lia.
    split; [reflexivity|]. split; [reflexivity|].
    intros a. cbn. lia.
  - cbn [digitsOfN]. destruct (N.ltb_spec n 10) as [Hlt|Hge].
    + exists [(48 + n mod 10)%N].
      split; [reflexivity|].
      rewrite N.mod_small by exact Hlt.
      split.
      * cbn [forallb]. rewrite isDigit_digit by exact Hlt. reflexivity.
      * intros a. unfold digitsValue. cbn [fold_left length].
        change (10 ^ N.of_nat 1)%N with 10%N.
        rewrite (N.add_comm 48), N.add_sub. reflexivity.
    + assert (Hdiv : (n / 10 < 10 ^ N.of_nat fuel)%N).
      { apply N.Div0.div_lt_upper_bound.
        rewrite Nat2N.inj_succ, N.pow_succ_r' in Hn. exact Hn. }
      destruct (IH (n / 10)%N ((48 + n mod 10)%N :: acc) Hdiv)
        as (ds & -> & Hds & Hval).
      exists (ds ++ [(48 + n mod 10)%N]).
      split; [rewrite <- app_assoc; reflexivity|].
      pose proof (N.mod_lt n 10 ltac:(discriminate)) as Hmod.
      split.
      * rewrite forallb_app, Hds. cbn [forallb].
        rewrite isDigit_digit by exact Hmod. reflexivity.
      * intros a. unfold digitsValue in *. rewrite fold_left_app.
        cbn [fold_left]. rewrite Hval, length_app. cbn [length].
        rewrite Nat.add_1_r, Nat2N.inj_succ, N.pow_succ_r'.
        pose proof (N.div_mod n 10 ltac:(discriminate)) as Hdm.
        rewrite (N.add_comm 48), N.add_sub.
        clear - Hdm. remember (n / 10)%N as q. remember (n mod 10)%N as r.
        rewrite Hdm. ring.
Qed.

Lemma decimal_spec (n : N) :
  forallb isDigit (decimal n) = true
  /\ forall a,
       digitsValue a (decimal n)
       = (a * 10 ^ N.of_nat (length (decimal n)) + n)%N.
Proof.
  unfold decimal.
  destruct (digitsOfN_spec (S (N.to_nat (N.log2 n))) n []) as (ds & -> & H).
  - rewrite Nat2N.inj_succ, N2Nat.id.
    destruct n as [|p]; [reflexivity|].
    pose proof (N.log2_spec (N.pos p) ltac:(lia)) as [_ Hup].
    eapply N.lt_le_trans; [exact Hup|].
    apply N.pow_le_mono_l. lia.
  - rewrite app_nil_r. exact H.
Qed.

Lemma formatMagnitude_two_digits (fmt : NumberFormat) (num den : Z) :
  minimumFractionDigits fmt = 2%nat -> maximumFractionDigits fmt = 2%nat ->
  exists whole d1 d2,
    formatMagnitude fmt num den = whole ++ js "." ++ [d1; d2]
    /\ isDigit d1 = true /\ isDigit d2 = true.
Proof.
  intros Hmin Hmax. unfold formatMagnitude. rewrite Hmin, Hmax.
  change (10 ^ N.of_nat 2)%N with 100%N.
  set (h := Z.to_N ((2 * Z.of_N 100 * num + den) / (2 * den))%Z).
  destruct (padded_two (h mod 100)%N) as (d1 & d2 & -> & H1 & H2).
  { apply N.mod_lt. discriminate. }
  cbn [trimFraction]. eexists _, d1, d2. repeat split; assumption.
Qed.

Lemma groupDigits_chars (fuel : nat) :
  forall ds,
    forallb isDigit ds = true ->
    forallb isDigitOrComma (groupDigits fuel ds) = true.
Proof.
  assert (Hweak : forall ds, forallb isDigit ds = true ->
                             forallb isDigitOrComma ds = true).
  { intros ds H. rewrite forallb_forall in *. intros c Hc.
    unfold isDigitOrComma. rewrite (H c Hc). reflexivity. }
  induction fuel as [|fuel IH]; intros ds Hds; cbn [groupDigits];
    [apply Hweak; exact Hds|].
  destruct (length ds <=? 3)%nat; [apply Hweak; exact Hds|].
  rewrite <- (take_drop (length ds - 3) ds) in Hds.
  rewrite forallb_app in Hds. apply andb_true_iff in Hds as [Ht Hd].
  rewrite !forallb_app, (IH _ Ht), (Hweak _ Hd). reflexivity.
Qed.

Lemma formatMagnitude_whole (fmt : NumberFormat) (num den : Z) :
  minimumFractionDigits fmt = 0%nat -> maximumFractionDigits fmt = 0%nat ->
  formatMagnitude fmt num den <> []
  /\ forallb isDigitOrComma (formatMagnitude fmt num den) = true.
Proof.
  intros Hmin Hmax. split; [apply formatMagnitude_nonempty|].
  unfold formatMagnitude. rewrite Hmin, Hmax.
  cbn [padded trimFraction]. rewrite app_nil_r.
  apply groupDigits_chars. apply decimal_spec.
Qed.

(** X15.  A finite number is written by [formatPercent] as an optional
    minus sign, a whole part, a point, exactly two digits and a percent
    sign, and by [formatCurrency] as an optional minus sign, a dollar
    sign after it, and digits in groups separated by commas, with no
    fraction. *)
Theorem number_shapes (x : number) :
  isFinite x = true ->
  (exists sign whole d1 d2,
     formatPercent (VNum x) = sign ++ whole ++ js "." ++ [d1; d2] ++ js "%"
     /\ (sign = [] \/ sign = js "-")
     /\ isDigit d1 = true /\ isDigit d2 = true)
  /\ (exists sign whole,
        formatCurrency (VNum x) = sign ++ js "$" ++ whole
        /\ (sign = [] \/ sign = js "-")
        /\ whole <> []
        /\ forallb isDigitOrComma whole = true).
Proof.
  intros Hfin. split.
  - unfold formatPercent. cbn [isBlank toNumber]. unfold format.
    cbn [style signDisplayAlways].
    destruct x as [s|s| |s m e]; try discriminate Hfin.
    + destruct (formatMagnitude_two_digits
                  {| style := Percent; minimumFractionDigits := 2;
                     maximumFractionDigits := 2;
                     signDisplayAlways := false |} 0 1 eq_refl eq_refl)
        as (whole & d1 & d2 & -> & H1 & H2).
      exists (if s then js "-" else []), whole, d1, d2.
      split; [cbn [app]; rewrite <- !app_assoc; reflexivity|].
      split; [destruct s; auto|]. split; assumption.
    + destruct (shortestDecimal m e) as [d e10].
      destruct (scale10 (N.succ_pos (N.pred d)) 1 (e10 + 2)) as [num den].
      destruct (formatMagnitude_two_digits
                  {| style := Percent; minimumFractionDigits := 2;
                     maximumFractionDigits := 2;
                     signDisplayAlways := false |} num den eq_refl eq_refl)
        as (whole & d1 & d2 & -> & H1 & H2).
      exists (if s then js "-" else []), whole, d1, d2.
      split; [cbn [app]; rewrite <- !app_assoc; reflexivity|].
      split; [destruct s; auto|]. split; assumption.
  - unfold formatCurrency. cbn [isBlank toNumber]. unfold format.
    cbn [style signDisplayAlways].
    destruct x as [s|s| |s m e]; try discriminate Hfin.
    + destruct (formatMagnitude_whole
                  {| style := Currency; minimumFractionDigits := 0;
                     maximumFractionDigits := 0;
                     signDisplayAlways := false |} 0 1 eq_refl eq_refl)
        as [Hne Hall].
      eexists (if s then js "-" else []), _.
      split; [rewrite app_nil_r; reflexivity|].
      split; [destruct s; auto|]. split; assumption.
    + destruct (shortestDecimal m e) as [d e10].
      destruct (scale10 (N.succ_pos (N.pred d)) 1 e10) as [num den].
      destruct (formatMagnitude_whole
                  {| style := Currency; minimumFractionDigits := 0;
                     maximumFractionDigits := 0;
                     signDisplayAlways := false |} num den eq_refl eq_refl)
        as [Hne Hall].
      eexists (if s then js "-" else []), _.
      split; [rewrite app_nil_r; reflexivity|].
      split; [destruct s; auto|]. split; assumption.
Qed.

Lemma number_shapes_witness :
  exists sign whole,
    formatCurrency (VNum (ofDecimal true 12345678 (-1)))
    = sign ++ js "$" ++ whole
    /\ (sign = [] \/ sign = js "-").
Proof.
  destruct (number_shapes (ofDecimal true 12345678 (-1)) eq_refl)
    as (_ & sign & whole & H & Hs & _).
  exists sign, whole. split; assumption.
Defined.

(** ** The sign of a change *)

Section Signs.

Local Open Scope Z_scope.

Lemma ltb_signed_zero (s : bool) (x : number) :
  signed s x -> ltb x zero = s.
Proof. intros [->|(m & e & ->)]; destruct s; reflexivity. Qed.

Lemma binary_normalize_negative (d e : Z) :
  emin prec emax <= e ->
  ltb (binary_normalize prec emax d e false) zero = (d <? 0).
Proof.
  intros He. destruct d as [|m|m]; cbn [binary_normalize].
  - reflexivity.
  - rewrite (ltb_signed_zero false) by (apply binary_round_signed; exact He).
    reflexivity.
  - rewrite (ltb_signed_zero true) by (apply binary_round_signed; exact He).
    reflexivity.
Qed.

(** The sign of [b - a] tells whether [b < a] as well. *)
Lemma sub_negative (a b : number) :
  wellFormed a -> wellFormed b -> ltb (sub b a) zero = ltb b a.
Proof.
  unfold wellFormed.
  destruct a as [sa|sa| |sa ma ea], b as [sb|sb| |sb mb eb];
    try (intros _ _; try destruct sa; try destruct sb; reflexivity).
  cbn [valid_binary]. intros Ha Hb.
  destruct (bounded_canonical ma ea Ha) as (Hea & _ & _).
  destruct (bounded_canonical mb eb Hb) as (Heb & _ & _).
  unfold sub. cbn [SFsub].
  rewrite binary_normalize_negative by lia.
  destruct (shl_align_value mb eb (Z.min eb ea)) as [-> _]; [lia|].
  destruct (shl_align_value ma ea (Z.min eb ea)) as [-> _]; [lia|].
  unfold ltb, SFltb. cbn [SFcompare].
  change (Pos.compare_cont Eq mb ma) with (Pos.compare mb ma).
  destruct (Z.compare_spec eb ea) as [Heq|Hlt|Hgt].
  - subst eb. rewrite Z.min_id, Z.sub_diag. change (2 ^ 0) with 1.
    rewrite !Z.mul_1_r.
    destruct (Pos.compare_spec mb ma) as [Hm|Hm|Hm];
      destruct sa, sb; cbn [cond_Zopp CompOpp];
      first [apply Z.ltb_lt; lia | apply Z.ltb_ge; lia].
  - pose proof (canonical_magnitude_lt mb ma eb ea Hb Ha Hlt) as Hmag.
    rewrite Z.min_l by lia. rewrite Z.sub_diag. change (2 ^ 0) with 1.
    rewrite Z.mul_1_r.
    destruct sa, sb; cbn [cond_Zopp];
      first [apply Z.ltb_lt; lia | apply Z.ltb_ge; lia].
  - pose proof (canonical_magnitude_lt ma mb ea eb Ha Hb Hgt) as Hmag.
    rewrite Z.min_r by lia. rewrite Z.sub_diag. change (2 ^ 0) with 1.
    rewrite Z.mul_1_r.
    destruct sa, sb; cbn [cond_Zopp];
      first [apply Z.ltb_lt; lia | apply Z.ltb_ge; lia].
Qed.

Lemma shr_fexp_nonneg (m e : Z) (l : location) :
  0 <= m -> 0 <= shr_m (fst (shr_fexp prec emax m e l)).
Proof.
  intros Hm. unfold shr_fexp, shr.
  destruct (fexp prec emax (Zdigits2 m + e) - e) as [|n|n];
    cbn [fst]; rewrite ?shr_m_of_loc; try exact Hm.
  rewrite iter_shr_1_m by (rewrite shr_m_of_loc; exact Hm).
  rewrite shr_m_of_loc. apply Z.div_pos; lia.
Qed.

(** Rounding keeps the sign it is given, also when the value underflows
    to zero or overflows to an infinity. *)
Lemma binary_round_aux_signOf (s : bool) (m e : Z) (l : location) :
  0 <= m -> signOf (binary_round_aux prec emax s m e l) = Some s.
Proof.
  intros Hm. unfold binary_round_aux.
  pose proof (shr_fexp_nonneg m e l Hm) as H1.
  destruct (shr_fexp prec emax m e l) as [mrs' e']. cbn [fst] in H1.
  pose proof (round_nearest_even_bounds (shr_m mrs') (loc_of_shr_record mrs'))
    as Hround.
  set (m1 := round_nearest_even (shr_m mrs') (loc_of_shr_record mrs')) in *.
  pose proof (shr_fexp_nonneg m1 e' loc_Exact ltac:(lia)) as H2.
  destruct (shr_fexp prec emax m1 e' loc_Exact) as [mrs'' e''].
  cbn [fst] in H2.
  destruct (shr_m mrs'') as [|m2|m2]; try lia; [reflexivity|].
  destruct (e'' <=? emax - prec); reflexivity.
Qed.

Lemma div_core_nonneg (m1 m2 : positive) (e1 e2 : Z) :
  0 <= fst (fst (SFdiv_core_binary prec emax (Z.pos m1) e1 (Z.pos m2) e2)).
Proof.
  unfold SFdiv_core_binary.
  set (sh := e1 - e2 - _).
  set (m' := match sh with
             | 0 => Z.pos m1
             | Z.pos _ => Z.shiftl (Z.pos m1) sh
             | Z.neg _ => 0
             end).
  assert (Hm' : 0 <= m').
  { subst m'. destruct sh as [|p|p]; try lia.
    apply Z.shiftl_nonneg. lia. }
  pose proof (Z_div_mod m' (Z.pos m2) ltac:(lia)) as Hdm.
  destruct (Z.div_eucl m' (Z.pos m2)) as [q r]. cbn [fst].
  destruct Hdm as [Hq Hr]. nia.
Qed.

(** Dividing by a positive finite number and multiplying by 100 keep
    the sign. *)
Lemma div_signOf (x : number) (m : positive) (e : Z) :
  signOf (div x (S754_finite false m e)) = signOf x.
Proof.
  unfold div. destruct x as [s|s| |s mx ex]; cbn [SFdiv signOf xorb];
    rewrite ?xorb_false_r; try reflexivity.
  pose proof (div_core_nonneg mx m ex e) as Hq.
  destruct (SFdiv_core_binary prec emax (Z.pos mx) ex (Z.pos m) e)
    as [[q e'] l]. cbn [fst] in Hq.
  apply binary_round_aux_signOf. exact Hq.
Qed.

Lemma mul_hundred_signOf (x : number) :
  signOf (mul x (ofZ 100)) = signOf x.
Proof.
  assert (H100 : exists m e, ofZ 100 = S754_finite false m e)
    by (eexists _, _; vm_compute; reflexivity).
  destruct H100 as (m & e & ->).
  unfold mul. destruct x as [s|s| |s mx ex]; cbn [SFmul signOf xorb];
    rewrite ?xorb_false_r; try reflexivity.
  apply binary_round_aux_signOf. lia.
Qed.

End Signs.

Lemma formatChangePercent_sign (x : number) :
  startsWith (match signOf x with Some true => js "-" | _ => js "+" end)
             (formatChangePercent (VNum x)) = true.
Proof.
  unfold formatChangePercent. cbn [isBlank toNumber]. unfold format.
  cbn [signDisplayAlways style].
  destruct x as [[]|[]| |[] m e]; cbn [signOf]; rewrite <- ?app_assoc;
    apply startsWith_app.
Qed.

Lemma changePercent_signOf (currentPrice : number) (m : positive) (e : Z) :
  signOf (changePercent (VNum currentPrice) (VNum (S754_finite false m e)))
  = signOf (sub currentPrice (S754_finite false m e)).
Proof.
  unfold changePercent. cbn [toNumber].
  rewrite mul_hundred_signOf, div_signOf. reflexivity.
Qed.

(** X16.  The sign of a quote of Yahoo is right.  For a previous close
    that is a positive finite number, the change written from
    (current - previous) / previous * 100 starts with a plus sign when the
    current price is above the previous close and with a minus sign when
    it is below, however small the difference and also when the quotient
    underflows or overflows; when the two are equal it is +0.00%. *)
Theorem change_sign (currentPrice previousClose : number) :
  wellFormed currentPrice -> wellFormed previousClose ->
  isFinite previousClose = true -> ltb zero previousClose = true ->
  let shown :=
    formatChangePercent
      (VNum (changePercent (VNum currentPrice) (VNum previousClose))) in
  (ltb previousClose currentPrice = true -> startsWith (js "+") shown = true)
  /\ (ltb currentPrice previousClose = true ->
      startsWith (js "-") shown = true)
  /\ (currentPrice = previousClose -> shown = js "+0.00%").
Proof.
  intros Hc Hp Hfin Hpos shown. subst shown.
  destruct previousClose as [s|s| |s m e]; try discriminate Hfin;
    try (destruct s; discriminate Hpos).
  destruct s; [discriminate Hpos|].
  pose proof (formatChangePercent_sign
                (changePercent (VNum currentPrice)
                               (VNum (S754_finite false m e)))) as Hsign.
  rewrite changePercent_signOf in Hsign.
  split; [|split].
  - intros Hlt. rewrite <- (sub_sign _ _ Hp Hc) in Hlt.
    destruct (sub currentPrice (S754_finite false m e)) as [[]|[]| |[] m' e'];
      try discriminate Hlt; exact Hsign.
  - intros Hlt. rewrite <- (sub_negative _ _ Hp Hc) in Hlt.
    destruct (sub currentPrice (S754_finite false m e)) as [[]|[]| |[] m' e'];
      try discriminate Hlt; exact Hsign.
  - intros ->. unfold changePercent. cbn [toNumber].
    assert (Hsub : sub (S754_finite false m e) (S754_finite false m e) = zero).
    { unfold sub. cbn [SFsub]. rewrite Z.sub_diag. reflexivity. }
    rewrite Hsub. reflexivity.
Qed.

Lemma change_sign_witness :
  startsWith (js "-")
    (formatChangePercent
       (VNum (changePercent (VNum (ofZ 99)) (VNum (ofZ 100))))) = true.
Proof.
  apply (change_sign (ofZ 99) (ofZ 100)); reflexivity.
Defined.

(** ** Reading a written change back *)

Lemma formatChangePercent_not_NA (x : number) :
  formatChangePercent (VNum x) <> NA.
Proof.
  unfold formatChangePercent. cbn [isBlank]. intros H.
  apply (f_equal (@rev N)) in H. rewrite rev_app_distr in H.
  change (rev (js "%")) with [37%N] in H.
  change (rev NA) with [65; 47; 78]%N in H.
  discriminate H.
Qed.

Lemma scanDigits_digits (ds rest : jsstring) :
  forallb isDigit ds = true ->
  match rest with c :: _ => isDigit c = false | [] => True end ->
  forall acc cnt,
    scanDigits acc cnt (ds ++ rest)
    = (digitsValue acc ds, (cnt + length ds)%nat, rest).
Proof.
  intros Hds Hrest.
  induction ds as [|d ds IH]; intros acc cnt.
  - cbn [app length digitsValue fold_left]. rewrite Nat.add_0_r.
    destruct rest as [|c rest]; [reflexivity|].
    cbn [scanDigits]. rewrite Hrest. reflexivity.
  - cbn [forallb] in Hds. apply andb_true_iff in Hds as [Hd Hds].
    cbn [app scanDigits]. rewrite Hd, (IH Hds).
    cbn [length]. rewrite Nat.add_succ_r. reflexivity.
Qed.

Lemma replace_trailing_percent (s : jsstring) :
  ~ In 37%N s -> replace (js "%") [] (s ++ js "%") = s.
Proof.
  induction s as [|c s IH]; intros Hnot; [reflexivity|].
  cbn [In] in Hnot. cbn [app replace].
  change (startsWith (js "%") (c :: s ++ js "%")) with ((37 =? c)%N && true).
  destruct (N.eqb_spec 37 c) as [Heq|_]; [symmetry in Heq; tauto|].
  cbn [andb]. rewrite IH by tauto. reflexivity.
Qed.

Lemma digits_no_char (c : N) (ds : jsstring) :
  isDigit c = false -> forallb isDigit ds = true -> ~ In c ds.
Proof.
  intros Hc Hds Hin. rewrite forallb_forall in Hds.
  rewrite (Hds c Hin) in Hc. discriminate Hc.
Qed.

Lemma padded_two_value (n : N) :
  (n < 100)%N ->
  exists d1 d2,
    padded 2 n = [d1; d2] /\ isDigit d1 = true /\ isDigit d2 = true
    /\ forall a, digitsValue a [d1; d2] = (a * 100 + n)%N.
Proof.
  intros Hn.
  assert (Hk : exists k, (k < 100)%nat /\ n = N.of_nat k).
  { exists (N.to_nat n). split; lia. }
  destruct Hk as (k & Hk & ->). clear Hn.
  do 100 (destruct k as [|k];
          [eexists _, _; split; [vm_compute; reflexivity|];
           split; [reflexivity|]; split; [reflexivity|];
           intros a; unfold digitsValue; cbn [fold_left]; lia|]).
  lia.
Qed.

Lemma scan_two_decimals (negative : bool) (whole f : N) (d1 d2 : N) :
  isDigit d1 = true -> isDigit d2 = true ->
  (forall a, digitsValue a [d1; d2] = (a * 100 + f)%N) ->
  scanUnsignedDecimal negative (decimal whole ++ js "." ++ [d1; d2])
  = Some (ofDecimal negative (whole * 100 + f) (-2), []).
Proof.
  intros H1 H2 Hfrac.
  destruct (decimal_spec whole) as [Hds Hval].
  pose proof (decimal_nonempty whole) as Hne.
  unfold scanUnsignedDecimal.
  assert (Hinf : startsWith (js "Infinity")
                   (decimal whole ++ js "." ++ [d1; d2]) = false).
  { destruct (decimal whole) as [|w0 ws]; [contradiction|].
    cbn [forallb] in Hds. apply andb_true_iff in Hds as [Hw0 _].
    change (startsWith (js "Infinity") ((w0 :: ws) ++ js "." ++ [d1; d2]))
      with ((73 =? w0)%N
            && startsWith (js "nfinity") (ws ++ js "." ++ [d1; d2])).
    destruct (N.eqb_spec 73 w0) as [Heq|_]; [|reflexivity].
    rewrite <- Heq in Hw0. discriminate Hw0. }
  rewrite Hinf.
  rewrite (scanDigits_digits (decimal whole) (js "." ++ [d1; d2]) Hds)
    by reflexivity.
  rewrite Hval. change (js "." ++ [d1; d2]) with (46%N :: [d1; d2]).
  cbv beta iota. change (46 =? 46)%N with true. cbv beta iota.
  rewrite <- (app_nil_r [d1; d2]).
  rewrite (scanDigits_digits [d1; d2] [])
    by (cbn [forallb]; rewrite ?H1, ?H2; reflexivity).
  rewrite Hfrac. cbv beta iota.
  rewrite N.mul_0_l, N.add_0_l.
  destruct (0 + length (decimal whole))%nat; reflexivity.
Qed.

Lemma parse_two_decimals (negative : bool) (whole f : N) :
  (f < 100)%N ->
  parseFloat
    (replace (js "%") []
       ((if negative then js "-" else js "+") ++ decimal whole ++ js "."
          ++ padded 2 f ++ js "%"))
  = ofDecimal negative (whole * 100 + f) (-2).
Proof.
  intros Hf.
  destruct (padded_two_value f Hf) as (d1 & d2 & -> & H1 & H2 & Hfrac).
  destruct (decimal_spec whole) as [Hds _].
  assert (Hnot : forall sign,
             sign <> 37%N ->
             ~ In 37%N (sign :: decimal whole ++ js "." ++ [d1; d2])).
  { intros sign Hsign [H|Hin]; [contradiction|].
    apply in_app_or in Hin as [Hin|Hin];
      [exact (digits_no_char 37 _ eq_refl Hds Hin)|].
    destruct Hin as [H|[H|[H|[]]]]; try discriminate H.
    - rewrite H in H1. discriminate H1.
    - rewrite H in H2. discriminate H2. }
  pose proof (scan_two_decimals negative whole f d1 d2 H1 H2 Hfrac) as Hscan.
  destruct negative.
  - change (js "-" ++ decimal whole ++ js "." ++ [d1; d2] ++ js "%")
      with (45%N :: (decimal whole ++ js "." ++ [d1; d2] ++ js "%")).
    replace (45%N :: (decimal whole ++ js "." ++ [d1; d2] ++ js "%"))
      with ((45%N :: decimal whole ++ js "." ++ [d1; d2]) ++ js "%")
      by (cbn [app]; rewrite <- !app_assoc; reflexivity).
    rewrite (replace_trailing_percent _ (Hnot 45%N ltac:(discriminate))).
    unfold parseFloat. cbn [trimStart].
    change (isWhiteSpace 45) with false. cbv iota.
    cbn [scanDecimal]. change (45 =? 45)%N with true. cbv iota.
    rewrite Hscan. reflexivity.
  - change (js "+" ++ decimal whole ++ js "." ++ [d1; d2] ++ js "%")
      with (43%N :: (decimal whole ++ js "." ++ [d1; d2] ++ js "%")).
    replace (43%N :: (decimal whole ++ js "." ++ [d1; d2] ++ js "%"))
      with ((43%N :: decimal whole ++ js "." ++ [d1; d2]) ++ js "%")
      by (cbn [app]; rewrite <- !app_assoc; reflexivity).
    rewrite (replace_trailing_percent _ (Hnot 43%N ltac:(discriminate))).
    unfold parseFloat. cbn [trimStart].
    change (isWhiteSpace 43) with false. cbv iota.
    cbn [scanDecimal]. change (43 =? 45)%N with false.
    change (43 =? 43)%N with true. cbv iota.
    rewrite Hscan. reflexivity.
Qed.

Lemma groupDigits_plain (fuel : nat) (ds : jsstring) :
  ~ In 44%N (groupDigits fuel ds) -> groupDigits fuel ds = ds.
Proof.
  destruct fuel as [|fuel]; cbn [groupDigits]; [reflexivity|].
  destruct (length ds <=? 3)%nat; [reflexivity|].
  intros Hnot. exfalso. apply Hnot.
  apply in_or_app. right. apply in_or_app. left. left. reflexivity.
Qed.

Lemma formatMagnitude_hundredths (always : bool) (num den : Z) :
  exists h,
    formatMagnitude {| style := Decimal; minimumFractionDigits := 2;
                       maximumFractionDigits := 2;
                       signDisplayAlways := always |} num den
    = groupDigits (length (decimal (h / 100))) (decimal (h / 100))
        ++ js "." ++ padded 2 (h mod 100).
Proof.
  unfold formatMagnitude.
  cbn [minimumFractionDigits maximumFractionDigits].
  change (10 ^ N.of_nat 2)%N with 100%N.
  set (h := Z.to_N ((2 * Z.of_N 100 * num + den) / (2 * den))%Z).
  exists h.
  destruct (padded_two (h mod 100)%N) as (d1 & d2 & -> & _).
  { apply N.mod_lt. discriminate. }
  reflexivity.
Qed.

Lemma formatChangePercent_hundredths (x : number) :
  isFinite x = true ->
  ~ In 44%N (formatChangePercent (VNum x)) ->
  exists negative h, formatChangePercent (VNum x) = hundredths negative h.
Proof.
  intros Hfin. unfold formatChangePercent. cbn [isBlank toNumber].
  unfold format. cbn [style signDisplayAlways].
  assert (Hshape : forall (s : bool) (num den : Z),
             ~ In 44%N
                 (((if s then js "-" else js "+") ++ []
                   ++ formatMagnitude
                        {| style := Decimal; minimumFractionDigits := 2;
                           maximumFractionDigits := 2;
                           signDisplayAlways := true |} num den ++ [])
                  ++ js "%") ->
             exists negative h,
               ((if s then js "-" else js "+") ++ []
                ++ formatMagnitude
                     {| style := Decimal; minimumFractionDigits := 2;
                        maximumFractionDigits := 2;
                        signDisplayAlways := true |} num den ++ [])
               ++ js "%" = hundredths negative h).
  { intros s num den Hnot.
    destruct (formatMagnitude_hundredths true num den) as (h & Hh).
    rewrite Hh in *. exists s, h. unfold hundredths.
    rewrite groupDigits_plain.
    - cbn [app]. rewrite app_nil_r, <- !app_assoc. reflexivity.
    - intros Hin. apply Hnot.
      apply in_or_app. left. apply in_or_app. right.
      cbn [app]. apply in_or_app. left. apply in_or_app. left. exact Hin. }
  destruct x as [s|s| |s m e]; try discriminate Hfin.
  - apply Hshape.
  - destruct (shortestDecimal m e) as [d e10].
    destruct (scale10 (N.succ_pos (N.pred d)) 1 e10) as [num den].
    apply Hshape.
Qed.

Lemma hundredths_read_back (negative : bool) (h : N) :
  parseFloat (replace (js "%") [] (hundredths negative h))
  = ofDecimal negative h (-2).
Proof.
  unfold hundredths.
  rewrite parse_two_decimals by (apply N.mod_lt; discriminate).
  f_equal. pose proof (N.div_mod h 100 ltac:(discriminate)). lia.
Qed.

(** X17.  The change that enters a contribution is the change on
    display.  When the quote of a row is a finite change written by
    [formatChangePercent] without a separator of thousands, the decimal
    change that [enrich] reads back from the string is exactly the
    number of hundredths that the string shows, divided by 100.  With a
    separator (a change of a thousand percent or more) only the digits
    before the first comma are read: +1,234.50% is read as 1. *)
Theorem change_read_back :
  (forall (prices : gmap jsstring jsstring) (row : Row) (x : number),
     let shown := formatChangePercent (VNum x) in
     prices !! toString (TICKER row) = Some shown ->
     isFinite x = true -> ~ In 44%N shown ->
     exists negative h,
       shown = hundredths negative h
       /\ dailyChangePct (enrich prices row)
          = div (ofDecimal negative h (-2)) (ofZ 100))
  /\ (let shown := formatChangePercent (VNum (ofDecimal false 12345 (-1))) in
      shown = js "+1,234.50%"
      /\ parseFloat (replace (js "%") [] shown) = ofZ 1).
Proof.
  split.
  - intros prices row x shown Hquote Hfin Hplain. subst shown.
    destruct (formatChangePercent_hundredths x Hfin Hplain)
      as (negative & h & Hshown).
    exists negative, h. split; [exact Hshown|].
    destruct (enrich_quoted prices row _ Hquote) as [-> _].
    + unfold formatChangePercent. cbn [isBlank]. intros H.
      apply app_eq_nil in H as [_ H]. discriminate H.
    + apply formatChangePercent_not_NA.
    + rewrite Hshown, hundredths_read_back. reflexivity.
  - split; vm_compute; reflexivity.
Qed.

Lemma change_read_back_witness :
  dailyChangePct
    (enrich (<[js "CLZ5" := formatChangePercent (VNum (ofDecimal true 54 (-2)))]> ∅)
            (holding "CLZ5" (ofDecimal false 10 (-2))))
  = div (ofDecimal true 54 (-2)) (ofZ 100).
Proof.
  destruct change_read_back as [Hread _].
  destruct (Hread (<[js "CLZ5" := formatChangePercent
                                   (VNum (ofDecimal true 54 (-2)))]> ∅)
                  (holding "CLZ5" (ofDecimal false 10 (-2)))
                  (ofDecimal true 54 (-2)))
    as (negative & h & Hshown & Hpct).
  - vm_compute. reflexivity.
  - reflexivity.
  - vm_compute. intros H. repeat destruct H as [H|H]; try discriminate H.
    exact H.
  - vm_compute. reflexivity.
Defined.

(** ** Contributions from written changes

    The rule of contributions, stated here because it rests on the
    reading of written changes above. *)

Lemma withoutSeparators_plain (s : jsstring) :
  ~ In 44%N s -> withoutSeparators s = s.
Proof.
  unfold withoutSeparators.
  induction s as [|c s IH]; intros Hno; [reflexivity|].
  cbn [List.filter]. destruct (N.eqb_spec c 44) as [->|_].
  - exfalso. apply Hno. left. reflexivity.
  - cbn [negb]. f_equal. apply IH. intros H. apply Hno. right. exact H.
Qed.

Lemma hundredths_plain (negative : bool) (h : N) :
  ~ In 44%N (hundredths negative h).
Proof.
  unfold hundredths. intros Hin.
  destruct (decimal_spec (h / 100)) as [Hds _].
  destruct (padded_two (h mod 100)) as (d1 & d2 & Hp & H1 & H2).
  { apply N.mod_lt. discriminate. }
  rewrite Hp in Hin.
  apply in_app_or in Hin as [Hin|Hin].
  { destruct negative; destruct Hin as [Hin|[]]; discriminate Hin. }
  apply in_app_or in Hin as [Hin|Hin].
  { revert Hin. apply digits_no_char; [reflexivity|exact Hds]. }
  destruct Hin as [Hin|[Hin|[Hin|[Hin|[]]]]]; try discriminate Hin.
  - subst d1. discriminate H1.
  - subst d2. discriminate H2.
Qed.

Lemma hundredths_quote (negative : bool) (h : N) :
  hundredths negative h <> [] /\ hundredths negative h <> NA.
Proof.
  unfold hundredths. destruct negative; split; discriminate.
Qed.

(** C1, as stated, fails on a change of a thousand percent or more.  A
    price of 1334.5 against a previous close of 100 is written +1,234.50%
    by [formatChangePercent]; the numeric portion of that string is
    1234.5, but the worker reads the digits in front of the separator
    only: the decimal change of the row is 1 / 100 and not 1234.5 / 100,
    and the contribution of a weight of 0.10 is 0.001, not the weight
    times 12.345. *)
Lemma contribution_rule_counterexample :
  let row := holding "CLZ5" (ofDecimal false 10 (-2)) in
  let quote :=
    formatChangePercent
      (VNum (changePercent (VNum (ofDecimal false 13345 (-1)))
                           (VNum (ofZ 100)))) in
  let item := enrich (<[js "CLZ5" := quote]> ∅) row in
  quote = js "+1,234.50%"
  /\ specNumericPortion quote = ofDecimal false 12345 (-1)
  /\ dailyChangePct item = div (ofZ 1) (ofZ 100)
  /\ dailyChangePct item <> div (specNumericPortion quote) (ofZ 100)
  /\ contribution item = ofDecimal false 1 (-3)
  /\ contribution item
     <> mul (toNumber (PCT_HOLDINGS row))
            (div (specNumericPortion quote) (ofZ 100)).
Proof.
  cbv zeta. split; [vm_compute; reflexivity|].
  split; [vm_compute; reflexivity|].
  split; [vm_compute; reflexivity|].
  split; [vm_compute; discriminate|].
  split; [vm_compute; reflexivity|].
  vm_compute. discriminate.
Qed.

(** C1, on the quotes that the worker reads in full.  For every holding
    row whose ticker is not __proto__: when its percent-change string is
    N/A or absent (no entry under the ticker, or an empty string) the
    contribution and the decimal change are exactly 0.  When the string is
    a change written with its sign and two decimals and without a
    separator of thousands, as is every finite change that
    [formatChangePercent] writes without a comma, the numeric portion of
    the string is the number of hundredths that it shows, the decimal
    change is that number divided by 100 and the contribution is
    holdingsPct times that decimal change.  For any other string the
    decimal change is what [parseFloat] reads of the string without its
    first percent sign, divided by 100. *)
Theorem contribution_rule (prices : gmap jsstring jsstring) (row : Row) :
  let quote := prices !! toString (TICKER row) in
  let item := enrich prices row in
  toString (TICKER row) <> protoKey ->
  ((quote = None \/ quote = Some [] \/ quote = Some NA) ->
   contribution item = zero /\ dailyChangePct item = zero)
  /\ (forall negative h,
        quote = Some (hundredths negative h) ->
        specNumericPortion (hundredths negative h) = ofDecimal negative h (-2)
        /\ dailyChangePct item = div (ofDecimal negative h (-2)) (ofZ 100)
        /\ contribution item
           = mul (toNumber (PCT_HOLDINGS row))
                 (div (ofDecimal negative h (-2)) (ofZ 100)))
  /\ (forall x,
        quote = Some (formatChangePercent (VNum x)) ->
        isFinite x = true -> ~ In 44%N (formatChangePercent (VNum x)) ->
        dailyChangePct item
        = div (specNumericPortion (formatChangePercent (VNum x))) (ofZ 100)
        /\ contribution item
           = mul (toNumber (PCT_HOLDINGS row))
                 (div (specNumericPortion (formatChangePercent (VNum x)))
                      (ofZ 100)))
  /\ (forall str,
        quote = Some str -> str <> [] -> str <> NA ->
        dailyChangePct item
          = div (parseFloat (replace (js "%") [] str)) (ofZ 100)
        /\ contribution item
          = mul (toNumber (PCT_HOLDINGS row)) (dailyChangePct item)).
Proof.
  intros quote item _. subst quote item.
  assert (Hread : forall negative h,
            prices !! toString (TICKER row) = Some (hundredths negative h) ->
            specNumericPortion (hundredths negative h)
            = ofDecimal negative h (-2)
            /\ dailyChangePct (enrich prices row)
               = div (ofDecimal negative h (-2)) (ofZ 100)
            /\ contribution (enrich prices row)
               = mul (toNumber (PCT_HOLDINGS row))
                     (div (ofDecimal negative h (-2)) (ofZ 100))).
  { intros negative h Hquote.
    destruct (hundredths_quote negative h) as [Hne Hna].
    destruct (enrich_quoted prices row _ Hquote Hne Hna) as [Hpct Hc].
    rewrite hundredths_read_back in Hpct.
    split; [|split].
    - unfold specNumericPortion.
      rewrite (withoutSeparators_plain _ (hundredths_plain negative h)).
      apply hundredths_read_back.
    - exact Hpct.
    - rewrite Hc, Hpct. reflexivity. }
  split; [exact (enrich_unquoted prices row)|].
  split; [exact Hread|].
  split; [|exact (enrich_quoted prices row)].
  intros x Hquote Hfin Hplain.
  destruct (formatChangePercent_hundredths x Hfin Hplain)
    as (negative & h & Hshown).
  rewrite Hshown in Hquote |- *.
  destruct (Hread negative h Hquote) as (-> & -> & ->).
  split; reflexivity.
Qed.

Lemma contribution_rule_witness :
  contribution
    (enrich examplePrices (holding "CLZ5" (ofDecimal false 10 (-2))))
  = ofDecimal false 2 (-3)
  /\ contribution
       (enrich examplePrices (holding "XYZ" (ofDecimal false 5 (-2))))
     = zero.
Proof.
  split.
  - destruct (contribution_rule examplePrices
                (holding "CLZ5" (ofDecimal false 10 (-2))))
      as (_ & H & _); [vm_compute; discriminate|].
    destruct (H false 200%N) as (_ & _ & Hc); [reflexivity|].
    rewrite Hc. vm_compute. reflexivity.
  - destruct (contribution_rule examplePrices
                (holding "XYZ" (ofDecimal false 5 (-2)))) as [H _];
      [vm_compute; discriminate|].
    apply H. right. right. reflexivity.
Defined.

(** ** Holdings in order *)

Lemma sortByContribution_sorted (items : list Enriched) :
  Forall comparable items -> nonIncreasing items ->
  sortByContribution items = items.
Proof.
  intros Hall Hsorted.
  pose proof (arraySort_perm byContribution items) as Hperm.
  fold (sortByContribution items) in Hperm.
  apply nonIncreasing_stable_unique.
  - apply (Permutation_Forall (Permutation_sym Hperm)). exact Hall.
  - exact Hall.
  - apply sortByContribution_nonIncreasing. exact Hall.
  - exact Hsorted.
  - apply sortByContribution_stable.
    eapply List.Forall_impl; [|exact Hall]. intros x [Hw _]. exact Hw.
Qed.

(** X18.  Sorting leaves alone what is in order: a list of holdings whose
    contributions are numbers other than NaN and already non-increasing
    comes back unchanged, and sorting twice is sorting once. *)
Theorem sorted_is_kept (items : list Enriched) :
  Forall comparable items ->
  (nonIncreasing items -> sortByContribution items = items)
  /\ sortByContribution (sortByContribution items) = sortByContribution items.
Proof.
  intros Hall. split; [apply sortByContribution_sorted; exact Hall|].
  pose proof (arraySort_perm byContribution items) as Hperm.
  fold (sortByContribution items) in Hperm.
  apply sortByContribution_sorted.
  - apply (Permutation_Forall (Permutation_sym Hperm)). exact Hall.
  - apply sortByContribution_nonIncreasing. exact Hall.
Qed.

Lemma sorted_is_kept_witness :
  sortByContribution (sortByContribution exampleItems)
  = sortByContribution exampleItems.
Proof.
  apply (sorted_is_kept exampleItems).
  repeat constructor; vm_compute; reflexivity.
Defined.




(** ** The cells of the table *)

Ltac streq_closed :=
  repeat match goal with
         | |- context [streq (js ?a) (js ?b)] =>
             let v := eval vm_compute in (streq (js a) (js b)) in
             replace (streq (js a) (js b)) with v by (vm_compute; reflexivity)
         end.

Lemma formatItem_columns (item : Enriched) :
  List.map fst (formatItem item) = columns.
Proof. reflexivity. Qed.





(** ** The rows of the table *)

Lemma includes_elim (p s : jsstring) :
  includes p s = true -> exists before after, s = before ++ p ++ after.
Proof.
  induction s as [|c s IH]; rewrite includes_unfold; intros H.
  - rewrite orb_false_r in H. destruct (startsWith_elim p [] H) as (rest & Hr).
    exists [], rest. exact Hr.
  - apply orb_true_iff in H as [H|H].
    + destruct (startsWith_elim p (c :: s) H) as (rest & Hr).
      exists [], rest. exact Hr.
    + destruct (IH H) as (before & after & ->).
      exists (c :: before), after. reflexivity.
Qed.

Lemma includes_within (p a s b : jsstring) :
  includes p s = true -> includes p (a ++ s ++ b) = true.
Proof.
  intros H. destruct (includes_elim p s H) as (before & after & ->).
  rewrite <- !app_assoc. rewrite app_assoc. apply includes_app.
Qed.

Lemma includes_skip (p a s : jsstring) :
  includes p s = true -> includes p (a ++ s) = true.
Proof.
  intros H. rewrite <- (app_nil_r s). apply includes_within. exact H.
Qed.

Lemma includes_front (p s b : jsstring) :
  includes p s = true -> includes p (s ++ b) = true.
Proof. intros H. apply (includes_within p [] s b). exact H. Qed.

Lemma includes_refl (p : jsstring) : includes p p = true.
Proof.
  rewrite <- (app_nil_r p) at 2. apply (includes_app [] p []).
Qed.

Lemma includes_concat (p s : jsstring) (l : list jsstring) :
  In s l -> includes p s = true -> includes p (concat l) = true.
Proof.
  intros Hin Hp. apply in_split in Hin as (l1 & l2 & ->).
  rewrite concat_app. cbn [concat]. apply includes_within. exact Hp.
Qed.

Lemma combine_map_self {A B} (f : A -> B) (l : list A) :
  combine (List.map f l) l = List.map (fun x => (f x, x)) l.
Proof.
  induction l as [|x l IH]; [reflexivity|]. cbn. rewrite IH. reflexivity.
Qed.

Lemma totalRow_cells (total : number) :
  js "<tr class=" ++ quoted (js "total-row") ++ js ">" ++ nl
    ++ concat (imap (totalCell total) columns) ++ js "</tr>" ++ nl
  = totalRow total.
Proof.
  unfold totalRow, columns. cbn [imap concat repeat].
  unfold totalCell. cbn [Nat.eqb compose]. streq_closed.
  cbn [app concat]. rewrite <- !app_assoc. reflexivity.
Qed.

Lemma table_shape (items : list Enriched) (total : number) :
  items <> [] ->
  buildColorCodedTable (formattedData items) items total
  = tableHead
      ++ concat (List.map (fun item => dataRow columns (formatItem item) item)
                          items)
      ++ totalRow total ++ js "</tbody>" ++ nl ++ js "</table>".
Proof.
  intros Hne. destruct items as [|first rest]; [contradiction|].
  unfold buildColorCodedTable, formattedData.
  rewrite combine_map_self. cbn [List.map].
  rewrite !formatItem_columns, List.map_map. cbv beta iota.
  rewrite <- totalRow_cells. unfold tableHead, tableHeadOf.
  rewrite <- !app_assoc. reflexivity.
Qed.

(** X21.  For a list of holdings that is not empty, the table built from
    their formatted rows is the head with the seven columns, one row per
    holding in the order of the list, each over the seven columns and
    coloured by the holding's own weight, then the total row and the
    closing tags. *)
Theorem table_layout (items : list Enriched) (total : number) :
  items <> [] ->
  buildColorCodedTable (formattedData items) items total
  = tableHead
      ++ concat (List.map (fun item => dataRow columns (formatItem item) item)
                          items)
      ++ totalRow total ++ js "</tbody>" ++ nl ++ js "</table>".
Proof. exact (table_shape items total). Qed.

Lemma table_layout_witness :
  exists rows,
    buildColorCodedTable (formattedData exampleItems) exampleItems zero
    = tableHead ++ rows ++ totalRow zero ++ js "</tbody>" ++ nl
        ++ js "</table>".
Proof.
  eexists. apply (table_layout exampleItems zero).
  unfold exampleItems, dataWithContributions. cbn [List.map]. discriminate.
Defined.

Lemma dataCell_text (item : Enriched) :
  dataCell (formatItem item) (js "CUSIP") = textCell (CUSIP (original item))
  /\ dataCell (formatItem item) (js "Ticker")
     = textCell (TICKER (original item))
  /\ dataCell (formatItem item) (js "Description")
     = textCell (DESCRIPTION (original item)).
Proof.
  unfold dataCell, textCell, formatItem. cbn [getField].
  streq_closed. cbn [orb andb app]. repeat split; reflexivity.
Qed.

Lemma dataRow_includes (item : Enriched) (header : jsstring) :
  In header columns ->
  includes (dataCell (formatItem item) header)
           (dataRow columns (formatItem item) item) = true.
Proof.
  intros Hin. unfold dataRow.
  do 4 apply includes_skip. apply includes_front.
  apply (includes_concat _ (dataCell (formatItem item) header)).
  - apply in_map. exact Hin.
  - apply includes_refl.
Qed.

Lemma table_includes_cell (items : list Enriched) (total : number)
    (item : Enriched) (header : jsstring) :
  In item items -> In header columns ->
  includes (dataCell (formatItem item) header)
           (buildColorCodedTable (formattedData items) items total) = true.
Proof.
  intros Hitem Hheader.
  rewrite table_shape by (intros ->; destruct Hitem).
  apply includes_within.
  apply (includes_concat _ (dataRow columns (formatItem item) item)).
  - apply (in_map (fun item => dataRow columns (formatItem item) item)).
    exact Hitem.
  - apply dataRow_includes. exact Hheader.
Qed.

Lemma renderPage_includes (htmlTable now cell : jsstring) :
  includes cell htmlTable = true ->
  includes cell (renderPage htmlTable now) = true.
Proof.
  intros H. rewrite renderPage_trimmed. apply includes_within. exact H.
Qed.

(** X22.  Every holding with a ticker is on the page.  When the
    spreadsheet is read (and no ticker has the string form __proto__), the
    body of the reply holds, for every row that passes the ticker filter,
    the cells of its ticker, its CUSIP and its description, whatever the
    quotes are; the text of the sheet stands in the cell as it is, markup
    included. *)
Theorem every_holding_listed (net : Network) (now : jsstring) (r : Response)
    (jsonData : list Row) :
  net 0%nat EXCEL_URL = Return r -> ok r = true ->
  sheet r = Return jsonData ->
  (forall row, In row jsonData -> toString (TICKER row) <> protoKey) ->
  exists reply tr,
    Eff.run (Worker.fetch net now) = (Return reply, tr)
    /\ forall row,
         In row jsonData -> hasTicker row = true ->
         includes (textCell (TICKER row)) (Worker.replyBody reply) = true
         /\ includes (textCell (CUSIP row)) (Worker.replyBody reply) = true
         /\ includes (textCell (DESCRIPTION row)) (Worker.replyBody reply)
            = true.
Proof.
  intros Hnet Hok Hsheet _.
  unfold Eff.run, Worker.fetch, tryCatch, Worker.respond.
  unfold bind at 1. rewrite (fetch_excel net r Hnet), Hok. cbn [negb].
  unfold bind at 1. unfold read. rewrite Hsheet. unfold bind at 1.
  destruct (fetchTickerPrices_total net
              (List.map TICKER (filteredData jsonData))
              ([EvFetch EXCEL_URL] ++ [EvParseSheet]))
    as (prices & tr' & -> & _).
  eexists _, tr'. split; [reflexivity|].
  intros row Hin Hkeep. cbn [Worker.replyBody].
  set (items := sortByContribution
                  (dataWithContributions prices (filteredData jsonData))).
  assert (Hitem : In (enrich prices row) items).
  { subst items.
    apply (Permutation_in _
             (Permutation_sym (arraySort_perm byContribution _))).
    unfold dataWithContributions. apply in_map.
    unfold filteredData. apply filter_In. split; assumption. }
  assert (Horig : original (enrich prices row) = row).
  { unfold enrich. destruct (prices !! toString (TICKER row)) as [str|];
      [destruct (hasQuote (Some str))|]; reflexivity. }
  pose proof (dataCell_text (enrich prices row)) as Hcells.
  rewrite Horig in Hcells. destruct Hcells as (<- & <- & <-).
  repeat split; apply renderPage_includes, table_includes_cell;
    try exact Hitem; unfold columns; cbn [In]; tauto.
Qed.

Lemma every_holding_listed_witness :
  exists reply tr,
    Eff.run (Worker.fetch quotesDown (js "now")) = (Return reply, tr)
    /\ includes (js "<td>CLZ5</td>") (Worker.replyBody reply) = true.
Proof.
  destruct (every_holding_listed quotesDown (js "now") oneHolding
              [holding "CLZ5" (ofDecimal false 10 (-2))]
              eq_refl eq_refl eq_refl) as (reply & tr & Hrun & Hrows).
  { intros row [<-|[]]. discriminate. }
  exists reply, tr. split; [exact Hrun|].
  destruct (Hrows (holding "CLZ5" (ofDecimal false 10 (-2))))
    as (Hticker & _); [left; reflexivity|reflexivity|].
  destruct (includes_elim _ _ Hticker) as (before & after & ->).
  change (textCell (TICKER (holding "CLZ5" (ofDecimal false 10 (-2)))))
    with (js "<td>CLZ5</td>" ++ nl).
  rewrite <- app_assoc. apply includes_app.
Defined.

(** ** The table of the earlier revision *)

Lemma legacy_table_shape (rows : list Row) :
  rows <> [] ->
  Legacy.buildColorCodedTable (Legacy.formattedData rows) rows
  = tableHeadOf legacyColumns
      ++ concat (List.map (fun row =>
                             Legacy.dataRow legacyColumns
                                            (Legacy.formatRow row) row)
                          rows)
      ++ js "</tbody>" ++ nl ++ js "</table>".
Proof.
  intros Hne. destruct rows as [|first rest]; [contradiction|].
  unfold Legacy.buildColorCodedTable, Legacy.formattedData.
  rewrite combine_map_self. cbn [List.map].
  change (List.map fst (Legacy.formatRow first)) with legacyColumns.
  rewrite List.map_map. cbv beta iota. unfold tableHeadOf.
  rewrite <- !app_assoc. reflexivity.
Qed.

Lemma legacy_dataRow_includes (row : Row) (header : jsstring) :
  In header legacyColumns ->
  includes (plainCell (toString (getField (Legacy.formatRow row) header)))
           (Legacy.dataRow legacyColumns (Legacy.formatRow row) row) = true.
Proof.
  intros Hin. unfold Legacy.dataRow.
  do 4 apply includes_skip. apply includes_front.
  apply (includes_concat _
           (plainCell (toString (getField (Legacy.formatRow row) header)))).
  - apply (in_map (fun header =>
                     js "<td>"
                       ++ toString (getField (Legacy.formatRow row) header)
                       ++ js "</td>" ++ nl)).
    exact Hin.
  - apply includes_refl.
Qed.

Lemma legacy_cells (row : Row) :
  toString (getField (Legacy.formatRow row) (js "Ticker"))
  = toString (JsValue.or (TICKER row) (VStr []))
  /\ toString (getField (Legacy.formatRow row) (js "Shares"))
     = formatNumber (SHARES row)
  /\ toString (getField (Legacy.formatRow row) (js "Market Value"))
     = formatCurrency (BASE_MV row)
  /\ toString (getField (Legacy.formatRow row) (js "Holdings %"))
     = formatPercent (PCT_HOLDINGS row).
Proof.
  unfold Legacy.formatRow. cbn [getField]. streq_closed.
  repeat split; reflexivity.
Qed.

Lemma legacy_renderPage_includes (htmlTable now cell : jsstring) :
  includes cell htmlTable = true ->
  includes cell (Legacy.renderPage htmlTable now) = true.
Proof.
  intros H. rewrite legacy_renderPage_trimmed. apply includes_within.
  exact H.
Qed.

(** X23.  In the earlier revision, when the spreadsheet is read and the
    shares, market values and weights of its holdings are numbers or
    blank (not texts), the table lists the holdings with a ticker in the
    order of the sheet, over the columns Date, CUSIP, Ticker, Description,
    Shares, Market Value and Holdings %.  The page holds the cell of the
    ticker of each of them and, for a holding whose three cells are not
    texts, the cells of its shares written by [formatNumber], of its
    market value written by [formatCurrency] and of its weight written by
    [formatPercent]. *)
Theorem legacy_holdings_listed (net : Network) (now : jsstring)
    (r : Response) (jsonData : list Row) :
  net 0%nat EXCEL_URL = Return r -> ok r = true ->
  sheet r = Return jsonData ->
  exists reply,
    Eff.run (Legacy.fetch net now)
    = (Return reply, [EvFetch EXCEL_URL; EvParseSheet])
    /\ (filteredData jsonData <> [] ->
        (forall row, In row (filteredData jsonData) -> numericCells row) ->
        exists before after,
          Worker.replyBody reply
          = before
              ++ tableHeadOf legacyColumns
              ++ concat (List.map (fun row =>
                                     Legacy.dataRow legacyColumns
                                       (Legacy.formatRow row) row)
                                  (filteredData jsonData))
              ++ js "</tbody>" ++ nl ++ js "</table>" ++ after)
    /\ forall row,
         In row jsonData -> hasTicker row = true ->
         includes (textCell (TICKER row)) (Worker.replyBody reply) = true
         /\ (numericCells row ->
             includes (plainCell (formatNumber (SHARES row)))
                      (Worker.replyBody reply) = true
             /\ includes (plainCell (formatCurrency (BASE_MV row)))
                         (Worker.replyBody reply) = true
             /\ includes (plainCell (formatPercent (PCT_HOLDINGS row)))
                         (Worker.replyBody reply) = true).
Proof.
  intros Hnet Hok Hsheet.
  unfold Eff.run, Legacy.fetch, tryCatch, Legacy.respond, bind.
  rewrite (fetch_excel net r Hnet), Hok. cbn [negb].
  unfold read. rewrite Hsheet.
  eexists. split; [reflexivity|]. cbn [Worker.replyBody]. split.
  - intros Hne _.
    rewrite legacy_renderPage_trimmed, legacy_table_shape by exact Hne.
    exists (drop 1 Legacy.pageHead),
      (Legacy.pageMiddle ++ EXCEL_URL ++ Legacy.pageFooter ++ now
         ++ trimEnd Legacy.pageTail).
    rewrite <- !app_assoc. reflexivity.
  - intros row Hin Hkeep.
    assert (Hrow : In row (filteredData jsonData))
      by (unfold filteredData; apply filter_In; split; assumption).
    assert (Hcell : forall header,
               In header legacyColumns ->
               includes
                 (plainCell (toString (getField (Legacy.formatRow row) header)))
                 (Legacy.renderPage
                    (Legacy.buildColorCodedTable
                       (Legacy.formattedData (filteredData jsonData))
                       (filteredData jsonData)) now) = true).
    { intros header Hheader. apply legacy_renderPage_includes.
      rewrite legacy_table_shape by (intros Hnil; rewrite Hnil in Hrow;
                                     destruct Hrow).
      apply includes_within.
      apply (includes_concat _
               (Legacy.dataRow legacyColumns (Legacy.formatRow row) row)).
      - apply (in_map (fun row =>
                         Legacy.dataRow legacyColumns
                                        (Legacy.formatRow row) row)).
        exact Hrow.
      - apply legacy_dataRow_includes. exact Hheader. }
    destruct (legacy_cells row) as (H1 & H2 & H3 & H4).
    unfold textCell. fold (plainCell (toString (JsValue.or (TICKER row) (VStr [])))).
    rewrite <- H1, <- H2, <- H3, <- H4.
    split; [|intros _; split; [|split]];
      apply Hcell; unfold legacyColumns; cbn [In]; tauto.
Qed.

Lemma legacy_holdings_listed_witness :
  exists reply,
    fst (Eff.run (Legacy.fetch (fun _ _ => Return oneHolding) (js "now")))
    = Return reply
    /\ includes (js "<td>CLZ5</td>") (Worker.replyBody reply) = true
    /\ includes (js "<td>10.00%</td>") (Worker.replyBody reply) = true.
Proof.
  destruct (legacy_holdings_listed (fun _ _ => Return oneHolding) (js "now")
              oneHolding [holding "CLZ5" (ofDecimal false 10 (-2))]
              eq_refl eq_refl eq_refl) as (reply & Hrun & _ & Hrows).
  exists reply. rewrite Hrun. split; [reflexivity|].
  destruct (Hrows (holding "CLZ5" (ofDecimal false 10 (-2))))
    as (Hticker & Hcells); [left; reflexivity|reflexivity|].
  destruct Hcells as (_ & _ & Hpct); [repeat split|].
  destruct (includes_elim _ _ Hticker) as (before & after & Hbody).
  destruct (includes_elim _ _ Hpct) as (before' & after' & Hbody').
  split.
  - rewrite Hbody.
    change (textCell (TICKER (holding "CLZ5" (ofDecimal false 10 (-2)))))
      with (js "<td>CLZ5</td>" ++ nl).
    rewrite <- app_assoc. apply includes_app.
  - rewrite Hbody'.
    replace (plainCell
               (formatPercent
                  (PCT_HOLDINGS (holding "CLZ5" (ofDecimal false 10 (-2))))))
      with (js "<td>10.00%</td>" ++ nl) by (vm_compute; reflexivity).
    rewrite <- app_assoc. apply includes_app.
Defined.

(** ** The colours of the changes *)

Section Hundredths.

Local Open Scope Z_scope.

(** A positive number of hundredths is not rounded to zero. *)
Lemma ofRatio_hundred_signed (negative : bool) (p : positive) :
  signed negative (ofRatio negative p 100).
Proof.
  unfold ofRatio, SFdiv_core_binary. cbn [Zdigits2].
  change (Z.pos (digits2_pos 100)) with 7.
  pose proof (digits2_bounds p) as [Hlo _].
  set (d1 := Z.pos (digits2_pos p)) in *.
  assert (Hd1 : 1 <= d1) by (subst d1; lia).
  set (e' := Z.min (fexp prec emax (d1 + 0 - (7 + 0))) (0 - 0)).
  assert (He' : e' = Z.min (d1 - 60) 0).
  { subst e'. unfold fexp, emin, prec, emax. lia. }
  set (sh := 0 - 0 - e').
  assert (Hsh : sh = Z.max (60 - d1) 0) by (subst sh; lia).
  set (m' := match sh with
             | 0 => Z.pos p
             | Z.pos _ => Z.shiftl (Z.pos p) sh
             | Z.neg _ => 0
             end).
  assert (Hm' : m' = Z.pos p * 2 ^ sh).
  { subst m'. destruct sh as [|n|n] eqn:Hn; try lia.
    rewrite Z.shiftl_mul_pow2 by lia. reflexivity. }
  assert (Hbig : 2 ^ 59 <= m').
  { rewrite Hm'.
    destruct (Z_le_gt_dec d1 60) as [Hle|Hgt].
    - replace 59 with ((d1 - 1) + sh) by lia.
      rewrite Z.pow_add_r by lia.
      apply Z.mul_le_mono_nonneg_r; [apply Z.pow_nonneg; lia|exact Hlo].
    - replace sh with 0 by lia. rewrite Z.mul_1_r.
      apply Z.le_trans with (2 ^ (d1 - 1)); [|exact Hlo].
      apply Z.pow_le_mono_r; lia. }
  pose proof (Z_div_mod m' 100 ltac:(lia)) as Hdm.
  destruct (Z.div_eucl m' 100) as [q r]. destruct Hdm as [Hq Hr].
  assert (H59 : 2 ^ 59 = 576460752303423488) by reflexivity.
  assert (Hqpos : 0 < q) by lia.
  destruct q as [|q|q]; try lia.
  apply binary_round_aux_signed.
  unfold emin, prec, emax. lia.
Qed.

Lemma ofDecimal_hundredths_signed (negative : bool) (h : N) :
  (0 < h)%N -> signed negative (ofDecimal negative h (-2)).
Proof.
  intros Hh. destruct h as [|p]; [lia|].
  unfold ofDecimal. change (10 ^ 2)%positive with 100%positive.
  apply ofRatio_hundred_signed.
Qed.

End Hundredths.

Lemma hundredths_truthy (negative : bool) (h : N) :
  toBoolean (VStr (hundredths negative h)) = true
  /\ isString (VStr (hundredths negative h)) NA = false.
Proof.
  unfold hundredths. destruct negative; split; try reflexivity;
    cbn [isString]; unfold streq; apply bool_decide_eq_false;
    intros H; discriminate H.
Qed.

(** X24.  The colour of a change cell follows the change on display.  A
    Daily Change or Contribution cell that shows a signed change with
    two decimals gets the class positive-change when the sign is plus,
    negative-change when it is minus, and no class at all when the value
    shown is 0.00, whatever its sign. *)
Theorem cell_colour (row : Formatted) (header : jsstring) (negative : bool)
    (h : N) :
  header = js "Daily Change" \/ header = js "Contribution" ->
  getField row header = VStr (hundredths negative h) ->
  dataCell row header
  = js "<td"
      ++ (if (h =? 0)%N then []
          else js " class="
                 ++ quoted (if negative then js "negative-change"
                            else js "positive-change"))
      ++ js ">" ++ hundredths negative h ++ js "</td>" ++ nl.
Proof.
  intros Hheader Hcell. unfold dataCell. rewrite Hcell.
  destruct (hundredths_truthy negative h) as [-> ->].
  assert (Hcol : streq header (js "Daily Change")
                 || streq header (js "Contribution") = true)
    by (destruct Hheader as [-> | ->]; vm_compute; reflexivity).
  rewrite Hcol. cbn [andb negb toString].
  rewrite hundredths_read_back.
  destruct (N.eqb_spec h 0) as [->|Hne].
  - destruct negative; reflexivity.
  - pose proof (ofDecimal_hundredths_signed negative h ltac:(lia)) as Hs.
    assert (Hg : gtb (ofDecimal negative h (-2)) zero = negb negative)
      by exact (ltb_zero_signed negative _ Hs).
    rewrite Hg, (ltb_signed_zero negative _ Hs).
    destruct negative; reflexivity.
Qed.

Lemma cell_colour_witness :
  dataCell [(js "Daily Change", VStr (js "-0.54%"))] (js "Daily Change")
  = js "<td class=" ++ quoted (js "negative-change") ++ js ">-0.54%</td>"
      ++ nl.
Proof.
  rewrite (cell_colour [(js "Daily Change", VStr (js "-0.54%"))]
             (js "Daily Change") true 54);
    [vm_compute; reflexivity | left; reflexivity | vm_compute; reflexivity].
Defined.

(** ** Zeros in the total *)

Section Sums.

Local Open Scope Z_scope.

(** A sum is the zero with a minus sign only when both terms are. *)
Lemma add_not_minus_zero (a b : number) :
  wellFormed a -> wellFormed b -> notMinusZero a -> notMinusZero (add a b).
Proof.
  unfold wellFormed, notMinusZero, add.
  destruct a as [sa|sa| |sa ma ea], b as [sb|sb| |sb mb eb];
    intros Ha Hb Hna; cbn [SFadd]; try discriminate;
    try (destruct sa, sb; first [discriminate | contradiction]).
  cbn [valid_binary] in Ha, Hb.
  destruct (bounded_canonical ma ea Ha) as (Hea & _ & _).
  destruct (bounded_canonical mb eb Hb) as (Heb & _ & _).
  set (d := cond_Zopp sa _ + cond_Zopp sb _).
  destruct d as [|m|m]; cbn [binary_normalize]; [discriminate| |].
  - destruct (binary_round_signed false m (Z.min ea eb) ltac:(lia))
      as [->|(m' & e' & ->)]; discriminate.
  - destruct (binary_round_signed true m (Z.min ea eb) ltac:(lia))
      as [->|(m' & e' & ->)]; discriminate.
Qed.

End Sums.

(** Adding a zero changes nothing, unless the sum so far is the zero
    with a minus sign. *)
Lemma add_zero_r (a b : number) :
  notMinusZero a -> isZero b = true -> add a b = a.
Proof.
  unfold notMinusZero. intros Ha Hb.
  destruct b as [sb|sb| |sb mb eb]; try discriminate Hb.
  destruct a as [sa|sa| |sa ma ea]; try reflexivity.
  destruct sa; [contradiction|]. destruct sb; reflexivity.
Qed.

Lemma fold_add_skips_zeros (items : list Enriched) :
  Forall (fun item => wellFormed (contribution item)) items ->
  forall sum,
    wellFormed sum -> notMinusZero sum ->
    fold_left (fun sum item => add sum (contribution item)) items sum
    = fold_left (fun sum item => add sum (contribution item))
        (List.filter (fun item => negb (isZero (contribution item))) items)
        sum.
Proof.
  induction 1 as [|x items Hx Hitems IH]; intros sum Hw Hn; [reflexivity|].
  cbn [fold_left List.filter].
  destruct (isZero (contribution x)) eqn:Hz; cbn [negb].
  - rewrite (add_zero_r sum _ Hn Hz). apply IH; assumption.
  - cbn [fold_left]. apply IH.
    + apply add_wellFormed; assumption.
    + apply add_not_minus_zero; assumption.
Qed.

(** X25.  Holdings whose contribution is a zero do not change the fund
    total, and the holdings without a quote are among them: the total
    over the ranked holdings is the total over those of them whose
    contribution is not zero, in the same order (the weights being
    numbers of the format). *)
Theorem zero_rows_and_total (prices : gmap jsstring jsstring)
    (rows : list Row) :
  Forall (fun row => wellFormedValue (PCT_HOLDINGS row)) rows ->
  let ranked := sortByContribution (dataWithContributions prices rows) in
  totalContribution ranked
  = totalContribution
      (List.filter (fun item => negb (isZero (contribution item))) ranked)
  /\ forall item,
       In item ranked -> hasQuote (dailyChangeStr item) = false ->
       isZero (contribution item) = true.
Proof.
  intros Hrows ranked. split.
  - unfold totalContribution. apply fold_add_skips_zeros;
      [|reflexivity|discriminate].
    subst ranked.
    apply (Permutation_Forall
             (Permutation_sym (arraySort_perm byContribution _))).
    unfold dataWithContributions. apply List.Forall_forall.
    intros item Hin. apply in_map_iff in Hin as (row & <- & Hin).
    apply enrich_wellFormed.
    rewrite List.Forall_forall in Hrows. exact (Hrows row Hin).
  - intros item Hin Hq. subst ranked.
    apply (Permutation_in _ (arraySort_perm byContribution _)) in Hin.
    unfold dataWithContributions in Hin.
    apply in_map_iff in Hin as (row & <- & _).
    revert Hq. unfold enrich.
    destruct (prices !! toString (TICKER row)) as [str|]; [|reflexivity].
    destruct (hasQuote (Some str)) eqn:Hh; cbn [dailyChangeStr contribution];
      [rewrite Hh; discriminate|reflexivity].
Qed.

Lemma zero_rows_and_total_witness :
  totalContribution (sortByContribution exampleItems)
  = totalContribution
      (List.filter (fun item => negb (isZero (contribution item)))
                   (sortByContribution exampleItems)).
Proof.
  apply (zero_rows_and_total examplePrices
           [holding "XYZ" (ofDecimal false 5 (-2));
            holding "CLZ5" (ofDecimal false 10 (-2))]).
  repeat constructor; apply ofDecimal_wellFormed.
Defined.
